(** * RTMP stream setup assistant: port-conflict resolution and device selection

    A shallow embedding of the decision logic of [setupRTMP6.py]: the process
    probe ([find_process_using_port], [kill_process_by_pid]), the port
    conflict resolver ([handle_port_conflict]), the device classification of
    [parse_device_line], the device selector ([select_device_from_list]), the
    server start orchestration ([start_mona_server]) and the exit paths.

    The script is a sequence of blocking calls on the operating system, on
    the console and on the operator.  These are modelled by an explicit
    [World] that every function threads, and by an outcome type that keeps
    apart a normal return, a Python exception and [sys.exit]. *)

From Stdlib Require Import ZArith String Ascii List Bool Lia.
From Stdlib Require Import DecimalString DecimalPos DecimalZ.
Import ListNotations.
Open Scope string_scope.
Open Scope Z_scope.

(** ** Python strings

    A Python [str] is embedded as a [string] of bytes (its UTF-8 encoding).
    Every test the script makes on identifiers and ports looks for ASCII
    characters only, and no byte of a multi-byte UTF-8 sequence is ASCII, so
    the byte view answers them as the code-point view does. *)

Module PyStr.

(** [needle in s] *)
Fixpoint contains (needle s : string) : bool :=
  prefix needle s
  || match s with
     | EmptyString => false
     | String _ rest => contains needle rest
     end.

(** [c in chars] for a single character [c] *)
Fixpoint char_in (c : ascii) (chars : string) : bool :=
  match chars with
  | EmptyString => false
  | String d rest => Ascii.eqb c d || char_in c rest
  end.

(** [all(p(c) for c in s)] *)
Fixpoint all_chars (p : ascii -> bool) (s : string) : bool :=
  match s with
  | EmptyString => true
  | String c rest => p c && all_chars p rest
  end.

(** [s.split(sep)[0]] for a one-character separator: the part of [s]
    before the first [sep], all of [s] when [sep] does not occur. *)
Fixpoint split_head (sep : ascii) (s : string) : string :=
  match s with
  | EmptyString => EmptyString
  | String c rest =>
      if Ascii.eqb c sep then EmptyString else String c (split_head sep rest)
  end.

(** The ASCII characters Python counts as white space: tab, line feed,
    vertical tab, form feed, carriage return, the four separators
    0x1c..0x1f and the space. *)
Definition is_space (c : ascii) : bool :=
  let n := N_of_ascii c in
  ((9 <=? n) && (n <=? 13) || (28 <=? n) && (n <=? 32))%N.

Fixpoint lstrip (s : string) : string :=
  match s with
  | String c rest => if is_space c then lstrip rest else s
  | EmptyString => EmptyString
  end.

Fixpoint rstrip (s : string) : string :=
  match s with
  | EmptyString => EmptyString
  | String c rest =>
      match rstrip rest with
      | EmptyString => if is_space c then EmptyString else String c EmptyString
      | kept => String c kept
      end
  end.

(** [s.strip()] *)
Definition strip (s : string) : string := rstrip (lstrip s).

Definition lower_char (c : ascii) : ascii :=
  let n := N_of_ascii c in
  if ((65 <=? n) && (n <=? 90))%N then ascii_of_N (n + 32) else c.

Definition upper_char (c : ascii) : ascii :=
  let n := N_of_ascii c in
  if ((97 <=? n) && (n <=? 122))%N then ascii_of_N (n - 32) else c.

(** [s.lower()], on the ASCII letters *)
Fixpoint lower (s : string) : string :=
  match s with
  | EmptyString => EmptyString
  | String c rest => String (lower_char c) (lower rest)
  end.

(** [s.capitalize()], on the ASCII letters *)
Definition capitalize (s : string) : string :=
  match s with
  | EmptyString => EmptyString
  | String c rest => String (upper_char c) (lower rest)
  end.

(** [str(n)] for an integer *)
Definition of_Z (n : Z) : string := NilZero.string_of_int (Z.to_int n).

(** [sep.join(parts)] *)
Fixpoint join (sep : string) (parts : list string) : string :=
  match parts with
  | [] => EmptyString
  | [p] => p
  | p :: rest => p ++ sep ++ join sep rest
  end.

(** Truth value of a [str] in a condition: every string but the empty one. *)
Definition truthy (s : string) : bool := negb (s =? "")%string.

Definition is_digit (c : ascii) : bool :=
  let n := N_of_ascii c in ((48 <=? n) && (n <=? 57))%N.

Definition digit_value (c : ascii) : Z := Z.of_N (N_of_ascii c) - 48.

(** The digits of a decimal literal, most significant first: a digit, then
    digits each of which may be preceded by one underscore.  [acc] is the
    value read so far and [after_digit] tells whether the last character
    was a digit. *)
Fixpoint digits (s : string) (acc : Z) (after_digit : bool) : option Z :=
  match s with
  | EmptyString => if after_digit then Some acc else None
  | String c rest =>
      if is_digit c then digits rest (10 * acc + digit_value c) true
      else if Ascii.eqb c "_" && after_digit then
        match rest with
        | String d _ => if is_digit d then digits rest acc false else None
        | EmptyString => None
        end
      else None
  end.

(** The white space [int] skips around a literal: that of C's [isspace],
    which has not the separators 0x1c..0x1f of [str.strip]. *)
Definition is_int_space (c : ascii) : bool :=
  let n := N_of_ascii c in ((9 <=? n) && (n <=? 13) || (n =? 32))%N.

Fixpoint skip_left (s : string) : string :=
  match s with
  | String c rest => if is_int_space c then skip_left rest else s
  | EmptyString => EmptyString
  end.

Fixpoint skip_right (s : string) : string :=
  match s with
  | EmptyString => EmptyString
  | String c rest =>
      match skip_right rest with
      | EmptyString => if is_int_space c then EmptyString else String c EmptyString
      | kept => String c kept
      end
  end.

(** [int(s)] in base ten, for an ASCII [s]: surrounding white space is
    dropped, one sign is allowed, and [None] stands for [ValueError]. *)
Definition int (s : string) : option Z :=
  match skip_right (skip_left s) with
  | String "-" body => option_map Z.opp (digits body 0 false)
  | String "+" body => digits body 0 false
  | body => digits body 0 false
  end.

End PyStr.

(** ** The world the script runs in

    Sockets, processes, files, the operator's keyboard and the console are
    outside the script.  The script only observes and changes them through
    [psutil], [subprocess], [rich] and the builtins, so one record holds what
    these calls read and write. *)

(** One entry of [psutil.net_connections(kind="inet")].  [laddr_port] is
    [None] for an entry whose [laddr] is the empty tuple, on which
    [c.laddr.port] raises [AttributeError].  [conn_pid] is an integer, as
    the return annotation [Optional[Tuple[int, str]]] of
    [find_process_using_port] has it; an entry whose pid [psutil] cannot
    tell is an entry of [Precise.Sconn] further down. *)
Record Conn := {
  laddr_port : option Z;
  conn_status : string;
  conn_pid : Z
}.

Definition CONN_LISTEN : string := "LISTEN".

(** What the operating system does with a process on [Process.kill()]. *)
Inductive KillBehaviour :=
| KillDies      (* the process exits within the wait and releases its sockets *)
| KillLingers   (* the signal is delivered, the process is still there after the wait *)
| KillDenied    (* [kill()] raises [AccessDenied] *)
| KillVanished. (* the process went away by itself: [kill()] raises [NoSuchProcess] *)

(** A running process as [psutil] shows it.  [proc_name] is [None] when
    reading the name raises [AccessDenied]; [proc_exe] and [proc_cmdline]
    are the values of [process_iter]'s [info] dictionary. *)
Record Proc := {
  proc_pid : Z;
  proc_name : option string;
  proc_exe : option string;
  proc_cmdline : option (list string);
  proc_on_kill : KillBehaviour
}.

(** What the operator does at a read: type a line, or interrupt (Ctrl-C). *)
Inductive Key :=
| Line (s : string)
| CtrlC.

(** What the script did that can be seen from outside, oldest first. *)
Inductive Event :=
| Print (text : string)                            (* [console.print], [print] *)
| Panel (body title : string)                      (* [console.print(Panel(...))] *)
| Table (title : string) (rows : list (list string))
| Ask (prompt : string)                            (* a [rich] prompt is shown and read *)
| Refused (answer : string)                        (* [rich] rejects an answer and asks again *)
| Input                                            (* the builtin [input()] reads a line *)
| KillCall (pid : Z)                               (* [Process.kill()] is called *)
| Sleep (milliseconds : Z)                         (* [time.sleep] *)
| Popen (path : string)                            (* [subprocess.Popen] is called *)
| NetConnections.                                  (* [psutil.net_connections] is called *)

(** Result of one bridge shell query ([subprocess.run] with a timeout). *)
Inductive RunResult :=
| Completed (returncode : Z) (stdout : string)
| RunTimeout
| RunError.

Record World := {
  platform_system : string;                 (* [platform.system()] *)
  net_connections : option (list Conn);     (* [None]: the enumeration raises *)
  processes : list Proc;
  keyboard : list Key;                      (* what the operator will do, in order *)
  journal : list Event;
  regular_files : list string;              (* the paths [Path.is_file()] accepts *)
  popen_effect : option (list Proc * list Conn);
    (* [None]: [Popen] raises [OSError]; otherwise the processes and sockets
       that are there, because of the spawn, once the settle delay is over *)
  getprop : string -> string -> RunResult;  (* device id, property: the bridge's answer *)
  third_party_importable : bool;            (* the third-party imports succeed *)
  find_spec : string -> bool                (* [importlib.util.find_spec] finds the module *)
}.

Definition set_journal (j : list Event) (w : World) : World :=
  {| platform_system := platform_system w; net_connections := net_connections w;
     processes := processes w; keyboard := keyboard w; journal := j;
     regular_files := regular_files w; popen_effect := popen_effect w;
     getprop := getprop w; third_party_importable := third_party_importable w;
     find_spec := find_spec w |}.

Definition set_keyboard (k : list Key) (w : World) : World :=
  {| platform_system := platform_system w; net_connections := net_connections w;
     processes := processes w; keyboard := k; journal := journal w;
     regular_files := regular_files w; popen_effect := popen_effect w;
     getprop := getprop w; third_party_importable := third_party_importable w;
     find_spec := find_spec w |}.

Definition set_os (ps : list Proc) (cs : option (list Conn)) (w : World) : World :=
  {| platform_system := platform_system w; net_connections := cs;
     processes := ps; keyboard := keyboard w; journal := journal w;
     regular_files := regular_files w; popen_effect := popen_effect w;
     getprop := getprop w; third_party_importable := third_party_importable w;
     find_spec := find_spec w |}.

Definition record (es : list Event) (w : World) : World :=
  set_journal (journal w ++ es) w.

(** ** Outcomes and the monad of the script

    A call returns, raises a Python exception, or leaves through
    [sys.exit] (Python's [SystemExit], which no handler of the script
    catches).  In the three cases the world goes on from where the call left
    it.  A fourth outcome is the end of the script by a kill of its own
    process: nothing of the script runs after it. *)

Inductive Exn :=
| ValueError | AssertionError | AttributeError | EOFError | ImportError | OSError
| KeyError | NoSuchProcess | AccessDenied | TimeoutExpired
| MarkupError
| KeyboardInterrupt.

(** [except Exception] catches everything but [KeyboardInterrupt]. *)
Definition is_Exception (e : Exn) : bool :=
  match e with KeyboardInterrupt => false | _ => true end.

Definition exn_eqb (a b : Exn) : bool :=
  match a, b with
  | ValueError, ValueError | AssertionError, AssertionError
  | AttributeError, AttributeError | EOFError, EOFError
  | ImportError, ImportError | OSError, OSError | KeyError, KeyError
  | NoSuchProcess, NoSuchProcess | AccessDenied, AccessDenied
  | TimeoutExpired, TimeoutExpired | MarkupError, MarkupError
  | KeyboardInterrupt, KeyboardInterrupt => true
  | _, _ => false
  end.

Inductive Outcome (A : Type) : Type :=
| Returned (a : A) (w : World)
| Raised (e : Exn) (w : World)
| Exited (status : Z) (w : World)
| Killed (w : World).

Arguments Returned {A} a w.
Arguments Raised {A} e w.
Arguments Exited {A} status w.
Arguments Killed {A} w.

Definition Py (A : Type) : Type := World -> Outcome A.

Definition ret {A} (a : A) : Py A := fun w => Returned a w.

Definition bind {A B} (c : Py A) (k : A -> Py B) : Py B :=
  fun w => match c w with
           | Returned a w' => k a w'
           | Raised e w' => Raised e w'
           | Exited s w' => Exited s w'
           | Killed w' => Killed w'
           end.

Definition raise {A} (e : Exn) : Py A := fun w => Raised e w.

(** [sys.exit(status)] *)
Definition sys_exit {A} (status : Z) : Py A := fun w => Exited status w.

(** [try: body / except <catches> as e: handler e] *)
Definition try_except {A} (body : Py A) (catches : Exn -> bool) (handler : Exn -> Py A) : Py A :=
  fun w => match body w with
           | Raised e w' => if catches e then handler e w' else Raised e w'
           | o => o
           end.

Declare Scope py_scope.
Delimit Scope py_scope with py.
Notation "x <- c ;; k" := (bind c (fun x => k))
  (at level 100, c at next level, right associativity) : py_scope.
Notation "c ;;; k" := (bind c (fun _ => k))
  (at level 100, right associativity) : py_scope.
Notation "' pat <- c ;; k" := (bind c (fun x => match x with pat => k end))
  (at level 100, pat pattern, c at next level, right associativity) : py_scope.
Open Scope py_scope.

Definition emit (e : Event) : Py unit := fun w => Returned tt (record [e] w).

(** [console.print(text)] *)
Definition console_print (text : string) : Py unit := emit (Print text).

(** [time.sleep] *)
Definition time_sleep (milliseconds : Z) : Py unit := emit (Sleep milliseconds).

(** ** The libraries the script calls *)

Definition nl : string := String (ascii_of_nat 10) EmptyString.

(** What stands for the text [str(e)] of an exception inside a message:
    the name of its class; the text itself depends on the arguments the
    library has given the exception. *)
Definition exn_text (e : Exn) : string :=
  match e with
  | ValueError => "ValueError" | AssertionError => "AssertionError"
  | AttributeError => "AttributeError" | EOFError => "EOFError"
  | ImportError => "ImportError" | OSError => "OSError" | KeyError => "KeyError"
  | NoSuchProcess => "NoSuchProcess" | AccessDenied => "AccessDenied"
  | TimeoutExpired => "TimeoutExpired" | MarkupError => "MarkupError"
  | KeyboardInterrupt => "KeyboardInterrupt"
  end.

Module psutil.

Definition find_proc (pid : Z) (ps : list Proc) : option Proc :=
  find (fun p => proc_pid p =? pid) ps.

(** The world once the process [pid] is gone: it has left the process table
    and the operating system has released its sockets. *)
Definition without_process (pid : Z) (w : World) : World :=
  set_os (filter (fun p => negb (proc_pid p =? pid)) (processes w))
         (option_map (filter (fun c => negb (conn_pid c =? pid))) (net_connections w))
         w.

(** [psutil.net_connections(kind="inet")]; a failing enumeration raises
    [psutil.AccessDenied]. *)
Definition net_connections_call : Py (list Conn) :=
  fun w => match net_connections w with
           | Some cs => Returned cs (record [NetConnections] w)
           | None => Raised AccessDenied (record [NetConnections] w)
           end.

(** [psutil.Process(pid)] *)
Definition Process (pid : Z) : Py Proc :=
  fun w => match find_proc pid (processes w) with
           | Some p => Returned p w
           | None => Raised NoSuchProcess w
           end.

(** [p.name()] *)
Definition name (p : Proc) : Py string :=
  match proc_name p with
  | Some n => ret n
  | None => raise AccessDenied
  end.

(** [p.kill()] *)
Definition kill (p : Proc) : Py unit :=
  fun w =>
    let w1 := record [KillCall (proc_pid p)] w in
    match proc_on_kill p with
    | KillDies => Returned tt (without_process (proc_pid p) w1)
    | KillLingers => Returned tt w1
    | KillDenied => Raised AccessDenied w1
    | KillVanished => Raised NoSuchProcess (without_process (proc_pid p) w1)
    end.

(** [p.wait(timeout=1)]: returns when the process is gone, raises
    [TimeoutExpired] when it is still there after the timeout. *)
Definition wait (p : Proc) : Py unit :=
  fun w => match find_proc (proc_pid p) (processes w) with
           | Some _ => Raised TimeoutExpired w
           | None => Returned tt w
           end.

(** [psutil.process_iter(["name", "exe", "cmdline"])] *)
Definition process_iter : Py (list Proc) := fun w => Returned (processes w) w.

(** The exceptions [except psutil.Error] catches. *)
Definition is_Error (e : Exn) : bool :=
  match e with
  | NoSuchProcess | AccessDenied | TimeoutExpired => true
  | _ => false
  end.

End psutil.

(** [platform.system()] *)
Definition platform_system_call : Py string := fun w => Returned (platform_system w) w.

(** The builtin [input()]: the operator's next line.  A closed input raises
    [EOFError], an interrupt raises [KeyboardInterrupt]. *)
Definition input : Py string :=
  fun w => match keyboard w with
           | [] => Raised EOFError (record [Input] w)
           | Line s :: rest => Returned s (set_keyboard rest (record [Input] w))
           | CtrlC :: rest => Raised KeyboardInterrupt (set_keyboard rest (record [Input] w))
           end.

Module rich.

(** The [default] argument of a prompt: absent, a [bool] or a [str]. *)
Inductive Default :=
| NoDefault
| DefaultBool (b : bool)
| DefaultStr (s : string).

(** Truth value of the default when a prompt returns it as it is. *)
Definition default_truthy (d : Default) : bool :=
  match d with
  | NoDefault => false
  | DefaultBool b => b
  | DefaultStr s => PyStr.truthy s
  end.

(** The loop of [PromptBase.__call__]: show the prompt, read a line, return
    what [process] makes of it, or refuse the line and start again.  It runs
    along the operator's remaining keys. *)
Fixpoint ask_loop {A} (prompt : string) (process : string -> option A)
    (keys : list Key) (w : World) : Outcome A :=
  match keys with
  | [] => Raised EOFError (set_keyboard [] (record [Ask prompt] w))
  | CtrlC :: rest => Raised KeyboardInterrupt (set_keyboard rest (record [Ask prompt] w))
  | Line s :: rest =>
      match process s with
      | Some a => Returned a (set_keyboard rest (record [Ask prompt] w))
      | None => ask_loop prompt process rest (record [Ask prompt; Refused s] w)
      end
  end.

Definition string_in (s : string) (l : list string) : bool :=
  existsb (String.eqb s) l.

(** [Prompt.ask(prompt, choices=choices, show_choices=False)]: no default,
    the stripped answer has to be one of the choices. *)
Definition Prompt_ask (prompt : string) (choices : list string) : Py string :=
  fun w =>
    ask_loop prompt
      (fun line => let v := PyStr.strip line in
                   if string_in v choices then Some v else None)
      (keyboard w) w.

(** [Confirm.ask(prompt, choices=choices, default=default)], as the truth
    value the caller tests.  An empty line returns the default itself; any
    other line is stripped and lowered, has to be one of the choices, and
    means yes when it is the first choice. *)
Definition Confirm_ask (prompt : string) (choices : list string) (default : Default) : Py bool :=
  fun w =>
    ask_loop prompt
      (fun line =>
         match line, default with
         | EmptyString, DefaultBool _ | EmptyString, DefaultStr _ =>
             Some (default_truthy default)
         | _, _ =>
             let v := PyStr.lower (PyStr.strip line) in
             if string_in v choices then Some (v =? hd EmptyString choices)%string
             else None
         end)
      (keyboard w) w.

End rich.

Module subprocess.

(** [subprocess.Popen([path], ...)]: the call returns at once; the world
    then holds what the spawn brings about. *)
Definition Popen (path : string) : Py unit :=
  fun w =>
    let w1 := record [Popen path] w in
    match popen_effect w with
    | None => Raised OSError w1
    | Some (ps, cs) =>
        Returned tt (set_os (processes w1 ++ ps)
                            (option_map (fun old => (old ++ cs)%list) (net_connections w1)) w1)
    end.

End subprocess.

(** [Path(p).name] for the absolute paths [psutil] reports: the last
    component, with [/] as separator and, on Windows, the backslash too. *)
Fixpoint path_parts (is_sep : ascii -> bool) (s : string) : list string :=
  match s with
  | EmptyString => [EmptyString]
  | String c rest =>
      if is_sep c then EmptyString :: path_parts is_sep rest
      else match path_parts is_sep rest with
           | [] => [String c EmptyString]
           | hd :: tl => String c hd :: tl
           end
  end.

Definition Path_name (windows : bool) (p : string) : string :=
  let is_sep c := Ascii.eqb c "/" || (windows && Ascii.eqb c "\") in
  let parts := filter (fun part => negb ((part =? "") || (part =? "."))%string)
                      (path_parts is_sep p) in
  last parts EmptyString.

(** ** Configuration and device records *)

(** One entry of [Config.devices]: the dictionary [parse_device_line]
    builds, with its six keys. *)
Record Device := {
  dev_id : string;
  dev_status : string;
  dev_details : string;
  dev_connection : string;
  dev_icon : string;
  dev_name : string
}.

(** The dataclass [Config]; a path is kept as its text. *)
Record Config := {
  adb_path : option string;
  monaserver_path : option string;
  obs_path : option string;
  package_name : string;
  rtmp_port : string;
  auto_start_monaserver : bool;
  auto_select_single_device : bool;
  fetch_device_models : bool;
  force_kill_port_process : bool;
  devices : list Device
}.

(** [config.devices = ds] *)
Definition set_devices (ds : list Device) (c : Config) : Config :=
  {| adb_path := adb_path c; monaserver_path := monaserver_path c;
     obs_path := obs_path c; package_name := package_name c;
     rtmp_port := rtmp_port c; auto_start_monaserver := auto_start_monaserver c;
     auto_select_single_device := auto_select_single_device c;
     fetch_device_models := fetch_device_models c;
     force_kill_port_process := force_kill_port_process c; devices := ds |}.

Definition SYMBOL_CHECK : string := "✓".
Definition SYMBOL_WARNING : string := "⚠".

Definition is_none {A} (o : option A) : bool :=
  match o with None => true | Some _ => false end.

(** ** Exit paths *)

(** [exit_with_error(message)]: present the error, wait for a line from the
    operator, leave with status 1.  It never returns, so it fits any type. *)
Definition exit_with_error {A} (message : string) : Py A :=
  console_print (nl ++ "[danger]ERROR: " ++ message ++ "[/danger]" ++ nl
                 ++ "[italic]Press Enter to exit...[/italic]") ;;;
  _ <- input ;;
  sys_exit 1.

(** ** Device bridge client: one parsed line *)

(** One bridge shell query, [subprocess.run([adb, "-s", device_id, "shell",
    "getprop", prop], timeout=2)], as return code and standard output; the
    only [TimeoutExpired] of [get_device_model] is the one of this call. *)
Definition adb_getprop (device_id prop : string) : Py (Z * string) :=
  fun w => match getprop w device_id prop with
           | Completed rc out => Returned (rc, out) w
           | RunTimeout => Raised TimeoutExpired w
           | RunError => Raised OSError w
           end.

Definition get_device_model (model_config : Config) (device_id : string) : Py string :=
  if negb (fetch_device_models model_config) || is_none (adb_path model_config)
  then ret "Unknown"
  else
    try_except
      ('(rc, out) <- adb_getprop device_id "ro.product.model" ;;
       let model := if rc =? 0 then PyStr.strip out else "" in
       if PyStr.truthy model then ret model
       else
         '(rc_mfg, out_mfg) <- adb_getprop device_id "ro.product.manufacturer" ;;
         let mfg := if rc_mfg =? 0 then PyStr.strip out_mfg else "" in
         ret (if PyStr.truthy mfg then mfg ++ " (Model N/A)" else "Unknown"))
      is_Exception
      (fun e => match e with
                | TimeoutExpired => ret "Unknown (Timeout)"
                | _ => ret "Unknown (Error)"
                end).

(** The connection and icon [parse_device_line] derives from the device
    identifier [did]. *)
Definition connection_of (did : string) : string * string :=
  if PyStr.contains "_adb-tls-connect" did then ("Wi-Fi", "📶")
  else if PyStr.contains ":" did
          && PyStr.all_chars (fun c => PyStr.char_in c "0123456789.")
                             (PyStr.split_head ":" did)
       then ("Wi-Fi", "📶")
       else if PyStr.contains "emulator" did then ("Emulator", "💻")
            else ("USB", "🔌").

(** [parse_device_line(p_config, match)] on the three groups of the match
    (the third is optional).  The progress bar it may advance is display
    only and left out. *)
Definition parse_device_line (p_config : Config)
    (groups : string * string * option string) : Py Device :=
  let '(did, stat, det) := groups in
  let '(conn, icon) := connection_of did in
  name <- (if (stat =? "device")%string
           then if fetch_device_models p_config
                then get_device_model p_config did
                else ret "Unknown"
           else ret ("(" ++ PyStr.capitalize stat ++ ")")) ;;
  ret {| dev_id := did; dev_status := stat;
         dev_details := match det with Some d => d | None => "" end;
         dev_connection := conn; dev_icon := icon; dev_name := name |}.

(** ** Device selector *)

Definition enumerate {A} (l : list A) : list (nat * A) :=
  combine (seq 0 (length l)) l.

Definition is_selectable (d : Device) : bool := (dev_status d =? "device")%string.

Definition any_status (s : string) (ds : list Device) : bool :=
  existsb (fun d => (dev_status d =? s)%string) ds.

Definition device_row (entry : nat * Device) : list string :=
  let '(i, d) := entry in
  let is_s := is_selectable d in
  let s_style := if is_s then "success"
                 else if (dev_status d =? "unauthorized")%string then "warning"
                      else "error" in
  [ if is_s then PyStr.of_Z (Z.of_nat i + 1) else "-";
    dev_icon d ++ " " ++ dev_name d;
    "[" ++ s_style ++ "]" ++ PyStr.capitalize (dev_status d) ++ "[/]";
    dev_connection d;
    dev_id d ].

Definition choice_line (entry : nat * Device) : string :=
  let '(i, d) := entry in
  " [highlight][" ++ PyStr.of_Z (Z.of_nat i + 1) ++ "] [/]" ++ dev_icon d ++ " "
  ++ dev_name d ++ " (" ++ dev_connection d ++ ") [dim]" ++ dev_id d ++ "[/]".

Fixpoint print_lines (lines : list string) : Py unit :=
  match lines with
  | [] => ret tt
  | l :: rest => console_print l ;;; print_lines rest
  end.

(** [cmap[s]] *)
Fixpoint lookup (s : string) (cmap : list (string * Device)) : option Device :=
  match cmap with
  | [] => None
  | (k, d) :: rest => if (k =? s)%string then Some d else lookup s rest
  end.

Definition select_device_from_list (current_config : Config) : Py (option Device) :=
  let devices := devices current_config in
  let sel := filter is_selectable devices in
  match devices with
  | [] =>
      emit (Panel "[warning]No devices found.[/warning]" "[danger]No Devices[/danger]") ;;;
      ret None
  | _ =>
      emit (Table "Detected Devices" (map device_row (enumerate devices))) ;;;
      match sel with
      | [] =>
          let msgs :=
            (["[danger]No operational devices.[/danger]"]
             ++ (if any_status "unauthorized" devices
                 then ["[warning]Check auth prompt.[/warning]"] else [])
             ++ (if any_status "offline" devices
                 then ["[warning]Reconnect offline device.[/warning]"] else []))%list in
          emit (Panel (PyStr.join nl msgs) "[danger]Selection Error[/danger]") ;;;
          ret None
      | d :: _ =>   (* [d] is [sel[0]] *)
          if (length sel =? 1)%nat && auto_select_single_device current_config
          then
            console_print ("[success]" ++ SYMBOL_CHECK ++ " Auto-selecting: [bold]"
                           ++ dev_icon d ++ " " ++ dev_name d ++ "[/bold]") ;;;
            ret (Some d)
          else
            console_print "[info]Multiple devices. Select one:[/info]" ;;;
            let choices := map (fun e => PyStr.of_Z (Z.of_nat (fst e) + 1)) (enumerate sel) in
            let cmap := map (fun e => (PyStr.of_Z (Z.of_nat (fst e) + 1), snd e))
                            (enumerate sel) in
            print_lines (map choice_line (enumerate sel)) ;;;
            try_except
              (s <- rich.Prompt_ask "Enter selection" choices ;;
               match lookup s cmap with
               | Some chosen =>
                   console_print ("[success]" ++ SYMBOL_CHECK ++ " Selected: [bold]"
                                  ++ dev_icon chosen ++ " " ++ dev_name chosen ++ "[/bold]") ;;;
                   ret (Some chosen)
               | None => raise KeyError
               end)
              (exn_eqb KeyboardInterrupt)
              (fun _ => console_print (nl ++ "[warning]Cancelled.[/warning]") ;;; sys_exit 0)
      end
  end.

(** ** Process probe *)

(** The loop of [find_process_using_port] over the enumerated entries.  A
    matching entry whose process cannot be resolved ([NoSuchProcess],
    [AccessDenied]) lets the loop go on; any other exception leaves it. *)
Fixpoint scan_connections (port : Z) (cs : list Conn) : Py (option (Z * string)) :=
  match cs with
  | [] => ret None
  | c :: rest =>
      match laddr_port c with
      | None => raise AttributeError
      | Some local_port =>
          if (local_port =? port) && (conn_status c =? CONN_LISTEN)%string
          then
            try_except
              (p <- psutil.Process (conn_pid c) ;;
               n <- psutil.name p ;;
               ret (Some (conn_pid c, n)))
              (fun e => exn_eqb NoSuchProcess e || exn_eqb AccessDenied e)
              (fun _ => scan_connections port rest)
          else scan_connections port rest
      end
  end.

Definition find_process_using_port (port : Z) : Py (option (Z * string)) :=
  if negb ((0 <? port) && (port <=? 65535)) then ret None
  else
    try_except
      (cs <- psutil.net_connections_call ;;
       scan_connections port cs)
      (fun e => psutil.is_Error e || exn_eqb OSError e || exn_eqb AttributeError e)
      (fun _ => ret None).

(** The text [{name} (PID:{pid})] the messages share. *)
Definition who (name : string) (pid : Z) : string :=
  name ++ " (PID:" ++ PyStr.of_Z pid ++ ")".

Definition kill_process_by_pid (pid : Z) (name : string) : Py bool :=
  system <- platform_system_call ;;
  if (pid =? 0) && (system =? "Windows")%string
  then
    console_print "[error]Cannot kill PID 0 (System Idle Process).[/error]" ;;;
    ret false
  else
    let who := who name pid in
    try_except
      (p <- psutil.Process pid ;;
       console_print ("[info]Killing " ++ who ++ "...[/info]") ;;;
       psutil.kill p ;;;
       try_except (psutil.wait p)
         (exn_eqb TimeoutExpired)
         (fun _ => console_print ("[warning]" ++ who ++ " linger.[/warning]")) ;;;
       console_print ("[success]Kill signal sent to " ++ who ++ ".[/success]") ;;;
       ret true)
      is_Exception
      (fun e => match e with
                | NoSuchProcess =>
                    console_print ("[warning]" ++ who ++ " gone.[/warning]") ;;;
                    ret true
                | _ =>
                    console_print ("[danger]Kill error " ++ who ++ ": " ++ exn_text e
                                   ++ "[/danger]") ;;;
                    ret false
                end).

(** ** Port conflict resolver *)

(** The first statement of [handle_port_conflict]: [int(port_str)] and the
    range assertion, with the default 1935 on [ValueError] and on
    [AssertionError]. *)
Definition parse_port (port_str : string) : Py Z :=
  try_except
    (match PyStr.int port_str with
     | None => raise ValueError
     | Some port =>
         if (0 <? port) && (port <=? 65535) then ret port else raise AssertionError
     end)
    (fun e => exn_eqb ValueError e || exn_eqb AssertionError e)
    (fun _ =>
       console_print ("[danger]Invalid port: " ++ port_str ++ ". Using 1935.[/danger]") ;;;
       ret 1935).

(** The condition of the kill in [handle_port_conflict]: the force-kill
    policy, or else the operator's answer to the kill prompt. *)
Definition kill_wanted (p_config : Config) (pid : Z) (name : string) : Py bool :=
  if force_kill_port_process p_config then ret true
  else rich.Confirm_ask ("Kill " ++ who name pid ++ "?") ["y"; "n"] (rich.DefaultStr "y").

(** The branch [if info:] of [handle_port_conflict], for the occupant
    [(pid, name)] the probe has found. *)
Definition occupied (port : Z) (p_config : Config) (pid : Z) (name : string)
    : Py (bool * option Z) :=
  console_print ("[warning]" ++ SYMBOL_WARNING ++ " Port TCP:" ++ PyStr.of_Z port
                 ++ " in use by " ++ who name pid ++ ".[/warning]") ;;;
  kill_it <- kill_wanted p_config pid name ;;
  if kill_it then
    killed <- kill_process_by_pid pid name ;;
    (if killed then
       console_print ("[success]" ++ SYMBOL_CHECK ++ " Port " ++ PyStr.of_Z port
                      ++ " freed.[/success]") ;;;
       time_sleep 500
     else ret tt) ;;;
    ret (killed, if killed then None else Some pid)
  else
    skip <- rich.Confirm_ask "Skip port conflict?" ["y"; "n"] (rich.DefaultStr "n") ;;
    if skip then
      console_print "[warning]Skipping. Streaming may fail.[/warning]" ;;;
      ret (false, Some pid)
    else exit_with_error ("Port " ++ PyStr.of_Z port ++ " conflict unresolved.").

(** The rest of [handle_port_conflict], from the line that announces the
    check on. *)
Definition check_port (port : Z) (p_config : Config) : Py (bool * option Z) :=
  console_print ("[info]Checking port TCP:" ++ PyStr.of_Z port ++ "...[/info]") ;;;
  info <- find_process_using_port port ;;
  match info with
  | Some (pid, name) => occupied port p_config pid name
  | None => ret (true, None)
  end.

Definition handle_port_conflict (port_str : string) (p_config : Config)
    : Py (bool * option Z) :=
  port <- parse_port port_str ;;
  check_port port p_config.

(** ** Server start orchestration *)

(** [int(s)] as a call: [ValueError] when [s] is no decimal literal. *)
Definition int_call (s : string) : Py Z :=
  match PyStr.int s with
  | Some n => ret n
  | None => raise ValueError
  end.

(** [Path.is_file()], taken to answer: the path is one the file system
    can look up. *)
Definition is_file (path : string) : Py bool :=
  fun w => Returned (rich.string_in path (regular_files w)) w.

(** The test [check_monaserver_process] makes on one process. *)
Definition looks_like_mona (windows : bool) (p : Proc) : bool :=
  let mona_exe_name_base := "MonaServer" in
  let mona_exe := PyStr.lower (mona_exe_name_base ++ (if windows then ".exe" else "")) in
  let p_name := PyStr.lower (match proc_name p with Some n => n | None => "" end) in
  let p_exe := PyStr.lower (Path_name windows
                              (match proc_exe p with Some e => e | None => "" end)) in
  (mona_exe =? p_name)%string || (mona_exe =? p_exe)%string
  || match proc_cmdline p with
     | Some args =>
         existsb (fun arg => PyStr.contains (PyStr.lower mona_exe_name_base) (PyStr.lower arg))
                 args
     | None => false
     end.

Definition check_monaserver_process : Py bool :=
  system <- platform_system_call ;;
  ps <- psutil.process_iter ;;
  ret (existsb (looks_like_mona (system =? "Windows")%string) ps).

(** The three-way report of [start_mona_server] once the server was spawned
    and not detected; the tests are evaluated left to right and only as far
    as needed, as [and] does. *)
Definition report_undetected (config : Config) (still_conflicting_pid : option Z) : Py unit :=
  port_free <- (match still_conflicting_pid with
                | None =>
                    port <- int_call (rtmp_port config) ;;
                    occupant <- find_process_using_port port ;;
                    ret (is_none occupant)
                | Some _ => ret false
                end) ;;
  if port_free then
    console_print "[warning]MonaServer launched, but status check failed and port is not taken. Verify manually.[/warning]"
  else
    port <- int_call (rtmp_port config) ;;
    occupant <- find_process_using_port port ;;
    taken_by_other <- (match occupant with
                       | Some _ => running <- check_monaserver_process ;; ret (negb running)
                       | None => ret false
                       end) ;;
    if taken_by_other then
      console_print ("[warning]MonaServer launched, but status check failed. Port TCP:"
                     ++ rtmp_port config
                     ++ " might be taken by another process. Verify manually.[/warning]")
    else
      console_print "[warning]MonaServer launched, but status check failed. Verify manually.[/warning]".

(** The branch [if not check_monaserver_process():] after the spawn: the
    resolver is run again, the finding is reported, and the start is left
    unconfirmed. *)
Definition unconfirmed_start (config : Config) : Py (option bool) :=
  '(_, still_conflicting_pid) <- handle_port_conflict (rtmp_port config) config ;;
  report_undetected config still_conflicting_pid ;;;
  ret None.

(** What [start_mona_server] does from the spawn on, inside its [try]. *)
Definition spawn_and_verify (config : Config) (path : string) : Py (option bool) :=
  subprocess.Popen path ;;;
  console_print ("[success]" ++ SYMBOL_CHECK
                 ++ " MonaServer start command issued. Output should appear below (if any).[/success]") ;;;
  time_sleep 1500 ;;;
  running <- check_monaserver_process ;;
  if negb running then unconfirmed_start config
  else ret (Some true).

(** The handler [except Exception as e:] of [start_mona_server]. *)
Definition start_failed (e : Exn) : Py (option bool) :=
  console_print ("[danger]MonaServer start failed: " ++ exn_text e ++ "[/danger]") ;;;
  ret (Some false).

(** [start_mona_server(config)]: [Some true] stands for [True], [Some false]
    for [False] and [None] for the unconfirmed [None]. *)
Definition start_mona_server (config : Config) : Py (option bool) :=
  running <- check_monaserver_process ;;
  if running then
    console_print ("[success]" ++ SYMBOL_CHECK ++ " MonaServer already running.[/success]") ;;;
    ret (Some true)
  else
    usable <- (match monaserver_path config with
               | Some path => is_file path
               | None => ret false
               end) ;;
    match monaserver_path config, usable with
    | Some path, true =>
        '(port_clear, conflicting_pid) <- handle_port_conflict (rtmp_port config) config ;;
        if negb port_clear then
          console_print ("[danger]MonaServer: Port TCP:" ++ rtmp_port config
                         ++ " conflict (PID "
                         ++ match conflicting_pid with
                            | Some pid => PyStr.of_Z pid
                            | None => "None"
                            end
                         ++ "). Cannot start.[/danger]") ;;;
          ret (Some false)
        else
          console_print ("[info]Starting MonaServer: [dimmed]" ++ path ++ "[/dimmed]") ;;;
          try_except (spawn_and_verify config path) is_Exception start_failed
    | _, _ =>
        console_print ("[danger]MonaServer path ('"
                       ++ match monaserver_path config with Some p => p | None => "None" end
                       ++ "') is not set or invalid.[/danger]") ;;;
        ret (Some false)
    end.

(** ** Start of the script *)


Fixpoint repeat_string (s : string) (n : nat) : string :=
  match n with
  | O => EmptyString
  | S k => s ++ repeat_string s k
  end.

Definition DIVIDER_WIDTH : Z := 40.

(** [step_divider(emoji, title)]; [title_len] is [len(title)], the number
    of characters of the title. *)
Definition step_divider (emoji title : string) (title_len : Z) : Py unit :=
  let left_dashes := 5 in
  let right_dashes := Z.max 0 (DIVIDER_WIDTH - title_len - left_dashes) in
  console_print ("[dim]" ++ repeat_string "─" (Z.to_nat left_dashes) ++ "[/dim] " ++ emoji
                 ++ " [bold cyan]" ++ title ++ "[/bold cyan] [dim]"
                 ++ repeat_string "─" (Z.to_nat right_dashes) ++ "[/dim]").

Section Main.

(** The collaborators of the main block that lie outside the decision logic:
    the logo, the settings store, the bridge invocations, the clipboard and
    the rendering of the summary.  The main block is stated for any
    behaviour of theirs. *)
Variable LOGO : string.
Variable load_config : Py Config.
Variable check_adb_version : Config -> Py (bool * string).
Variable find_connected_devices : Config -> Py (list Device).
Variable setup_port_forwarding : Config -> Device -> Py bool.
Variable launch_app : Config -> Device -> Py bool.
Variable copy_to_clipboard : Config -> Py unit.
Variable print_summary :
  Config -> bool * string -> Device -> bool * option Z -> bool -> bool -> option bool -> Py unit.

(** The block under [if __name__ == "__main__":].  It ends in [sys.exit],
    so it never returns.  The [finally] clause of its last read only
    closes the file dialog's window and is left out. *)
Definition main : Py unit :=
  console_print LOGO ;;;
  emit (Panel "[white]RTMP Stream Setup Assistant[/]" "") ;;;
  step_divider "⚙️" "Configuration" 13 ;;;
  config <- load_config ;;
  port_result <- handle_port_conflict (rtmp_port config) config ;;
  let '(port_conflict_resolved, conflicting_pid_at_start) := port_result in
  (match conflicting_pid_at_start with
   | Some pid =>
       if negb port_conflict_resolved then
         console_print ("[warning]Port TCP:" ++ rtmp_port config ++ " conflict (PID "
                        ++ PyStr.of_Z pid
                        ++ ") was not resolved. MonaServer might fail to start or bind.[/warning]")
       else ret tt
   | None => ret tt
   end) ;;;
  step_divider "🔍" "ADB Verification" 16 ;;;
  adb <- check_adb_version config ;;
  let '(adb_ok, adb_version) := adb in
  (if negb adb_ok then exit_with_error ("ADB check failed: " ++ adb_version) else ret tt) ;;;
  step_divider "📱" "Device Selection" 16 ;;;
  found <- find_connected_devices config ;;
  let config := set_devices found config in
  selected <- select_device_from_list config ;;
  match selected with
  | None => exit_with_error "No device selected."
  | Some selected_device =>
      step_divider "🚀" "Setup Execution" 15 ;;;
      port_forwarding <- setup_port_forwarding config selected_device ;;
      (if negb port_forwarding then
         go_on <- rich.Confirm_ask "Port forwarding failed. Continue anyway?" ["y"; "n"]
                                   (rich.DefaultBool false) ;;
         if negb go_on then exit_with_error "Aborted: port forwarding failure." else ret tt
       else ret tt) ;;;
      app_launch <- launch_app config selected_device ;;
      copy_to_clipboard config ;;;
      mona <- (if auto_start_monaserver config then start_mona_server config
               else
                 console_print "[info]Auto-start MonaServer is disabled in config.[/info]" ;;;
                 running <- check_monaserver_process ;;
                 if running then
                   console_print "[info]MonaServer is already running (checked manually).[/info]" ;;;
                   ret (Some true)
                 else ret None) ;;
      step_divider "📊" "Summary" 7 ;;;
      print_summary config adb selected_device port_result port_forwarding app_launch mona ;;;
      console_print (nl ++ "[italic]Press Enter to exit...[/italic]") ;;;
      try_except (_ <- input ;; ret tt)
        (exn_eqb KeyboardInterrupt)
        (fun _ => console_print (nl ++ "Exiting.")) ;;;
      sys_exit 0
  end.


End Main.


(** ** Device bridge client: the device list *)

(** What [subprocess.run(..., check=True)] gives for the device listing: the
    standard output of a run that ended with return code 0, or the text of
    the exception it raises (a timeout, a missing executable, a return code
    other than 0). *)
Inductive CheckedRun :=
| CheckedOutput (stdout : string)
| CheckedFailure (error_text : string).

Module PyText.

(** The text below is taken to be ASCII, as the output of the bridge is: on
    ASCII text the classes [\w] and [\s] and the line boundaries are the
    ones given here. *)
Definition is_ascii_char (c : ascii) : bool := (N_of_ascii c <? 128)%N.

Definition is_ascii (s : string) : bool := PyStr.all_chars is_ascii_char s.

(** The line boundaries of [str.splitlines]: line feed, vertical tab, form
    feed, carriage return and the separators 0x1c..0x1e. *)
Definition is_linebreak (c : ascii) : bool :=
  let n := N_of_ascii c in
  ((10 <=? n) && (n <=? 13) || (28 <=? n) && (n <=? 30))%N.

Definition is_CR (c : ascii) : bool := (N_of_ascii c =? 13)%N.
Definition is_LF (c : ascii) : bool := (N_of_ascii c =? 10)%N.

(** [s.splitlines()]: a carriage return followed by a line feed is one
    boundary, and a boundary at the very end opens no further line. *)
Fixpoint splitlines (s : string) : list string :=
  match s with
  | EmptyString => []
  | String c rest =>
      if is_linebreak c then
        match rest with
        | String d rest' =>
            if is_CR c && is_LF d then EmptyString :: splitlines rest'
            else EmptyString :: splitlines rest
        | EmptyString => [EmptyString]
        end
      else
        match splitlines rest with
        | [] => [String c EmptyString]
        | line :: lines => String c line :: lines
        end
  end.

(** [\w]: a letter, a digit or the underscore. *)
Definition is_word_char (c : ascii) : bool :=
  let n := N_of_ascii c in
  ((48 <=? n) && (n <=? 57) || (65 <=? n) && (n <=? 90)
   || (97 <=? n) && (n <=? 122) || (n =? 95))%N.

(** The longest prefix of [s] whose characters satisfy [p], and what
    follows it: what a greedy [p+] or [p*] takes when nothing after it makes
    it give characters back. *)
Fixpoint span (p : ascii -> bool) (s : string) : string * string :=
  match s with
  | EmptyString => (EmptyString, EmptyString)
  | String c rest =>
      if p c then let '(taken, remaining) := span p rest in (String c taken, remaining)
      else (EmptyString, s)
  end.

(** [s] without the prefix [p], when it begins with it. *)
Fixpoint strip_prefix (p s : string) : option string :=
  match p with
  | EmptyString => Some s
  | String a p' =>
      match s with
      | String b s' => if Ascii.eqb a b then strip_prefix p' s' else None
      | EmptyString => None
      end
  end.

End PyText.

(** The character class [[\w.\-:]] of a device identifier. *)
Definition is_id_char (c : ascii) : bool :=
  PyText.is_word_char c || PyStr.char_in c ".-:".

Definition STATUS_TOKENS : list string := ["device"; "offline"; "unauthorized"].

(** The end of the pattern after the status token: nothing more, or white
    space and the detail, which is the rest of the line. *)
Definition match_detail (did token after : string)
    : option (string * string * option string) :=
  match after with
  | EmptyString => Some (did, token, None)
  | _ =>
      let '(spaces, detail) := PyText.span PyStr.is_space after in
      if (spaces =? "")%string then None else Some (did, token, Some detail)
  end.

(** The alternatives of the status group, tried in order. *)
Fixpoint match_status (did : string) (tokens : list string) (s : string)
    : option (string * string * option string) :=
  match tokens with
  | [] => None
  | token :: others =>
      match PyText.strip_prefix token s with
      | Some after =>
          match match_detail did token after with
          | Some groups => Some groups
          | None => match_status did others s
          end
      | None => match_status did others s
      end
  end.

(** [pattern.match(line)] for the pattern of [find_connected_devices] on a
    line without line boundary: one or more identifier characters (group
    1), white space, one of the three status tokens (group 2), then either
    the end of the line or white space and the rest of the line (group 3).
    The result is the three groups of the match, or [None].  The identifier
    class and the white space have no character in common, so the greedy
    identifier and the greedy white space cannot give back. *)
Definition match_device_line (line : string) : option (string * string * option string) :=
  let '(did, after_id) := PyText.span is_id_char line in
  if (did =? "")%string then None
  else
    let '(spaces, after_spaces) := PyText.span PyStr.is_space after_id in
    if (spaces =? "")%string then None
    else match_status did STATUS_TOKENS after_spaces.

(** The loops of [find_connected_devices] over [lines[1:]]: with or without
    the progress display, the record of every line that matches, in
    order. *)
Fixpoint parse_lines (current_config : Config) (lines : list string) : Py (list Device) :=
  match lines with
  | [] => ret []
  | line :: rest =>
      match match_device_line (PyStr.strip line) with
      | Some groups =>
          d <- parse_device_line current_config groups ;;
          found <- parse_lines current_config rest ;;
          ret (d :: found)
      | None => parse_lines current_config rest
      end
  end.

(** [find_connected_devices(current_config)], for the answer [listing] of
    the bridge to [adb devices -l]. *)
Definition find_connected_devices (listing : CheckedRun) (current_config : Config)
    : Py (list Device) :=
  if is_none (adb_path current_config) then ret []
  else
    console_print "[info]Scanning for connected devices..." ;;;
    match listing with
    | CheckedFailure error_text =>
        console_print ("[danger]'adb devices' error: " ++ error_text ++ "[/danger]") ;;;
        ret []
    | CheckedOutput stdout =>
        let lines := PyText.splitlines (PyStr.strip stdout) in
        if (length lines <=? 1)%nat then ret []
        else parse_lines current_config (tl lines)
    end.

(** ** The summary row of the host port *)

(** [add_s(item, flag, det, ok, fail, warn, na)] of the main block, as the
    row it adds to the summary; [flag] is [True], [False] or [None], and
    [conflicting_pid_at_start] is the variable of the main block the
    function reads. *)
Definition add_s (conflicting_pid_at_start : option Z) (item : string) (flag : option bool)
    (det ok fail warn na : string) : list string :=
  let by_flag := match flag with
                 | Some true => ("success", ok)
                 | Some false => ("danger", fail)
                 | None => ("dimmed", na)
                 end in
  let '(style, txt) :=
    if (item =? "Host Port")%string then
      match flag, conflicting_pid_at_start with
      | Some true, _ => ("success", ok)
      | Some false, Some _ => ("warning", warn)
      | _, _ => by_flag
      end
    else by_flag in
  [item; "[" ++ style ++ "]" ++ txt ++ "[/]"; det].

(** The text [host_port_details] of the main block, from the pair the first
    port check returned. *)
Definition host_port_details (config : Config) (port_result : bool * option Z) : string :=
  let '(port_conflict_resolved, conflicting_pid_at_start) := port_result in
  "Host TCP:" ++ rtmp_port config
  ++ match conflicting_pid_at_start with
     | Some pid =>
         if negb port_conflict_resolved
         then " (Initial conflict PID:" ++ PyStr.of_Z pid ++ " unresolved)"
         else ""
     | None =>
         if negb port_conflict_resolved then " (Conflict status unclear)" else ""
     end.

(** The row [Host Port] of the summary. *)
Definition host_port_row (config : Config) (port_result : bool * option Z) : list string :=
  add_s (snd port_result) "Host Port" (Some (fst port_result))
        (host_port_details config port_result)
        "Clear/Resolved" "CONFLICT" "UNRESOLVED" "No Conflict".

(** ** The check of the bridge *)

(** What [subprocess.run(..., check=False)] gives: the completed process
    with its return code and its two outputs, or the text of the exception
    it raises (a timeout, a missing executable). *)
Inductive Run :=
| Ran (returncode : Z) (stdout stderr : string)
| RunFailure (error_text : string).

(** What follows a dot at the head of [s]. *)
Definition after_dot (s : string) : option string := PyText.strip_prefix "." s.

(** A match of the version pattern of [check_adb_version] that begins at
    the head of [s]: the word [Version], white space, then (group 1) three
    runs of digits with a dot between them.  Every repetition is greedy and
    is followed by a character outside its class, so none gives back. *)
Definition version_at (s : string) : option string :=
  match PyText.strip_prefix "Version" s with
  | None => None
  | Some after_word =>
      let '(spaces, after_spaces) := PyText.span PyStr.is_space after_word in
      let '(major, after_major) := PyText.span PyStr.is_digit after_spaces in
      match after_dot after_major with
      | None => None
      | Some s_minor =>
          let '(minor, after_minor) := PyText.span PyStr.is_digit s_minor in
          match after_dot after_minor with
          | None => None
          | Some s_patch =>
              let '(patch, _) := PyText.span PyStr.is_digit s_patch in
              if (spaces =? "")%string || (major =? "")%string
                 || (minor =? "")%string || (patch =? "")%string
              then None
              else Some (major ++ "." ++ minor ++ "." ++ patch)
          end
      end
  end.

(** [re.search] with that pattern: group 1 of the leftmost match. *)
Fixpoint search_version (s : string) : option string :=
  match version_at s with
  | Some version => Some version
  | None =>
      match s with
      | String _ rest => search_version rest
      | EmptyString => None
      end
  end.

(** [check_adb_version(current_config)], for the answer [run] of the bridge
    to [adb version]. *)
Definition check_adb_version (run : Run) (current_config : Config) : Py (bool * string) :=
  if is_none (adb_path current_config) then ret (false, "ADB path not set")
  else
    match run with
    | RunFailure error_text => ret (false, "Execution error: " ++ error_text)
    | Ran returncode stdout stderr =>
        match (if (returncode =? 0) && PyStr.truthy stdout then search_version stdout
               else None) with
        | Some version => ret (true, version)
        | None =>
            ret (false, if PyStr.truthy (PyStr.strip stderr) then PyStr.strip stderr
                        else "No version output")
        end
    end.
(** * Vocabulary of the properties *)

Definition in_range (port : Z) : bool := (0 <? port) && (port <=? 65535).

(** An entry the probe looks for: bound to [port] and listening. *)
Definition listens_on (port : Z) (c : Conn) : bool :=
  match laddr_port c with
  | Some local_port => (local_port =? port) && (conn_status c =? CONN_LISTEN)%string
  | None => false
  end.

(** The owner of an entry as the probe resolves it. *)
Definition owner_name (w : World) (c : Conn) : option string :=
  match psutil.find_proc (conn_pid c) (processes w) with
  | Some p => proc_name p
  | None => None
  end.

(** An entry the probe passes over: it has a local address, and it is not
    the one looked for or its owner cannot be resolved (the process has
    vanished or its name is out of reach). *)
Definition passed_over (w : World) (port : Z) (c : Conn) : Prop :=
  laddr_port c <> None /\ (listens_on port c = false \/ owner_name w c = None).

(** The loop of the probe as a function of the process table; the outer
    [None] is the [AttributeError] of an entry without local address. *)
Fixpoint scan_value (ps : list Proc) (port : Z) (cs : list Conn)
    : option (option (Z * string)) :=
  match cs with
  | [] => Some None
  | c :: rest =>
      match laddr_port c with
      | None => None
      | Some local_port =>
          if (local_port =? port) && (conn_status c =? CONN_LISTEN)%string
          then match psutil.find_proc (conn_pid c) ps with
               | Some p =>
                   match proc_name p with
                   | Some n => Some (Some (conn_pid c, n))
                   | None => scan_value ps port rest
                   end
               | None => scan_value ps port rest
               end
          else scan_value ps port rest
      end
  end.

(** The value the probe returns: the world-independent part of
    [find_process_using_port]. *)
Definition probe (port : Z) (w : World) : option (Z * string) :=
  match find_process_using_port port w with
  | Returned r _ => r
  | _ => None
  end.

Definition probed (port : Z) (w : World) : World :=
  if in_range port then record [NetConnections] w else w.

(** Whether [kill_process_by_pid] refuses the identifier: pid 0 on Windows. *)
Definition refused (pid : Z) (w : World) : bool :=
  (pid =? 0) && (platform_system w =? "Windows")%string.

(** The result of [kill_process_by_pid pid name] and the world it leaves,
    case by case. *)
Definition after_kill (pid : Z) (name : string) (w : World) : bool * World :=
  if refused pid w then
    (false, record [Print "[error]Cannot kill PID 0 (System Idle Process).[/error]"] w)
  else
    match psutil.find_proc pid (processes w) with
    | None => (true, record [Print ("[warning]" ++ who name pid ++ " gone.[/warning]")] w)
    | Some p =>
        let called := record [Print ("[info]Killing " ++ who name pid ++ "...[/info]");
                              KillCall pid] w in
        match proc_on_kill p with
        | KillDies =>
            (true, record [Print ("[success]Kill signal sent to " ++ who name pid ++ ".[/success]")]
                     (psutil.without_process pid called))
        | KillLingers =>
            (true, record [Print ("[warning]" ++ who name pid ++ " linger.[/warning]");
                           Print ("[success]Kill signal sent to " ++ who name pid ++ ".[/success]")]
                     called)
        | KillDenied =>
            (false, record [Print ("[danger]Kill error " ++ who name pid ++ ": AccessDenied[/danger]")]
                      called)
        | KillVanished =>
            (true, record [Print ("[warning]" ++ who name pid ++ " gone.[/warning]")]
                     (psutil.without_process pid called))
        end
    end.


(** *** Worlds and configurations the properties are tried on *)

Definition bare_world : World :=
  {| platform_system := "Windows"; net_connections := Some []; processes := [];
     keyboard := []; journal := []; regular_files := ["C:\mona\MonaServer.exe"];
     popen_effect := None; getprop := fun _ _ => RunError;
     third_party_importable := true; find_spec := fun _ => true |}.

Definition old_server (behaviour : KillBehaviour) : Proc :=
  {| proc_pid := 500; proc_name := Some "OldServer";
     proc_exe := Some "C:\srv\OldServer.exe"; proc_cmdline := Some ["OldServer.exe"];
     proc_on_kill := behaviour |}.

Definition listener (port pid : Z) : Conn :=
  {| laddr_port := Some port; conn_status := CONN_LISTEN; conn_pid := pid |}.

(** Port 1935 is held by process 500, [OldServer]. *)
Definition occupied_world (behaviour : KillBehaviour) (keys : list Key) : World :=
  set_keyboard keys (set_os [old_server behaviour] (Some [listener 1935 500]) bare_world).

Definition sample_config (force : bool) : Config :=
  {| adb_path := Some "C:\platform-tools\adb.exe";
     monaserver_path := Some "C:\mona\MonaServer.exe"; obs_path := None;
     package_name := "com.example.app/com.example.app.Main"; rtmp_port := "1935";
     auto_start_monaserver := true; auto_select_single_device := true;
     fetch_device_models := false; force_kill_port_process := force; devices := [] |}.

(** *** The resolver *)

(** The port strings [handle_port_conflict] accepts as they are. *)
Definition valid_port_string (port_str : string) : bool :=
  match PyStr.int port_str with
  | Some n => in_range n
  | None => false
  end.

(** The port [handle_port_conflict] checks for a port string. *)
Definition port_checked (port_str : string) : Z :=
  match PyStr.int port_str with
  | Some n => if in_range n then n else 1935
  | None => 1935
  end.

Definition invalid_port_notice (port_str : string) : Event :=
  Print ("[danger]Invalid port: " ++ port_str ++ ". Using 1935.[/danger]").

Definition checking_notice (port : Z) : Event :=
  Print ("[info]Checking port TCP:" ++ PyStr.of_Z port ++ "...[/info]").

Definition in_use_notice (port pid : Z) (name : string) : Event :=
  Print ("[warning]" ++ SYMBOL_WARNING ++ " Port TCP:" ++ PyStr.of_Z port
         ++ " in use by " ++ who name pid ++ ".[/warning]").

Definition freed_notice (port : Z) : Event :=
  Print ("[success]" ++ SYMBOL_CHECK ++ " Port " ++ PyStr.of_Z port ++ " freed.[/success]").

Definition linger_warning (pid : Z) (name : string) : Event :=
  Print ("[warning]" ++ who name pid ++ " linger.[/warning]").

Definition error_notice (message : string) : Event :=
  Print (nl ++ "[danger]ERROR: " ++ message ++ "[/danger]" ++ nl
         ++ "[italic]Press Enter to exit...[/italic]").

(** Two worlds with the same sockets, processes and platform. *)
Definition same_os (w w' : World) : Prop :=
  processes w' = processes w /\ net_connections w' = net_connections w
  /\ platform_system w' = platform_system w.

(** The operator's input is over or interrupted. *)
Definition operator_left (e : Exn) : Prop := e = EOFError \/ e = KeyboardInterrupt.

(** The world in which the occupied state is entered: the port string has
    been read, the check announced, the sockets enumerated and the conflict
    reported. *)
Definition at_conflict (port_str : string) (pid : Z) (name : string) (w : World) : World :=
  let port := port_checked port_str in
  record [in_use_notice port pid name]
    (probed port
       (record [checking_notice port]
          (if valid_port_string port_str then w
           else record [invalid_port_notice port_str] w))).

(** The world [handle_port_conflict "1935"] leaves under the force-kill
    policy when the occupant lingers after the kill. *)
Definition lingering_world_after : World :=
  record [checking_notice 1935; NetConnections; in_use_notice 1935 500 "OldServer";
          Print "[info]Killing OldServer (PID:500)...[/info]"; KillCall 500;
          linger_warning 500 "OldServer";
          Print "[success]Kill signal sent to OldServer (PID:500).[/success]";
          freed_notice 1935; Sleep 500]
         (occupied_world KillLingers []).

(** The world [handle_port_conflict "1935"] leaves under the force-kill
    policy when the kill is denied. *)
Definition denied_world_after : World :=
  record [checking_notice 1935; NetConnections; in_use_notice 1935 500 "OldServer";
          Print "[info]Killing OldServer (PID:500)...[/info]"; KillCall 500;
          Print "[danger]Kill error OldServer (PID:500): AccessDenied[/danger]"]
         (occupied_world KillDenied []).

(** Three sockets: a foreign port, a listener on 1935 whose owner (pid 7)
    is not in the process table any more, and the listener of process 500
    on 1935. *)
Definition crowded_world : World :=
  set_os [old_server KillDies]
         (Some [listener 80 4; listener 1935 7; listener 1935 500])
         bare_world.

(** *** Device classification and selection *)

Definition WIRELESS_MARKER : string := "_adb-tls-connect".

(** The test of [parse_device_line] on the part of the identifier before
    its first colon: there is a colon, and nothing but digits and dots
    before it. *)
Definition colon_after_digits_and_dots (did : string) : bool :=
  PyStr.contains ":" did
  && PyStr.all_chars (fun c => PyStr.char_in c "0123456789.") (PyStr.split_head ":" did).

(** [s] without its leading digits. *)
Fixpoint drop_digits (s : string) : string :=
  match s with
  | String c rest => if PyStr.is_digit c then drop_digits rest else s
  | EmptyString => EmptyString
  end.

(** What follows a decimal number at the head of [s], if there is one. *)
Definition number (s : string) : option string :=
  match s with
  | String c rest => if PyStr.is_digit c then Some (drop_digits rest) else None
  | EmptyString => None
  end.

(** What follows the character [ch] at the head of [s], if it is there. *)
Definition symbol (ch : ascii) (s : string) : option string :=
  match s with
  | String c rest => if Ascii.eqb c ch then Some rest else None
  | EmptyString => None
  end.

Definition and_then {A B} (o : option A) (f : A -> option B) : option B :=
  match o with
  | Some a => f a
  | None => None
  end.

(** The claim's words, "a dotted-quad-with-port prefix": the identifier
    begins with four decimal numbers separated by dots, a colon and a
    decimal number. *)
Definition dotted_quad_with_port (did : string) : bool :=
  match and_then (number did) (fun s =>
        and_then (symbol "." s) (fun s =>
        and_then (number s) (fun s =>
        and_then (symbol "." s) (fun s =>
        and_then (number s) (fun s =>
        and_then (symbol "." s) (fun s =>
        and_then (number s) (fun s =>
        and_then (symbol ":" s) number))))))) with
  | Some _ => true
  | None => false
  end.

(** The classification as the claim words it. *)
Definition claimed_connection (did : string) : string :=
  if PyStr.contains WIRELESS_MARKER did || dotted_quad_with_port did then "Wi-Fi"
  else if PyStr.contains "emulator" did then "Emulator"
       else "USB".


Definition devices_table (ds : list Device) : Event :=
  Table "Detected Devices" (map device_row (enumerate ds)).

Definition auto_select_notice (d : Device) : Event :=
  Print ("[success]" ++ SYMBOL_CHECK ++ " Auto-selecting: [bold]"
         ++ dev_icon d ++ " " ++ dev_name d ++ "[/bold]").

Definition usb_phone (serial : string) : Device :=
  {| dev_id := serial; dev_status := "device"; dev_details := "";
     dev_connection := "USB"; dev_icon := "🔌"; dev_name := "Unknown" |}.

Definition locked_phone : Device :=
  {| dev_id := "LOCKED1"; dev_status := "unauthorized"; dev_details := "";
     dev_connection := "USB"; dev_icon := "🔌"; dev_name := "(Unauthorized)" |}.

(** *** Server start *)

(** The value of [check_monaserver_process] in a world. *)
Definition mona_running (w : World) : bool :=
  existsb (looks_like_mona (platform_system w =? "Windows")%string) (processes w).

Definition already_running_notice : Event :=
  Print ("[success]" ++ SYMBOL_CHECK ++ " MonaServer already running.[/success]").

Definition starting_notice (path : string) : Event :=
  Print ("[info]Starting MonaServer: [dimmed]" ++ path ++ "[/dimmed]").

Definition issued_notice : Event :=
  Print ("[success]" ++ SYMBOL_CHECK
         ++ " MonaServer start command issued. Output should appear below (if any).[/success]").

Definition mona_server : Proc :=
  {| proc_pid := 900; proc_name := Some "MonaServer.exe";
     proc_exe := Some "C:\mona\MonaServer.exe"; proc_cmdline := Some ["C:\mona\MonaServer.exe"];
     proc_on_kill := KillDies |}.

(** Nothing listens on 1935 and no server runs; the spawned server does not
    come up, and by the end of the settle delay process 500 holds the
    port.  The operator will decline the kill, decline to skip and
    acknowledge the error. *)
Definition contested_world : World :=
  {| platform_system := "Windows"; net_connections := Some []; processes := [];
     keyboard := [Line "n"; Line "n"; Line ""]; journal := [];
     regular_files := ["C:\mona\MonaServer.exe"];
     popen_effect := Some ([old_server KillDies], [listener 1935 500]);
     getprop := fun _ _ => RunError; third_party_importable := true;
     find_spec := fun _ => true |}.

(** The world [start_mona_server] leaves from [contested_world]. *)
Definition contested_world_after : World :=
  set_keyboard []
    (record [checking_notice 1935; NetConnections;
             starting_notice "C:\mona\MonaServer.exe"; Popen "C:\mona\MonaServer.exe";
             issued_notice; Sleep 1500;
             checking_notice 1935; NetConnections; in_use_notice 1935 500 "OldServer";
             Ask "Kill OldServer (PID:500)?"; Ask "Skip port conflict?";
             error_notice "Port 1935 conflict unresolved."; Input]
       (set_os [old_server KillDies] (Some [listener 1935 500]) contested_world)).

(** *** Exit paths *)



(** What is on the console when the selection prompt is shown first. *)
Definition selection_shown (current_config : Config) : list Event :=
  ([devices_table (devices current_config);
    Print "[info]Multiple devices. Select one:[/info]"]
   ++ map Print (map choice_line
                     (enumerate (filter is_selectable (devices current_config)))))%list.

(** The prompt shown and a line refused, for each line in turn. *)
Definition refusals (prompt : string) (lines : list string) : list Event :=
  flat_map (fun l => [Ask prompt; Refused l]) lines.


(** The text [step_divider] prints. *)
Definition divider_notice (emoji title : string) (title_len : Z) : Event :=
  Print ("[dim]" ++ repeat_string "─" (Z.to_nat 5) ++ "[/dim] " ++ emoji
         ++ " [bold cyan]" ++ title ++ "[/bold cyan] [dim]"
         ++ repeat_string "─" (Z.to_nat (Z.max 0 (DIVIDER_WIDTH - title_len - 5)))
         ++ "[/dim]").

(** What the main block prints before it loads the configuration. *)
Definition banner (LOGO : string) : list Event :=
  [Print LOGO; Panel "[white]RTMP Stream Setup Assistant[/]" "";
   divider_notice "⚙️" "Configuration" 13].

(** The warning of the main block after an unresolved first port check. *)
Definition port_warning (config : Config) (r : bool * option Z) : list Event :=
  match r with
  | (false, Some pid) =>
      [Print ("[warning]Port TCP:" ++ rtmp_port config ++ " conflict (PID "
              ++ PyStr.of_Z pid
              ++ ") was not resolved. MonaServer might fail to start or bind.[/warning]")]
  | _ => []
  end.

(** Collaborators to try the main block with: a stored configuration, a
    bridge that answers, two attached phones. *)
Definition stored_config : Py Config := ret (sample_config true).
Definition adb_answers (_ : Config) : Py (bool * string) := ret (true, "1.0.41").
Definition two_phones (_ : Config) : Py (list Device) :=
  ret [usb_phone "ABC123"; usb_phone "DEF456"].
Definition forwarding_works (_ : Config) (_ : Device) : Py bool := ret true.
Definition app_starts (_ : Config) (_ : Device) : Py bool := ret true.
Definition clipboard_works (_ : Config) : Py unit := ret tt.
Definition plain_summary (_ : Config) (_ : bool * string) (_ : Device)
    (_ : bool * option Z) (_ _ : bool) (_ : option bool) : Py unit :=
  console_print "Summary".

(** A machine on which [rich] is not installed. *)
Definition world_without_rich : World :=
  {| platform_system := "Windows"; net_connections := Some []; processes := [];
     keyboard := [Line ""]; journal := []; regular_files := [];
     popen_effect := None; getprop := fun _ _ => RunError;
     third_party_importable := false;
     find_spec := fun m => negb (m =? "rich")%string |}.



(** *** Vocabulary of the further properties *)

(** The world an outcome leaves. *)
Definition outcome_world {A} (o : Outcome A) : World :=
  match o with
  | Returned _ w => w
  | Raised _ w => w
  | Exited _ w => w
  | Killed w => w
  end.

(** From [w] to [w'] nothing was done to the operating system: same sockets,
    processes and platform, and no kill call that [w] had not seen. *)
Definition nothing_killed (w w' : World) : Prop :=
  same_os w w'
  /\ forall pid, In (KillCall pid) (journal w') -> In (KillCall pid) (journal w).

Definition is_kill_call (e : Event) : bool :=
  match e with
  | KillCall _ => true
  | _ => false
  end.

Definition selected_notice (d : Device) : Event :=
  Print ("[success]" ++ SYMBOL_CHECK ++ " Selected: [bold]"
         ++ dev_icon d ++ " " ++ dev_name d ++ "[/bold]").


Definition path_invalid_notice (config : Config) : Event :=
  Print ("[danger]MonaServer path ('"
         ++ match monaserver_path config with Some p => p | None => "None" end
         ++ "') is not set or invalid.[/danger]").

Definition cannot_start_notice (config : Config) (conflicting_pid : option Z) : Event :=
  Print ("[danger]MonaServer: Port TCP:" ++ rtmp_port config ++ " conflict (PID "
         ++ match conflicting_pid with
            | Some pid => PyStr.of_Z pid
            | None => "None"
            end
         ++ "). Cannot start.[/danger]").

Definition start_failed_notice (e : Exn) : Event :=
  Print ("[danger]MonaServer start failed: " ++ exn_text e ++ "[/danger]").

(** A bridge that answers the model query with a name. *)
Definition pixel_bridge (device_id prop : string) : RunResult :=
  if (prop =? "ro.product.model")%string then Completed 0 (" Pixel 7 " ++ nl)
  else Completed 0 "Google".

(** A bridge that does not answer in time. *)
Definition slow_bridge (_ _ : string) : RunResult := RunTimeout.

Definition with_getprop (g : string -> string -> RunResult) (w : World) : World :=
  {| platform_system := platform_system w; net_connections := net_connections w;
     processes := processes w; keyboard := keyboard w; journal := journal w;
     regular_files := regular_files w; popen_effect := popen_effect w;
     getprop := g; third_party_importable := third_party_importable w;
     find_spec := find_spec w |}.

Definition with_popen (effect : option (list Proc * list Conn)) (w : World) : World :=
  {| platform_system := platform_system w; net_connections := net_connections w;
     processes := processes w; keyboard := keyboard w; journal := journal w;
     regular_files := regular_files w; popen_effect := effect;
     getprop := getprop w; third_party_importable := third_party_importable w;
     find_spec := find_spec w |}.

(** *** The device list *)

(** A text the matcher is meant for: ASCII, with no line boundary in it. *)
Definition plain_line (s : string) : bool :=
  PyStr.all_chars (fun c => PyText.is_ascii_char c && negb (PyText.is_linebreak c)) s.

(** White space: one or more characters, every one of them white space. *)
Definition is_blank (s : string) : bool :=
  negb (s =? "")%string && PyStr.all_chars PyStr.is_space s.

(** A device identifier: one or more characters of the identifier class. *)
Definition is_identifier (s : string) : bool :=
  negb (s =? "")%string && PyStr.all_chars is_id_char s.

Definition begins_with_space (s : string) : bool :=
  match s with
  | String c _ => PyStr.is_space c
  | EmptyString => false
  end.

(** The groups of the lines of a listing that match, the first line left
    out: what [find_connected_devices] makes its records from. *)
Definition listed (stdout : string) : list (string * string * option string) :=
  flat_map (fun line => match match_device_line (PyStr.strip line) with
                        | Some groups => [groups]
                        | None => []
                        end)
           (tl (PyText.splitlines (PyStr.strip stdout))).

Definition is_device_group (groups : string * string * option string) : bool :=
  (snd (fst groups) =? "device")%string.

(** The record of a matched line when the models are not fetched. *)
Definition record_without_model (groups : string * string * option string) : Device :=
  let '(did, stat, det) := groups in
  {| dev_id := did; dev_status := stat;
     dev_details := match det with Some d => d | None => "" end;
     dev_connection := fst (connection_of did); dev_icon := snd (connection_of did);
     dev_name := if (stat =? "device")%string then "Unknown"
                 else "(" ++ PyStr.capitalize stat ++ ")" |}.

(** What every record of the device list satisfies. *)
Definition well_formed_record (d : Device) : Prop :=
  is_identifier (dev_id d) = true
  /\ In (dev_status d) STATUS_TOKENS
  /\ dev_name d <> ""
  /\ (dev_connection d, dev_icon d) = connection_of (dev_id d).

Definition scanning_notice : Event := Print "[info]Scanning for connected devices...".

Definition bridge_error_notice (error_text : string) : Event :=
  Print ("[danger]'adb devices' error: " ++ error_text ++ "[/danger]").

(** A listing with its header, one attached phone, an empty line and a
    line that is no device line. *)
Definition one_phone_listing : string :=
  "List of devices attached" ++ nl
  ++ "ABC123                 device product:panther model:Pixel_7 device:panther" ++ nl
  ++ "* daemon started successfully" ++ nl
  ++ "192.168.1.5:5555       offline" ++ nl ++ nl.

(** Collaborators that fail: no bridge, a forwarding that is refused. *)
Definition adb_missing (_ : Config) : Py (bool * string) := ret (false, "ADB path not set").
Definition forwarding_fails (_ : Config) (_ : Device) : Py bool := ret false.

(** *** The check of the bridge *)

(** A run of digits, a run of white space: one character at least. *)
Definition digit_run (s : string) : Prop :=
  s <> EmptyString /\ PyStr.all_chars PyStr.is_digit s = true.

Definition white_run (s : string) : Prop :=
  s <> EmptyString /\ PyStr.all_chars PyStr.is_space s = true.

(** Three runs of digits with a dot between them. *)
Definition is_version (text : string) : Prop :=
  exists major minor patch,
    text = (major ++ "." ++ minor ++ "." ++ patch)%string
    /\ digit_run major /\ digit_run minor /\ digit_run patch.

(** The standard output of the run is ASCII text (a run that failed has
    none). *)
Definition ascii_output (run : Run) : bool :=
  match run with
  | Ran _ stdout _ => PyText.is_ascii stdout
  | RunFailure _ => true
  end.

(** What [adb version] prints. *)
Definition adb_banner : string :=
  "Android Debug Bridge version 1.0.41" ++ nl ++ "Version 34.0.4-10411341" ++ nl
  ++ "Installed as /usr/bin/adb" ++ nl.

(** *** The health check of the server *)

(** The name the health check looks for, in lower case. *)
Definition server_image (w : World) : string :=
  if (platform_system w =? "Windows")%string then "monaserver.exe" else "monaserver".

(** A process the health check takes for the server: its name is the
    server's in any letter case, or one of its command-line arguments has
    the word monaserver in it, in any letter case. *)
Definition passes_for_server (w : World) (p : Proc) : Prop :=
  (exists n, proc_name p = Some n /\ PyStr.lower n = server_image w)
  \/ (exists args arg,
         proc_cmdline p = Some args /\ In arg args
         /\ PyStr.contains "monaserver" (PyStr.lower arg) = true).

(** An editor that has the server's log open. *)
Definition log_viewer : Proc :=
  {| proc_pid := 77; proc_name := Some "notepad.exe"; proc_exe := None;
     proc_cmdline := Some ["notepad.exe"; "C:\logs\MonaServer.log"];
     proc_on_kill := KillDies |}.

(** *** The two prompts of the resolver *)

Definition kill_prompt (pid : Z) (name : string) : Event :=
  Ask ("Kill " ++ who name pid ++ "?").

Definition skip_prompt : Event := Ask "Skip port conflict?".

Definition skipping_notice : Event := Print "[warning]Skipping. Streaming may fail.[/warning]".



(** *** The end of the main block *)

(** What the main block does about the server when the automatic start is
    off: it says so and looks whether the server runs. *)
Definition manual_server_check : Py (option bool) :=
  console_print "[info]Auto-start MonaServer is disabled in config.[/info]" ;;;
  running <- check_monaserver_process ;;
  if running then
    console_print "[info]MonaServer is already running (checked manually).[/info]" ;;;
    ret (Some true)
  else ret None.

Definition press_enter_notice : Event :=
  Print (nl ++ "[italic]Press Enter to exit...[/italic]").

Definition exiting_notice : Event := Print (nl ++ "Exiting.").

(** * The resolver and the selector with the failures of the libraries

    The embedding above takes the console to render every text it is given
    and every socket to have an owner that [psutil] can tell.  Neither holds
    of the libraries: [rich] raises [MarkupError] on a text in which a
    closing tag closes nothing, and the texts of the script hold the port
    string, the names of processes and the names of devices as they come;
    [psutil] gives the pid [None] for a socket whose owner it cannot see,
    takes [Process(None)] for the process of the script itself, and rejects
    a negative pid with [ValueError].  This part embeds the process probe,
    the port conflict resolver and the device selector once more, without
    these assumptions; where a text renders and the sockets have their
    pids, the functions below do what the functions above do. *)

(** ** Console markup

    What [rich.markup.render] does with a text, as far as it can fail.  A
    tag is an opening bracket, a character that is a lower-case letter, [#],
    [/] or [@], and the characters up to the next closing bracket, with no
    opening bracket among them; an odd number of backslashes right before it
    makes it plain text.  An opening tag is pushed on a stack; [[/]] pops the
    stack and [[/name]] removes the nearest tag of that name; either fails
    on a stack that has nothing for it.  Names are compared after [strip]
    and [lower], which is rich's normalisation for a name that is no style
    definition (such as [danger] or [warning]) and for the style
    definitions in the texts of the script; the parameters of a tag are
    not looked at. *)
Module markup.

Definition is_tag_start (c : ascii) : bool :=
  let n := N_of_ascii c in
  ((97 <=? n) && (n <=? 122) || (n =? 35) || (n =? 47) || (n =? 64))%N.

Definition is_open_bracket (c : ascii) : bool := Ascii.eqb c "[".
Definition is_close_bracket (c : ascii) : bool := Ascii.eqb c "]".
Definition is_backslash (c : ascii) : bool := (N_of_ascii c =? 92)%N.


(** [style_name] removed from the stack at the place nearest to the top
    where it is, as [pop_style] does; [None] stands for its [KeyError]. *)
Fixpoint pop_style (style_name : string) (stack : list string) : option (list string) :=
  match stack with
  | [] => None
  | top :: below =>
      if (top =? style_name)%string then Some below
      else option_map (cons top) (pop_style style_name below)
  end.

Definition normalize (style : string) : string := PyStr.lower (PyStr.strip style).

(** The stack after the tag with the text [tag_text]; [None] stands for
    [MarkupError].  The name of the tag is its text before the first [=]. *)
Definition apply_tag (tag_text : string) (stack : list string) : option (list string) :=
  match PyStr.split_head "=" tag_text with
  | String "/" closing =>
      let style_name := PyStr.strip closing in
      if PyStr.truthy style_name then pop_style (normalize style_name) stack
      else match stack with
           | [] => None
           | _ :: below => Some below
           end
  | name => Some (normalize name :: stack)
  end.

(** Where the reading of a text stands: in plain text, after so many
    backslashes in a row; or within what may be a tag, which began after
    [escapes] backslashes and has the text [tag_text] so far, the last
    [backslashes] characters of it being backslashes. *)
Inductive Reading :=
| InText (backslashes : nat)
| InTag (escapes : nat) (tag_text : string) (backslashes : nat).

(** One character of plain text. *)
Definition after_plain (c : ascii) (backslashes : nat) : Reading :=
  if is_open_bracket c then InTag backslashes EmptyString 0
  else if is_backslash c then InText (S backslashes)
  else InText 0.

(** One character read: the reading and the stack after it; [None] stands
    for [MarkupError].  A tag that meets an opening bracket, or whose first
    character is none a tag begins with, was plain text. *)
Definition step (state : Reading) (stack : list string) (c : ascii)
    : option (Reading * list string) :=
  match state with
  | InText backslashes => Some (after_plain c backslashes, stack)
  | InTag escapes EmptyString _ =>
      if is_tag_start c then Some (InTag escapes (String c EmptyString) 0, stack)
      else Some (after_plain c 0, stack)
  | InTag escapes tag_text backslashes =>
      if is_close_bracket c then
        if Nat.odd escapes then Some (InText 0, stack)
        else option_map (pair (InText 0)) (apply_tag tag_text stack)
      else if is_open_bracket c then Some (InTag backslashes EmptyString 0, stack)
      else Some (InTag escapes (tag_text ++ String c EmptyString)
                   (if is_backslash c then S backslashes else 0),
                 stack)
  end.

(** The text is read from left to right.  A tag that is not closed when
    the text ends was plain text. *)
Fixpoint reads (state : Reading) (stack : list string) (s : string)
    : option (Reading * list string) :=
  match s with
  | EmptyString => Some (state, stack)
  | String c rest =>
      match step state stack c with
      | Some (state', stack') => reads state' stack' rest
      | None => None
      end
  end.

(** [render(text)] returns: it does not raise [MarkupError]. *)
Definition renders (text : string) : bool :=
  match reads (InText 0) [] text with
  | Some _ => true
  | None => false
  end.

End markup.

Module Precise.

(** ** The console *)

(** [console.print(text)] *)
Definition console_print (text : string) : Py unit :=
  if markup.renders text then emit (Print text) else raise MarkupError.

(** [console.print(Panel(body, title=title))] *)
Definition print_panel (body title : string) : Py unit :=
  if markup.renders body && markup.renders title then emit (Panel body title)
  else raise MarkupError.

(** [console.print(tbl)] for a table with the given title and rows: every
    cell is rendered. *)
Definition print_table (title : string) (rows : list (list string)) : Py unit :=
  if markup.renders title && forallb (forallb markup.renders) rows
  then emit (Table title rows)
  else raise MarkupError.

(** [Confirm.ask] and [Prompt.ask] render the prompt before they show it. *)
Definition Confirm_ask (prompt : string) (choices : list string) (default : rich.Default)
    : Py bool :=
  if markup.renders prompt then rich.Confirm_ask prompt choices default
  else raise MarkupError.

Definition Prompt_ask (prompt : string) (choices : list string) : Py string :=
  if markup.renders prompt then rich.Prompt_ask prompt choices
  else raise MarkupError.

Definition exit_with_error {A} (message : string) : Py A :=
  console_print (nl ++ "[danger]ERROR: " ++ message ++ "[/danger]" ++ nl
                 ++ "[italic]Press Enter to exit...[/italic]") ;;;
  _ <- input ;;
  sys_exit 1.

(** ** [psutil] *)

(** One entry of [psutil.net_connections(kind="inet")].  [sc_laddr_port] is
    [None] for an entry whose [laddr] is the empty tuple, and [sc_pid] is
    [None] for an entry whose owner [psutil] cannot see. *)
Record Sconn := {
  sc_laddr_port : option Z;
  sc_status : string;
  sc_pid : option Z
}.

(** What [psutil] answers beyond the process table of the world: the
    enumeration of the sockets ([None]: it raises), and the name of the
    process that runs the script. *)
Record Psutil := {
  sconns : option (list Sconn);
  own_name : string
}.

(** A [psutil.Process] object: the process of the script itself, or a
    process of the table. *)
Inductive Handle :=
| Own
| Other (p : Proc).

Definition net_connections_call (sys : Psutil) : Py (list Sconn) :=
  fun w => match sconns sys with
           | Some cs => Returned cs (record [NetConnections] w)
           | None => Raised AccessDenied (record [NetConnections] w)
           end.

(** [psutil.Process(pid)] *)
Definition Process (pid : option Z) : Py Handle :=
  match pid with
  | None => ret Own
  | Some n =>
      if n <? 0 then raise ValueError
      else p <- psutil.Process n ;; ret (Other p)
  end.

(** [p.name()] *)
Definition Process_name (sys : Psutil) (p : Handle) : Py string :=
  match p with
  | Own => ret (own_name sys)
  | Other q => psutil.name q
  end.

(** [p.kill()]: on its own process it ends the script. *)
Definition Process_kill (p : Handle) : Py unit :=
  match p with
  | Own => fun w => Killed w
  | Other q => psutil.kill q
  end.

(** [p.wait(timeout=1)]; the script never comes to wait for its own
    process, which is still there as long as the script runs. *)
Definition Process_wait (p : Handle) : Py unit :=
  match p with
  | Own => raise TimeoutExpired
  | Other q => psutil.wait q
  end.

(** ** Process probe *)

Fixpoint scan_connections (sys : Psutil) (port : Z) (cs : list Sconn)
    : Py (option (option Z * string)) :=
  match cs with
  | [] => ret None
  | c :: rest =>
      match sc_laddr_port c with
      | None => raise AttributeError
      | Some local_port =>
          if (local_port =? port) && (sc_status c =? CONN_LISTEN)%string
          then
            try_except
              (p <- Process (sc_pid c) ;;
               n <- Process_name sys p ;;
               ret (Some (sc_pid c, n)))
              (fun e => exn_eqb NoSuchProcess e || exn_eqb AccessDenied e)
              (fun _ => scan_connections sys port rest)
          else scan_connections sys port rest
      end
  end.

Definition find_process_using_port (sys : Psutil) (port : Z)
    : Py (option (option Z * string)) :=
  if negb ((0 <? port) && (port <=? 65535)) then ret None
  else
    try_except
      (cs <- net_connections_call sys ;;
       scan_connections sys port cs)
      (fun e => psutil.is_Error e || exn_eqb OSError e || exn_eqb AttributeError e)
      (fun _ => ret None).

(** [str(pid)] inside the messages *)
Definition pid_text (pid : option Z) : string :=
  match pid with
  | Some n => PyStr.of_Z n
  | None => "None"
  end.

(** The text [{name} (PID:{pid})] the messages share. *)
Definition who (name : string) (pid : option Z) : string :=
  name ++ " (PID:" ++ pid_text pid ++ ")".

Definition is_pid_0 (pid : option Z) : bool :=
  match pid with
  | Some n => n =? 0
  | None => false
  end.

Definition kill_process_by_pid (pid : option Z) (name : string) : Py bool :=
  system <- platform_system_call ;;
  if is_pid_0 pid && (system =? "Windows")%string
  then
    console_print "[error]Cannot kill PID 0 (System Idle Process).[/error]" ;;;
    ret false
  else
    let who := who name pid in
    try_except
      (p <- Process pid ;;
       console_print ("[info]Killing " ++ who ++ "...[/info]") ;;;
       Process_kill p ;;;
       try_except (Process_wait p)
         (exn_eqb TimeoutExpired)
         (fun _ => console_print ("[warning]" ++ who ++ " linger.[/warning]")) ;;;
       console_print ("[success]Kill signal sent to " ++ who ++ ".[/success]") ;;;
       ret true)
      is_Exception
      (fun e => match e with
                | NoSuchProcess =>
                    console_print ("[warning]" ++ who ++ " gone.[/warning]") ;;;
                    ret true
                | _ =>
                    console_print ("[danger]Kill error " ++ who ++ ": " ++ exn_text e
                                   ++ "[/danger]") ;;;
                    ret false
                end).

(** ** Port conflict resolver *)

(** The first statement of [handle_port_conflict].  The [assert] is run,
    as it is unless Python is started with [-O]. *)
Definition parse_port (port_str : string) : Py Z :=
  try_except
    (match PyStr.int port_str with
     | None => raise ValueError
     | Some port =>
         if (0 <? port) && (port <=? 65535) then ret port else raise AssertionError
     end)
    (fun e => exn_eqb ValueError e || exn_eqb AssertionError e)
    (fun _ =>
       console_print ("[danger]Invalid port: " ++ port_str ++ ". Using 1935.[/danger]") ;;;
       ret 1935).

Definition kill_wanted (p_config : Config) (pid : option Z) (name : string) : Py bool :=
  if force_kill_port_process p_config then ret true
  else Confirm_ask ("Kill " ++ who name pid ++ "?") ["y"; "n"] (rich.DefaultStr "y").

(** The branch [if info:] of [handle_port_conflict], for the pair
    [(pid, name)] the probe has returned. *)
Definition occupied (port : Z) (p_config : Config) (pid : option Z) (name : string)
    : Py (bool * option Z) :=
  console_print ("[warning]" ++ SYMBOL_WARNING ++ " Port TCP:" ++ PyStr.of_Z port
                 ++ " in use by " ++ who name pid ++ ".[/warning]") ;;;
  kill_it <- kill_wanted p_config pid name ;;
  if kill_it then
    killed <- kill_process_by_pid pid name ;;
    (if killed then
       console_print ("[success]" ++ SYMBOL_CHECK ++ " Port " ++ PyStr.of_Z port
                      ++ " freed.[/success]") ;;;
       time_sleep 500
     else ret tt) ;;;
    ret (killed, if killed then None else pid)
  else
    skip <- Confirm_ask "Skip port conflict?" ["y"; "n"] (rich.DefaultStr "n") ;;
    if skip then
      console_print "[warning]Skipping. Streaming may fail.[/warning]" ;;;
      ret (false, pid)
    else exit_with_error ("Port " ++ PyStr.of_Z port ++ " conflict unresolved.").

(** The rest of [handle_port_conflict], from the line that announces the
    check on. *)
Definition check_port (sys : Psutil) (port : Z) (p_config : Config) : Py (bool * option Z) :=
  console_print ("[info]Checking port TCP:" ++ PyStr.of_Z port ++ "...[/info]") ;;;
  info <- find_process_using_port sys port ;;
  match info with
  | Some (pid, name) => occupied port p_config pid name
  | None => ret (true, None)
  end.

(** [handle_port_conflict(port_str, p_config)], for the answers [sys] of
    [psutil]. *)
Definition handle_port_conflict (sys : Psutil) (port_str : string) (p_config : Config)
    : Py (bool * option Z) :=
  port <- parse_port port_str ;;
  check_port sys port p_config.

(** ** Device selector *)

Fixpoint print_lines (lines : list string) : Py unit :=
  match lines with
  | [] => ret tt
  | l :: rest => console_print l ;;; print_lines rest
  end.

Definition select_device_from_list (current_config : Config) : Py (option Device) :=
  let devices := devices current_config in
  let sel := filter is_selectable devices in
  match devices with
  | [] =>
      print_panel "[warning]No devices found.[/warning]" "[danger]No Devices[/danger]" ;;;
      ret None
  | _ =>
      print_table "Detected Devices" (map device_row (enumerate devices)) ;;;
      match sel with
      | [] =>
          let msgs :=
            (["[danger]No operational devices.[/danger]"]
             ++ (if any_status "unauthorized" devices
                 then ["[warning]Check auth prompt.[/warning]"] else [])
             ++ (if any_status "offline" devices
                 then ["[warning]Reconnect offline device.[/warning]"] else []))%list in
          print_panel (PyStr.join nl msgs) "[danger]Selection Error[/danger]" ;;;
          ret None
      | d :: _ =>   (* [d] is [sel[0]] *)
          if (length sel =? 1)%nat && auto_select_single_device current_config
          then
            console_print ("[success]" ++ SYMBOL_CHECK ++ " Auto-selecting: [bold]"
                           ++ dev_icon d ++ " " ++ dev_name d ++ "[/bold]") ;;;
            ret (Some d)
          else
            console_print "[info]Multiple devices. Select one:[/info]" ;;;
            let choices := map (fun e => PyStr.of_Z (Z.of_nat (fst e) + 1)) (enumerate sel) in
            let cmap := map (fun e => (PyStr.of_Z (Z.of_nat (fst e) + 1), snd e))
                            (enumerate sel) in
            print_lines (map choice_line (enumerate sel)) ;;;
            try_except
              (s <- Prompt_ask "Enter selection" choices ;;
               match lookup s cmap with
               | Some chosen =>
                   console_print ("[success]" ++ SYMBOL_CHECK ++ " Selected: [bold]"
                                  ++ dev_icon chosen ++ " " ++ dev_name chosen ++ "[/bold]") ;;;
                   ret (Some chosen)
               | None => raise KeyError
               end)
              (exn_eqb KeyboardInterrupt)
              (fun _ => console_print (nl ++ "[warning]Cancelled.[/warning]") ;;; sys_exit 0)
      end
  end.

(** ** Vocabulary of the properties *)

(** An entry the probe looks for: bound to [port] and listening. *)
Definition listens_on (port : Z) (c : Sconn) : bool :=
  match sc_laddr_port c with
  | Some local_port => (local_port =? port) && (sc_status c =? CONN_LISTEN)%string
  | None => false
  end.

(** What the probe gets when it asks for the process with the pid of an
    entry and for its name: a name; or [NoSuchProcess] or [AccessDenied],
    on which the probe goes on to the next entry; or the [ValueError] of a
    negative pid, which no handler of the probe catches. *)
Inductive Lookup :=
| Named (n : string)
| Unreachable
| Rejected.

Definition lookup_owner (sys : Psutil) (w : World) (pid : option Z) : Lookup :=
  match pid with
  | None => Named (own_name sys)
  | Some n =>
      if n <? 0 then Rejected
      else match psutil.find_proc n (processes w) with
           | Some p =>
               match proc_name p with
               | Some nm => Named nm
               | None => Unreachable
               end
           | None => Unreachable
           end
  end.

(** An entry the probe passes over: it has a local address, and it is not
    the one looked for or its owner cannot be reached. *)
Definition passed_over (sys : Psutil) (w : World) (port : Z) (c : Sconn) : Prop :=
  sc_laddr_port c <> None
  /\ (listens_on port c = false \/ lookup_owner sys w (sc_pid c) = Unreachable).


Definition pids_not_negative (sys : Psutil) : Prop :=
  forall cs c n, sconns sys = Some cs -> In c cs -> sc_pid c = Some n -> 0 <= n.

(** The world in which [handle_port_conflict] calls the probe: the port
    string has been read and the check announced. *)
Definition at_probe (port_str : string) (w : World) : World :=
  record [checking_notice (port_checked port_str)]
    (if valid_port_string port_str then w else record [invalid_port_notice port_str] w).


(** The notice of an occupied port and the prompt of the kill, for the
    pair the probe has returned. *)
Definition in_use_notice (port : Z) (pid : option Z) (name : string) : Event :=
  Print ("[warning]" ++ SYMBOL_WARNING ++ " Port TCP:" ++ PyStr.of_Z port
         ++ " in use by " ++ who name pid ++ ".[/warning]").

Definition kill_prompt (pid : option Z) (name : string) : Event :=
  Ask ("Kill " ++ who name pid ++ "?").

(** A call that goes without the operator: however it ends, it has read
    none of the operator's keys, and it does not leave through
    [sys.exit]. *)
Definition unattended {A} (c : Py A) : Prop :=
  forall w, keyboard (outcome_world (c w)) = keyboard w
            /\ forall status w', c w <> Exited status w'.


(** *** Sockets and devices the properties are tried on *)

Definition listener (port : Z) (pid : option Z) : Sconn :=
  {| sc_laddr_port := Some port; sc_status := CONN_LISTEN; sc_pid := pid |}.


(** [psutil] run by [python.exe], with the given sockets. *)
Definition sockets (cs : list Sconn) : Psutil :=
  {| sconns := Some cs; own_name := "python.exe" |}.

(** The world of [OldServer], process 500, with the operator's keys. *)
Definition server_world (keys : list Key) : World :=
  set_keyboard keys (set_os [old_server KillDies] (Some []) bare_world).


(** The summary rows of the host port. *)
Definition row_clear (config : Config) : list string :=
  ["Host Port"; "[success]Clear/Resolved[/]"; "Host TCP:" ++ rtmp_port config].

Definition row_unresolved (config : Config) (pid : Z) : list string :=
  ["Host Port"; "[warning]UNRESOLVED[/]";
   "Host TCP:" ++ rtmp_port config
   ++ " (Initial conflict PID:" ++ PyStr.of_Z pid ++ " unresolved)"].

Definition row_conflict (config : Config) : list string :=
  ["Host Port"; "[danger]CONFLICT[/]";
   "Host TCP:" ++ rtmp_port config ++ " (Conflict status unclear)"].

End Precise.
(** * Properties *)

(** ** The monad *)

Lemma record_record (es1 es2 : list Event) (w : World) :
  record es2 (record es1 w) = record (es1 ++ es2) w.
Proof.
  unfold record, set_journal; simpl. now rewrite app_assoc.
Qed.

Lemma bind_Returned {A B} (c : Py A) (k : A -> Py B) w b w2 :
  bind c k w = Returned b w2 ->
  exists a w1, c w = Returned a w1 /\ k a w1 = Returned b w2.
Proof.
  unfold bind. destruct (c w) as [a w1| | |]; intros H; try discriminate. eauto.
Qed.


Lemma bind_Raised {A B} (c : Py A) (k : A -> Py B) w e w2 :
  bind c k w = Raised e w2 ->
  c w = Raised e w2 \/ exists a w1, c w = Returned a w1 /\ k a w1 = Raised e w2.
Proof.
  unfold bind. destruct (c w) as [a w1| | |]; intros H; try discriminate;
    [right; exists a, w1; split; [reflexivity | exact H] | left; now inversion H].
Qed.

Lemma bind_step {A B} (c : Py A) (k : A -> Py B) w a w1 :
  c w = Returned a w1 -> bind c k w = k a w1.
Proof. unfold bind. now intros ->. Qed.

Lemma bind_exit {A B} (c : Py A) (k : A -> Py B) w s w1 :
  c w = Exited s w1 -> bind c k w = Exited s w1.
Proof. unfold bind. now intros ->. Qed.

Lemma console_print_eq text w : console_print text w = Returned tt (record [Print text] w).
Proof. reflexivity. Qed.

(** ** The operator's answers *)

(** A prompt only ends by an answer, by the end of the input or by an
    interrupt, and takes the operator's keys in order. *)
Lemma ask_loop_raises {A} prompt (process : string -> option A) keys w e w' :
  rich.ask_loop prompt process keys w = Raised e w' ->
  e = EOFError \/ e = KeyboardInterrupt.
Proof.
  revert w. induction keys as [|k keys IH]; intros w; simpl.
  - intros H; inversion H; auto.
  - destruct k as [s|].
    + destruct (process s); [discriminate | apply IH].
    + intros H; inversion H; auto.
Qed.


(** The operating system is out of reach of a prompt. *)
Lemma ask_loop_os {A} prompt (process : string -> option A) keys w a w' :
  rich.ask_loop prompt process keys w = Returned a w' ->
  processes w' = processes w /\ net_connections w' = net_connections w
  /\ platform_system w' = platform_system w.
Proof.
  revert w. induction keys as [|k keys IH]; intros w; simpl; try discriminate.
  destruct k as [l|]; try discriminate.
  destruct (process l).
  - intros H; inversion H; subst; auto.
  - intros H. apply IH in H. simpl in H. exact H.
Qed.

(** ** The probe *)




(** The loop leaves the world as it is, and ends by a result or by the
    [AttributeError] of an entry without local address. *)
Lemma scan_connections_value port cs w :
  scan_connections port cs w
  = match scan_value (processes w) port cs with
    | Some r => Returned r w
    | None => Raised AttributeError w
    end.
Proof.
  induction cs as [|c cs IH]; simpl; [reflexivity|].
  destruct (laddr_port c) as [lp|]; [|reflexivity].
  destruct ((lp =? port) && (conn_status c =? CONN_LISTEN)%string); [|exact IH].
  unfold try_except, bind, psutil.Process, psutil.name.
  destruct (psutil.find_proc (conn_pid c) (processes w)) as [p|]; simpl; [|exact IH].
  destruct (proc_name p); simpl; [reflexivity | exact IH].
Qed.

(** The probe always returns, and only notes the enumeration. *)
Lemma find_process_using_port_returns port w :
  find_process_using_port port w = Returned (probe port w) (probed port w).
Proof.
  unfold probe, probed, find_process_using_port, in_range.
  destruct ((0 <? port) && (port <=? 65535)); simpl; [|reflexivity].
  unfold try_except, bind, psutil.net_connections_call.
  destruct (net_connections w) as [cs|]; simpl; [|reflexivity].
  rewrite scan_connections_value. simpl.
  destruct (scan_value (processes w) port cs); reflexivity.
Qed.

Lemma probe_eq port w :
  probe port w
  = if in_range port then
      match net_connections w with
      | Some cs => match scan_value (processes w) port cs with
                   | Some r => r
                   | None => None
                   end
      | None => None
      end
    else None.
Proof.
  unfold probe, find_process_using_port, in_range.
  destruct ((0 <? port) && (port <=? 65535)); simpl; [|reflexivity].
  unfold try_except, bind, psutil.net_connections_call.
  destruct (net_connections w) as [cs|]; simpl; [|reflexivity].
  rewrite scan_connections_value. simpl.
  destruct (scan_value (processes w) port cs); reflexivity.
Qed.

(** The probe looks at the sockets and the processes only. *)
Lemma probe_os port w w' :
  processes w' = processes w -> net_connections w' = net_connections w ->
  probe port w' = probe port w.
Proof. intros Hp Hc. rewrite !probe_eq. now rewrite Hp, Hc. Qed.

Lemma scan_value_passed_over w port pre rest :
  Forall (passed_over w port) pre ->
  scan_value (processes w) port (pre ++ rest)%list = scan_value (processes w) port rest.
Proof.
  induction 1 as [|c pre [Haddr Hskip] _ IH]; simpl; [reflexivity|].
  unfold listens_on, owner_name in Hskip.
  destruct (laddr_port c) as [lp|]; [|congruence].
  destruct ((lp =? port) && (conn_status c =? CONN_LISTEN)%string); [|exact IH].
  destruct Hskip as [Hskip|Hskip]; [discriminate|].
  destruct (psutil.find_proc (conn_pid c) (processes w)) as [p|]; [|exact IH].
  now rewrite Hskip.
Qed.

Lemma scan_value_no_listener ps port cs r :
  Forall (fun c => listens_on port c = false) cs ->
  scan_value ps port cs = Some r -> r = None.
Proof.
  induction 1 as [|c cs Hc _ IH]; simpl; [congruence|].
  unfold listens_on in Hc.
  destruct (laddr_port c) as [lp|]; [|discriminate].
  now rewrite Hc.
Qed.

(** What a found occupant is: the owner, by process table and name, of an
    entry that is bound to the port and listening. *)
Lemma scan_value_found ps port cs pid nm :
  scan_value ps port cs = Some (Some (pid, nm)) ->
  exists c p, In c cs /\ listens_on port c = true /\ conn_pid c = pid
              /\ psutil.find_proc pid ps = Some p /\ proc_name p = Some nm.
Proof.
  induction cs as [|c cs IH]; simpl; [discriminate|].
  destruct (laddr_port c) as [lp|] eqn:Haddr; [|discriminate].
  destruct ((lp =? port) && (conn_status c =? CONN_LISTEN)%string) eqn:Hm.
  - destruct (psutil.find_proc (conn_pid c) ps) as [p|] eqn:Hp.
    + destruct (proc_name p) as [n|] eqn:Hn.
      * intros H; inversion H; subst. exists c, p.
        unfold listens_on. rewrite Haddr, Hm. auto.
      * intros H. destruct (IH H) as (c' & p' & ? & ?). exists c', p'. auto.
    + intros H. destruct (IH H) as (c' & p' & ? & ?). exists c', p'. auto.
  - intros H. destruct (IH H) as (c' & p' & ? & ?). exists c', p'. auto.
Qed.

(** ** Terminate *)

Lemma find_proc_pid pid ps p : psutil.find_proc pid ps = Some p -> proc_pid p = pid.
Proof.
  unfold psutil.find_proc. intros H. apply find_some in H. destruct H as [_ H].
  now apply Z.eqb_eq.
Qed.

Lemma find_proc_gone pid ps :
  psutil.find_proc pid (filter (fun p => negb (proc_pid p =? pid)) ps) = None.
Proof.
  unfold psutil.find_proc. induction ps as [|q ps IH]; simpl; [reflexivity|].
  destruct (proc_pid q =? pid) eqn:E; simpl; [exact IH|]. now rewrite E.
Qed.

(** [kill_process_by_pid] always returns: every exception of the kill is
    handled inside it. *)
Lemma kill_process_by_pid_returns pid name w :
  kill_process_by_pid pid name w
  = Returned (fst (after_kill pid name w)) (snd (after_kill pid name w)).
Proof.
  unfold kill_process_by_pid, after_kill, refused, bind at 1, platform_system_call.
  destruct ((pid =? 0) && (platform_system w =? "Windows")%string); [reflexivity|].
  unfold try_except at 1, bind at 1, psutil.Process.
  destruct (psutil.find_proc pid (processes w)) as [p|] eqn:Hp; [|reflexivity].
  pose proof (find_proc_pid _ _ _ Hp) as Hpid.
  unfold bind, console_print, emit, psutil.kill, psutil.wait, try_except.
  rewrite Hpid.
  destruct (proc_on_kill p); simpl.
  - rewrite find_proc_gone. simpl. rewrite !record_record. reflexivity.
  - rewrite Hp. simpl. rewrite !record_record. reflexivity.
  - rewrite !record_record. reflexivity.
  - rewrite !record_record. reflexivity.
Qed.



(** ** Exit with an error *)

Lemma exit_with_error_outcome {A} message w :
  @exit_with_error A message w
  = match keyboard w with
    | Line _ :: rest => Exited 1 (set_keyboard rest (record [error_notice message; Input] w))
    | CtrlC :: rest =>
        Raised KeyboardInterrupt (set_keyboard rest (record [error_notice message; Input] w))
    | [] => Raised EOFError (record [error_notice message; Input] w)
    end.
Proof.
  unfold exit_with_error, bind, console_print, emit, input, sys_exit, error_notice.
  simpl keyboard. rewrite record_record. simpl app.
  destruct (keyboard w) as [|[l|] rest]; reflexivity.
Qed.

Lemma exit_with_error_never_returns {A} message w (a : A) w' :
  exit_with_error message w <> Returned a w'.
Proof.
  rewrite exit_with_error_outcome. destruct (keyboard w) as [|[l|] rest]; discriminate.
Qed.

Lemma exit_with_error_raises {A} message w e w' :
  @exit_with_error A message w = Raised e w' -> operator_left e.
Proof.
  rewrite exit_with_error_outcome. unfold operator_left.
  destruct (keyboard w) as [|[l|] rest]; intros H; inversion H; auto.
Qed.

(** ** The resolver *)

Lemma same_os_refl w : same_os w w.
Proof. now unfold same_os. Qed.

Lemma same_os_trans w1 w2 w3 : same_os w1 w2 -> same_os w2 w3 -> same_os w1 w3.
Proof. unfold same_os. intros (? & ? & ?) (? & ? & ?). repeat split; congruence. Qed.

Lemma same_os_record es w : same_os w (record es w).
Proof. now unfold same_os. Qed.

Lemma probe_same_os port w w' : same_os w w' -> probe port w' = probe port w.
Proof. intros (? & ? & ?). now apply probe_os. Qed.

Lemma parse_port_returns port_str w :
  parse_port port_str w
  = Returned (port_checked port_str)
      (if valid_port_string port_str then w else record [invalid_port_notice port_str] w).
Proof.
  unfold parse_port, port_checked, valid_port_string, try_except, in_range.
  destruct (PyStr.int port_str) as [n|]; [|reflexivity].
  destruct ((0 <? n) && (n <=? 65535)); reflexivity.
Qed.

Lemma check_port_eq port p_config w :
  check_port port p_config w
  = match probe port w with
    | Some (pid, name) => occupied port p_config pid name (probed port (record [checking_notice port] w))
    | None => Returned (true, None) (probed port (record [checking_notice port] w))
    end.
Proof.
  unfold check_port, bind at 1, console_print, emit.
  unfold bind at 1. rewrite find_process_using_port_returns.
  rewrite (probe_same_os port w _ (same_os_record _ w)).
  destruct (probe port w) as [[pid name]|]; reflexivity.
Qed.

Lemma handle_port_conflict_eq port_str p_config w :
  handle_port_conflict port_str p_config w
  = check_port (port_checked port_str) p_config
      (if valid_port_string port_str then w else record [invalid_port_notice port_str] w).
Proof. unfold handle_port_conflict, bind. now rewrite parse_port_returns. Qed.

Lemma kill_wanted_same_os p_config pid name w b w' :
  kill_wanted p_config pid name w = Returned b w' -> same_os w w'.
Proof.
  unfold kill_wanted, rich.Confirm_ask.
  destruct (force_kill_port_process p_config).
  - intros H; inversion H; apply same_os_refl.
  - intros H. apply ask_loop_os in H. exact H.
Qed.

Lemma kill_wanted_raises p_config pid name w e w' :
  kill_wanted p_config pid name w = Raised e w' -> operator_left e.
Proof.
  unfold kill_wanted, rich.Confirm_ask.
  destruct (force_kill_port_process p_config); [discriminate|].
  apply ask_loop_raises.
Qed.


(** What the occupied branch does once the kill is wanted: it returns what
    the kill returned, with the occupant's pid on failure, and goes on from
    the world of the kill; nothing else is asked. *)
Lemma occupied_kill port p_config pid name w wk :
  kill_wanted p_config pid name (record [in_use_notice port pid name] w) = Returned true wk ->
  occupied port p_config pid name w
  = if fst (after_kill pid name wk)
    then Returned (true, None)
           (record [freed_notice port; Sleep 500] (snd (after_kill pid name wk)))
    else Returned (false, Some pid) (snd (after_kill pid name wk)).
Proof.
  intros Hk. unfold occupied, bind at 1, console_print at 1, emit.
  unfold bind at 1. unfold in_use_notice in Hk. rewrite Hk.
  unfold bind at 1. rewrite kill_process_by_pid_returns.
  destruct (fst (after_kill pid name wk)).
  - unfold bind, console_print, time_sleep, emit, ret. now rewrite record_record.
  - reflexivity.
Qed.

(** Every way the occupied branch returns. *)
Lemma occupied_returned port p_config pid name w r w' :
  occupied port p_config pid name w = Returned r w' ->
  (exists wk, same_os w wk
              /\ if fst (after_kill pid name wk)
                 then r = (true, None)
                      /\ w' = record [freed_notice port; Sleep 500] (snd (after_kill pid name wk))
                 else r = (false, Some pid) /\ w' = snd (after_kill pid name wk))
  \/ (r = (false, Some pid) /\ same_os w w').
Proof.
  intros H.
  destruct (kill_wanted p_config pid name (record [in_use_notice port pid name] w))
    as [b wk| | |] eqn:Hk.
  - destruct b.
    + left. exists wk. split.
      * apply kill_wanted_same_os in Hk. eapply same_os_trans; [apply same_os_record | exact Hk].
      * rewrite (occupied_kill _ _ _ _ _ _ Hk) in H.
        destruct (fst (after_kill pid name wk)); inversion H; auto.
    + right. unfold occupied, bind at 1, console_print at 1, emit in H.
      unfold bind at 1 in H. unfold in_use_notice in Hk. rewrite Hk in H.
      apply kill_wanted_same_os in Hk.
      apply bind_Returned in H. destruct H as (skip & ws & Hs & H).
      apply ask_loop_os in Hs.
      destruct skip; [|now apply exit_with_error_never_returns in H].
      inversion H; subst. split; [reflexivity|].
      eapply same_os_trans; [apply (same_os_record [in_use_notice port pid name]) |].
      eapply same_os_trans; [exact Hk|].
      eapply same_os_trans; [exact Hs | apply same_os_record].
  - unfold occupied, bind at 1, console_print at 1, emit in H.
    unfold bind at 1 in H. unfold in_use_notice in Hk. rewrite Hk in H. discriminate.
  - unfold occupied, bind at 1, console_print at 1, emit in H.
    unfold bind at 1 in H. unfold in_use_notice in Hk. rewrite Hk in H. discriminate.
  - unfold occupied, bind at 1, console_print at 1, emit in H.
    unfold bind at 1 in H. unfold in_use_notice in Hk. rewrite Hk in H. discriminate.
Qed.

Lemma same_os_probed port w : same_os w (probed port w).
Proof. unfold probed. destruct (in_range port); [apply same_os_record | apply same_os_refl]. Qed.

Lemma probe_found port w pid nm :
  probe port w = Some (pid, nm) ->
  exists p, psutil.find_proc pid (processes w) = Some p /\ proc_name p = Some nm.
Proof.
  rewrite probe_eq. destruct (in_range port); [|discriminate].
  destruct (net_connections w) as [cs|]; [|discriminate].
  destruct (scan_value (processes w) port cs) as [r|] eqn:Hs; [|discriminate].
  intros ->. apply scan_value_found in Hs.
  destruct Hs as (c & p & _ & _ & _ & Hp & Hn). eauto.
Qed.

Lemma occupied_raises port p_config pid name w e w' :
  occupied port p_config pid name w = Raised e w' -> operator_left e.
Proof.
  unfold occupied. intros H.
  apply bind_Raised in H. destruct H as [H|(u & w1 & _ & H)]; [discriminate|].
  apply bind_Raised in H. destruct H as [H|(kill_it & w2 & _ & H)];
    [now apply kill_wanted_raises in H|].
  destruct kill_it.
  - unfold bind at 1 in H. rewrite kill_process_by_pid_returns in H.
    destruct (fst (after_kill pid name w2)); discriminate.
  - apply bind_Raised in H. destruct H as [H|(skip & w3 & _ & H)].
    + now apply ask_loop_raises in H.
    + destruct skip; [discriminate | now apply exit_with_error_raises in H].
Qed.

(** The resolver raises nothing of its own: an exception out of it is the
    end of the operator's input at one of its prompts. *)
Lemma handle_port_conflict_raises port_str p_config w e w' :
  handle_port_conflict port_str p_config w = Raised e w' -> operator_left e.
Proof.
  rewrite handle_port_conflict_eq, check_port_eq.
  destruct (probe _ _) as [[pid name]|]; [apply occupied_raises | discriminate].
Qed.

(** C1, as the code has it.  Whenever [handle_port_conflict] reports the
    port resolved, either the probe found no occupant on the checked port,
    and there is still none, or the kill was called on the occupant the
    probe had found and either that occupant has left the process table or
    it is still there after the bounded wait and this was reported as a
    warning. *)
Theorem resolved_means_clear_or_kill_delivered port_str p_config w w' :
  handle_port_conflict port_str p_config w = Returned (true, None) w' ->
  (probe (port_checked port_str) w = None /\ probe (port_checked port_str) w' = None)
  \/ exists pid name,
       probe (port_checked port_str) w = Some (pid, name)
       /\ In (KillCall pid) (journal w')
       /\ (psutil.find_proc pid (processes w') = None
           \/ (psutil.find_proc pid (processes w') <> None
               /\ In (linger_warning pid name) (journal w'))).
Proof.
  rewrite handle_port_conflict_eq, check_port_eq.
  set (w0 := if valid_port_string port_str then w else record [invalid_port_notice port_str] w).
  assert (Hw0 : same_os w w0)
    by (unfold w0; destruct (valid_port_string port_str);
        [apply same_os_refl | apply same_os_record]).
  rewrite (probe_same_os _ _ _ Hw0).
  destruct (probe (port_checked port_str) w) as [[pid name]|] eqn:Hprobe.
  - intros H. right. exists pid, name. split; [reflexivity|].
    apply occupied_returned in H. destruct H as [(wk & Hos & H)|[H _]]; [|discriminate].
    assert (Hwk : same_os w wk).
    { eapply same_os_trans; [exact Hw0|].
      eapply same_os_trans; [apply same_os_record|].
      eapply same_os_trans; [apply same_os_probed | exact Hos]. }
    destruct (probe_found _ _ _ _ Hprobe) as (p & Hp & _).
    destruct Hwk as (Hps & _ & _). rewrite <- Hps in Hp.
    unfold after_kill in H. rewrite Hp in H.
    destruct (refused pid wk); [simpl in H; destruct H; discriminate|].
    destruct (proc_on_kill p); simpl in H; destruct H as [Hr ->]; try discriminate Hr.
    + split; [simpl; rewrite !in_app_iff; simpl; tauto|].
      left. simpl. apply find_proc_gone.
    + split; [simpl; rewrite !in_app_iff; simpl; tauto|].
      right. split; [simpl; congruence|].
      unfold linger_warning. simpl; rewrite !in_app_iff; simpl; tauto.
    + split; [simpl; rewrite !in_app_iff; simpl; tauto|].
      left. simpl. apply find_proc_gone.
  - intros H; inversion H; subst. left. split; [reflexivity|].
    rewrite <- Hprobe. apply probe_same_os.
    eapply same_os_trans; [exact Hw0|].
    eapply same_os_trans; [apply same_os_record | apply same_os_probed].
Qed.

Lemma resolved_means_clear_or_kill_delivered_witness :
  handle_port_conflict "1935" (sample_config true) (occupied_world KillDies [])
  = Returned (true, None)
      (record [freed_notice 1935; Sleep 500]
         (snd (after_kill 500 "OldServer"
                 (at_conflict "1935" 500 "OldServer" (occupied_world KillDies [])))))
  /\ exists pid name,
       probe (port_checked "1935") (occupied_world KillDies []) = Some (pid, name)
       /\ psutil.find_proc pid
            (processes
               (record [freed_notice 1935; Sleep 500]
                  (snd (after_kill 500 "OldServer"
                          (at_conflict "1935" 500 "OldServer" (occupied_world KillDies []))))))
          = None.
Proof.
  assert (H : handle_port_conflict "1935" (sample_config true) (occupied_world KillDies [])
              = Returned (true, None)
                  (record [freed_notice 1935; Sleep 500]
                     (snd (after_kill 500 "OldServer"
                             (at_conflict "1935" 500 "OldServer"
                                (occupied_world KillDies []))))))
    by (vm_compute; reflexivity).
  split; [exact H|].
  destruct (resolved_means_clear_or_kill_delivered _ _ _ _ H)
    as [[Hclear _]|(pid & name & Hprobe & _ & [Hgone|[Hthere _]])].
  - vm_compute in Hclear. discriminate.
  - exists pid, name. split; assumption.
  - exfalso. vm_compute in Hprobe. inversion Hprobe; subst. apply Hthere. reflexivity.
Defined.

(** C1, as the claim states it, fails: under the force-kill policy, with an
    occupant that is still there after the bounded wait, the resolver
    reports the port resolved while the probe still finds that occupant
    listening on it. *)
Lemma lingering_occupant_reported_resolved :
  handle_port_conflict "1935" (sample_config true) (occupied_world KillLingers [])
  = Returned (true, None) lingering_world_after
  /\ probe 1935 lingering_world_after = Some (500, "OldServer").
Proof. split; vm_compute; reflexivity. Qed.

(** C2, as the code has it.  In the occupied state, when the kill is wanted
    (force-kill policy, or the operator's answer to the kill prompt) and
    the terminate attempt fails, the resolver returns at once the
    unresolved pair [(false, pid)] with the occupant's pid: the world it
    leaves is the one terminate left, so nothing more is asked and the run
    is not halted. *)
Theorem kill_failure_returns_unresolved port_str p_config w pid name wk w2 :
  probe (port_checked port_str) w = Some (pid, name) ->
  kill_wanted p_config pid name (at_conflict port_str pid name w) = Returned true wk ->
  kill_process_by_pid pid name wk = Returned false w2 ->
  handle_port_conflict port_str p_config w = Returned (false, Some pid) w2.
Proof.
  intros Hprobe Hk Hfail.
  rewrite handle_port_conflict_eq, check_port_eq.
  set (w0 := if valid_port_string port_str then w else record [invalid_port_notice port_str] w)
    in *.
  assert (Hw0 : same_os w w0)
    by (unfold w0; destruct (valid_port_string port_str);
        [apply same_os_refl | apply same_os_record]).
  rewrite (probe_same_os _ _ _ Hw0), Hprobe.
  unfold at_conflict in Hk. fold w0 in Hk.
  rewrite (occupied_kill _ _ _ _ _ _ Hk).
  rewrite kill_process_by_pid_returns in Hfail. inversion Hfail as [[Hb Hw]].
  now rewrite Hb.
Qed.

Lemma kill_failure_returns_unresolved_witness :
  handle_port_conflict "1935" (sample_config false)
    (occupied_world KillDenied [Line "y"; Line "n"])
  = Returned (false, Some 500)
      (snd (after_kill 500 "OldServer"
              (set_keyboard [Line "n"]
                 (record [Ask "Kill OldServer (PID:500)?"]
                    (at_conflict "1935" 500 "OldServer"
                       (occupied_world KillDenied [Line "y"; Line "n"])))))).
Proof.
  apply (kill_failure_returns_unresolved "1935" (sample_config false)
           (occupied_world KillDenied [Line "y"; Line "n"]) 500 "OldServer"
           (set_keyboard [Line "n"]
              (record [Ask "Kill OldServer (PID:500)?"]
                 (at_conflict "1935" 500 "OldServer"
                    (occupied_world KillDenied [Line "y"; Line "n"]))))).
  - vm_compute; reflexivity.
  - vm_compute; reflexivity.
  - vm_compute; reflexivity.
Defined.

(** C2, as the claim states it, fails: under the force-kill policy, with a
    kill that is denied, the resolver neither halts the run nor asks the
    operator, who has typed nothing: it returns the unresolved pair. *)
Lemma denied_kill_is_not_fatal :
  keyboard (occupied_world KillDenied []) = []
  /\ handle_port_conflict "1935" (sample_config true) (occupied_world KillDenied [])
     = Returned (false, Some 500) denied_world_after
  /\ (forall prompt, ~ In (Ask prompt) (journal denied_world_after))
  /\ ~ In Input (journal denied_world_after).
Proof.
  split; [reflexivity|]. split; [vm_compute; reflexivity|].
  split.
  - intros prompt H. simpl in H.
    repeat (destruct H as [H|H]; [discriminate H|]). exact H.
  - intros H. simpl in H.
    repeat (destruct H as [H|H]; [discriminate H|]). exact H.
Qed.

Lemma port_checked_invalid port_str :
  valid_port_string port_str = false -> port_checked port_str = 1935.
Proof.
  unfold valid_port_string, port_checked.
  destruct (PyStr.int port_str) as [n|]; [|reflexivity]. now intros ->.
Qed.

(** ** Device classification *)

Lemma digit_is_listed c :
  PyStr.is_digit c = true ->
  PyStr.char_in c "0123456789." = true /\ Ascii.eqb c ":" = false.
Proof.
  destruct c as [[] [] [] [] [] [] [] []]; intros H; try discriminate H; split; reflexivity.
Qed.

Lemma colon_check_digit c rest :
  PyStr.is_digit c = true ->
  colon_after_digits_and_dots rest = true ->
  colon_after_digits_and_dots (String c rest) = true.
Proof.
  intros Hc Hrest. destruct (digit_is_listed c Hc) as [Hin Hne].
  unfold colon_after_digits_and_dots in *.
  apply andb_true_iff in Hrest. destruct Hrest as [Hcolon Hall].
  apply andb_true_iff. split.
  - simpl. simpl in Hcolon. rewrite Hcolon. apply orb_true_r.
  - cbn [PyStr.split_head]. rewrite Hne. cbn [PyStr.all_chars].
    rewrite Hin. exact Hall.
Qed.

Lemma colon_check_dot rest :
  colon_after_digits_and_dots rest = true ->
  colon_after_digits_and_dots (String "." rest) = true.
Proof.
  unfold colon_after_digits_and_dots. intros Hrest.
  apply andb_true_iff in Hrest. destruct Hrest as [Hcolon Hall].
  apply andb_true_iff. split.
  - simpl. simpl in Hcolon. rewrite Hcolon. reflexivity.
  - simpl. exact Hall.
Qed.

Lemma colon_check_colon rest : colon_after_digits_and_dots (String ":" rest) = true.
Proof. destruct rest; reflexivity. Qed.

Lemma colon_check_drop_digits s :
  colon_after_digits_and_dots (drop_digits s) = true ->
  colon_after_digits_and_dots s = true.
Proof.
  induction s as [|c rest IH]; simpl; [trivial|].
  destruct (PyStr.is_digit c) eqn:Hc; [|trivial].
  intros H. apply colon_check_digit; auto.
Qed.

Lemma colon_check_number s s' :
  number s = Some s' ->
  colon_after_digits_and_dots s' = true -> colon_after_digits_and_dots s = true.
Proof.
  destruct s as [|c rest]; simpl; [discriminate|].
  destruct (PyStr.is_digit c) eqn:Hc; [|discriminate].
  intros H; inversion H; subst. intros H'.
  apply colon_check_digit; [exact Hc | now apply colon_check_drop_digits].
Qed.

Lemma colon_check_symbol_dot s s' :
  symbol "." s = Some s' ->
  colon_after_digits_and_dots s' = true -> colon_after_digits_and_dots s = true.
Proof.
  destruct s as [|c rest]; simpl; [discriminate|].
  destruct (Ascii.eqb_spec c "."); [|discriminate].
  intros H; inversion H; subst. apply colon_check_dot.
Qed.

Lemma colon_check_symbol_colon s s' :
  symbol ":" s = Some s' -> colon_after_digits_and_dots s = true.
Proof.
  destruct s as [|c rest]; simpl; [discriminate|].
  destruct (Ascii.eqb_spec c ":"); [|discriminate].
  intros _; subst. apply colon_check_colon.
Qed.

(** Every identifier with a dotted-quad-with-port prefix passes the test of
    the code. *)
Lemma dotted_quad_passes_colon_check did :
  dotted_quad_with_port did = true -> colon_after_digits_and_dots did = true.
Proof.
  unfold dotted_quad_with_port, and_then.
  destruct (number did) as [s1|] eqn:H1; [|discriminate].
  destruct (symbol "." s1) as [s2|] eqn:H2; [|discriminate].
  destruct (number s2) as [s3|] eqn:H3; [|discriminate].
  destruct (symbol "." s3) as [s4|] eqn:H4; [|discriminate].
  destruct (number s4) as [s5|] eqn:H5; [|discriminate].
  destruct (symbol "." s5) as [s6|] eqn:H6; [|discriminate].
  destruct (number s6) as [s7|] eqn:H7; [|discriminate].
  destruct (symbol ":" s7) as [s8|] eqn:H8; [|discriminate].
  intros _.
  apply (colon_check_number _ _ H1), (colon_check_symbol_dot _ _ H2),
        (colon_check_number _ _ H3), (colon_check_symbol_dot _ _ H4),
        (colon_check_number _ _ H5), (colon_check_symbol_dot _ _ H6),
        (colon_check_number _ _ H7), (colon_check_symbol_colon _ _ H8).
Qed.

Lemma get_device_model_returns model_config device_id w :
  exists n, get_device_model model_config device_id w = Returned n w.
Proof.
  unfold get_device_model.
  destruct (negb (fetch_device_models model_config) || is_none (adb_path model_config));
    [eexists; reflexivity|].
  unfold try_except, bind, adb_getprop.
  destruct (getprop w device_id "ro.product.model") as [rc out| |];
    try (eexists; reflexivity).
  destruct (PyStr.truthy (if rc =? 0 then PyStr.strip out else ""));
    [eexists; reflexivity|].
  destruct (getprop w device_id "ro.product.manufacturer") as [rc2 out2| |];
    eexists; reflexivity.
Qed.

(** C6, as the code has it.  The connection of a parsed record is a
    function of the identifier alone, whatever the configuration, the
    status, the detail and the bridge's answers are.  An identifier that
    contains the wireless pairing marker, or that has a colon with nothing
    but digits and dots before its first colon, is Wi-Fi; every identifier
    with a dotted-quad-with-port prefix is of that kind.  Of the others,
    one that contains [emulator] is an emulator, and every other one is
    USB. *)
Theorem connection_kind_by_identifier :
  (forall p_config did stat det w,
      exists d, parse_device_line p_config (did, stat, det) w = Returned d w
                /\ dev_id d = did
                /\ (dev_connection d, dev_icon d) = connection_of did)
  /\ (forall did,
        PyStr.contains WIRELESS_MARKER did || colon_after_digits_and_dots did = true ->
        fst (connection_of did) = "Wi-Fi")
  /\ (forall did,
        dotted_quad_with_port did = true -> fst (connection_of did) = "Wi-Fi")
  /\ (forall did,
        PyStr.contains WIRELESS_MARKER did || colon_after_digits_and_dots did = false ->
        PyStr.contains "emulator" did = true ->
        fst (connection_of did) = "Emulator")
  /\ (forall did,
        PyStr.contains WIRELESS_MARKER did || colon_after_digits_and_dots did = false ->
        PyStr.contains "emulator" did = false ->
        fst (connection_of did) = "USB").
Proof.
  assert (Hwifi : forall did,
             PyStr.contains WIRELESS_MARKER did || colon_after_digits_and_dots did = true ->
             fst (connection_of did) = "Wi-Fi").
  { intros did H. unfold connection_of. fold WIRELESS_MARKER.
    destruct (PyStr.contains WIRELESS_MARKER did); [reflexivity|].
    simpl in H. unfold colon_after_digits_and_dots in H. now rewrite H. }
  split; [|split; [exact Hwifi|split; [|split]]].
  - intros p_config did stat det w. unfold parse_device_line.
    destruct (connection_of did) as [conn icon].
    destruct (stat =? "device")%string.
    + destruct (fetch_device_models p_config).
      * destruct (get_device_model_returns p_config did w) as [n Hn].
        unfold bind. rewrite Hn. eexists; split; [reflexivity|]. split; reflexivity.
      * eexists; split; [reflexivity|]. split; reflexivity.
    + eexists; split; [reflexivity|]. split; reflexivity.
  - intros did H. apply Hwifi. rewrite (dotted_quad_passes_colon_check _ H).
    apply orb_true_r.
  - intros did H Hemu. unfold connection_of. fold WIRELESS_MARKER.
    apply orb_false_iff in H. destruct H as [Hm Hc].
    unfold colon_after_digits_and_dots in Hc. now rewrite Hm, Hc, Hemu.
  - intros did H Hemu. unfold connection_of. fold WIRELESS_MARKER.
    apply orb_false_iff in H. destruct H as [Hm Hc].
    unfold colon_after_digits_and_dots in Hc. now rewrite Hm, Hc, Hemu.
Qed.

Lemma connection_kind_by_identifier_witness :
  fst (connection_of "adb-R58M-x1._adb-tls-connect._tcp") = "Wi-Fi"
  /\ fst (connection_of "192.168.1.5:5555") = "Wi-Fi"
  /\ fst (connection_of "emulator-5554") = "Emulator"
  /\ fst (connection_of "ABC123") = "USB".
Proof.
  destruct connection_kind_by_identifier as (_ & Hwifi & Hquad & Hemulator & Husb).
  split; [|split; [|split]].
  - apply Hwifi. reflexivity.
  - apply Hquad. reflexivity.
  - apply Hemulator; reflexivity.
  - apply Husb; reflexivity.
Defined.

(** C6, as the claim states it, fails: an identifier with a colon after
    three dotted numbers has no dotted-quad-with-port prefix, no pairing
    marker and no [emulator] in it, so the claim makes it USB, and the code
    makes it Wi-Fi. *)
Lemma short_dotted_prefix_is_wifi :
  claimed_connection "10.0.0:5555" = "USB"
  /\ fst (connection_of "10.0.0:5555") = "Wi-Fi".
Proof. split; reflexivity. Qed.

(** ** Server start *)

Lemma check_monaserver_process_eq w :
  check_monaserver_process w = Returned (mona_running w) w.
Proof. reflexivity. Qed.

Lemma try_except_step {A B} (c : Py A) (k : A -> Py B) catches handler w a w1 :
  c w = Returned a w1 ->
  try_except (bind c k) catches handler w = try_except (k a) catches handler w1.
Proof. unfold try_except, bind. now intros ->. Qed.

(** With a numeric port string the report after an undetected start always
    returns. *)
Lemma report_undetected_returns config still w n :
  PyStr.int (rtmp_port config) = Some n ->
  exists w', report_undetected config still w = Returned tt w'.
Proof.
  intros Hn. unfold report_undetected, int_call. rewrite Hn.
  assert (Hsecond : forall w0,
             exists w', (port <- ret n ;;
                         occupant <- find_process_using_port port ;;
                         taken_by_other <- (match occupant with
                                            | Some _ =>
                                                running <- check_monaserver_process ;;
                                                ret (negb running)
                                            | None => ret false
                                            end) ;;
                         if taken_by_other then
                           console_print ("[warning]MonaServer launched, but status check failed. Port TCP:"
                                          ++ rtmp_port config
                                          ++ " might be taken by another process. Verify manually.[/warning]")
                         else
                           console_print "[warning]MonaServer launched, but status check failed. Verify manually.[/warning]") w0
                        = Returned tt w').
  { intros w0. unfold bind at 1, ret at 1. unfold bind at 1.
    rewrite find_process_using_port_returns.
    destruct (probe n w0).
    - unfold bind, ret. rewrite check_monaserver_process_eq.
      destruct (negb (mona_running (probed n w0))); eexists; reflexivity.
    - unfold bind, ret. eexists; reflexivity. }
  destruct still as [pid|].
  - unfold bind at 1, ret at 1. apply Hsecond.
  - unfold bind at 1. unfold bind at 1, ret at 1. unfold bind at 1.
    rewrite find_process_using_port_returns. unfold ret at 1.
    destruct (is_none (probe n w)).
    + eexists; reflexivity.
    + apply Hsecond.
Qed.

(** C8, as the code has it.  When the health check finds the server
    running, [start_mona_server] spawns nothing and reports success.  When
    it has spawned the server and the health check after the settle delay
    still does not find it, it runs the resolver again, in the world as it
    then is, so on a new enumeration of the sockets; when that run returns
    (and the port string is numeric) the start is reported unconfirmed, and
    when that run halts the script, the script is halted. *)
Theorem start_skips_running_server_and_rechecks_port :
  (forall config w,
      mona_running w = true ->
      start_mona_server config w = Returned (Some true) (record [already_running_notice] w))
  /\ (forall config w path first_pid w1 w2,
        mona_running w = false ->
        monaserver_path config = Some path ->
        rich.string_in path (regular_files w) = true ->
        handle_port_conflict (rtmp_port config) config w = Returned (true, first_pid) w1 ->
        subprocess.Popen path (record [starting_notice path] w1) = Returned tt w2 ->
        mona_running w2 = false ->
        start_mona_server config w
        = try_except (unconfirmed_start config) is_Exception start_failed
            (record [issued_notice; Sleep 1500] w2)
        /\ (forall r w3 n,
              handle_port_conflict (rtmp_port config) config
                (record [issued_notice; Sleep 1500] w2) = Returned r w3 ->
              PyStr.int (rtmp_port config) = Some n ->
              exists w4, start_mona_server config w = Returned None w4)
        /\ (forall status w3,
              handle_port_conflict (rtmp_port config) config
                (record [issued_notice; Sleep 1500] w2) = Exited status w3 ->
              start_mona_server config w = Exited status w3)).
Proof.
  split.
  - intros config w Hrun. unfold start_mona_server, bind at 1.
    rewrite check_monaserver_process_eq, Hrun. reflexivity.
  - intros config w path first_pid w1 w2 Hrun Hpath Hfile Hfirst Hpopen Hstill.
    assert (Heq : start_mona_server config w
                  = try_except (unconfirmed_start config) is_Exception start_failed
                      (record [issued_notice; Sleep 1500] w2)).
    { unfold start_mona_server, bind at 1.
      rewrite check_monaserver_process_eq, Hrun, Hpath.
      unfold bind at 1, is_file. rewrite Hfile.
      unfold bind at 1. rewrite Hfirst. cbn [negb].
      unfold bind at 1, console_print at 1, emit.
      unfold spawn_and_verify.
      rewrite (try_except_step _ _ _ _ _ tt w2) by exact Hpopen.
      rewrite (try_except_step _ _ _ _ _ tt (record [issued_notice] w2)) by reflexivity.
      rewrite (try_except_step _ _ _ _ _ tt (record [issued_notice; Sleep 1500] w2))
        by (unfold time_sleep, emit; now rewrite record_record).
      rewrite (try_except_step _ _ _ _ _ false (record [issued_notice; Sleep 1500] w2)).
      - reflexivity.
      - rewrite check_monaserver_process_eq. unfold mona_running in *. simpl.
        now rewrite Hstill. }
    split; [exact Heq|]. split.
    + intros r w3 n Hre Hn. rewrite Heq.
      destruct (report_undetected_returns config (snd r) w3 n Hn) as [w4 Hrep].
      exists w4. unfold try_except, unconfirmed_start, bind. rewrite Hre.
      destruct r as [flag still]. simpl in Hrep. now rewrite Hrep.
    + intros status w3 Hre. rewrite Heq.
      unfold try_except, unconfirmed_start, bind. now rewrite Hre.
Qed.

Lemma start_skips_running_server_and_rechecks_port_witness :
  start_mona_server (sample_config true) (set_os [mona_server] (Some []) bare_world)
  = Returned (Some true)
      (record [already_running_notice] (set_os [mona_server] (Some []) bare_world))
  /\ start_mona_server (sample_config false) contested_world
     = Exited 1 contested_world_after
  /\ exists w4, start_mona_server (sample_config false)
                  (set_keyboard [Line "n"; Line "y"] contested_world)
                = Returned None w4.
Proof.
  destruct start_skips_running_server_and_rechecks_port as (Hskip & Hrecheck).
  split; [apply Hskip; reflexivity|].
  split.
  - refine (proj2 (proj2
              (Hrecheck (sample_config false) contested_world "C:\mona\MonaServer.exe" None
                 (record [checking_notice 1935; NetConnections] contested_world)
                 (set_os [old_server KillDies] (Some [listener 1935 500])
                    (record [checking_notice 1935; NetConnections;
                             starting_notice "C:\mona\MonaServer.exe";
                             Popen "C:\mona\MonaServer.exe"] contested_world))
                 _ _ _ _ _ _))
              1 contested_world_after _); vm_compute; reflexivity.
  - refine (proj1 (proj2
              (Hrecheck (sample_config false)
                 (set_keyboard [Line "n"; Line "y"] contested_world)
                 "C:\mona\MonaServer.exe" None
                 (record [checking_notice 1935; NetConnections]
                    (set_keyboard [Line "n"; Line "y"] contested_world))
                 (set_os [old_server KillDies] (Some [listener 1935 500])
                    (record [checking_notice 1935; NetConnections;
                             starting_notice "C:\mona\MonaServer.exe";
                             Popen "C:\mona\MonaServer.exe"]
                       (set_keyboard [Line "n"; Line "y"] contested_world)))
                 _ _ _ _ _ _))
              (false, Some 500) _ 1935 _ _); vm_compute; reflexivity.
Defined.

(** C8, as the claim states it, fails.  No server runs and the port is
    free; the server is spawned and is still not found after the settle
    delay, while process 500 has taken the port.  The resolver, run again,
    finds that occupant; the operator declines the kill and declines to
    skip, and the script is halted with status 1: no outcome is reported,
    unconfirmed or other. *)
Lemma contested_restart_halts_the_run :
  mona_running contested_world = false
  /\ probe 1935 contested_world = None
  /\ start_mona_server (sample_config false) contested_world = Exited 1 contested_world_after
  /\ In (Popen "C:\mona\MonaServer.exe") (journal contested_world_after)
  /\ mona_running contested_world_after = false
  /\ probe 1935 contested_world_after = Some (500, "OldServer").
Proof.
  repeat split; try (vm_compute; reflexivity).
  simpl. tauto.
Qed.

(** ** Exit paths *)





Lemma step_divider_returns emoji title title_len w :
  step_divider emoji title title_len w
  = Returned tt (record [divider_notice emoji title title_len] w).
Proof. reflexivity. Qed.




(** * Further properties *)

(** ** The resolver and the operator *)

Lemma after_kill_keyboard pid name w :
  keyboard (snd (after_kill pid name w)) = keyboard w.
Proof.
  unfold after_kill. destruct (refused pid w); [reflexivity|].
  destruct (psutil.find_proc pid (processes w)) as [p|]; [|reflexivity].
  destruct (proc_on_kill p); reflexivity.
Qed.

Lemma nothing_killed_refl w : nothing_killed w w.
Proof. split; [apply same_os_refl | auto]. Qed.

Lemma nothing_killed_trans w1 w2 w3 :
  nothing_killed w1 w2 -> nothing_killed w2 w3 -> nothing_killed w1 w3.
Proof.
  intros [Hos12 Hk12] [Hos23 Hk23]. split.
  - eapply same_os_trans; eassumption.
  - auto.
Qed.

Lemma nothing_killed_record es w :
  forallb (fun e => negb (is_kill_call e)) es = true -> nothing_killed w (record es w).
Proof.
  intros Hes. split; [apply same_os_record|].
  intros pid. simpl. rewrite in_app_iff. intros [H|H]; [exact H|].
  rewrite forallb_forall in Hes. apply Hes in H. discriminate H.
Qed.

Lemma nothing_killed_set_keyboard keys w : nothing_killed w (set_keyboard keys w).
Proof. split; [now unfold same_os | auto]. Qed.

(** A prompt touches the console and the keyboard only. *)
Lemma ask_loop_nothing_killed {A} prompt (process : string -> option A) keys w :
  nothing_killed w (outcome_world (rich.ask_loop prompt process keys w)).
Proof.
  revert w. induction keys as [|k keys IH]; intros w; simpl.
  - eapply nothing_killed_trans;
      [apply (nothing_killed_record [Ask prompt]); reflexivity
      | apply nothing_killed_set_keyboard].
  - destruct k as [l|].
    + destruct (process l).
      * eapply nothing_killed_trans;
          [apply (nothing_killed_record [Ask prompt]); reflexivity
          | apply nothing_killed_set_keyboard].
      * eapply nothing_killed_trans; [|apply IH].
        apply (nothing_killed_record [Ask prompt; Refused l]); reflexivity.
    + eapply nothing_killed_trans;
        [apply (nothing_killed_record [Ask prompt]); reflexivity
        | apply nothing_killed_set_keyboard].
Qed.

Lemma exit_with_error_nothing_killed {A} message w :
  nothing_killed w (outcome_world (@exit_with_error A message w)).
Proof.
  rewrite exit_with_error_outcome.
  destruct (keyboard w) as [|[l|] rest]; simpl;
    try (eapply nothing_killed_trans;
         [apply (nothing_killed_record [error_notice message; Input]); reflexivity
         | apply nothing_killed_set_keyboard]).
  apply (nothing_killed_record [error_notice message; Input]); reflexivity.
Qed.

(** The occupied branch once the kill is declined: the skip prompt alone
    decides. *)
Lemma occupied_declined port p_config pid name w wk :
  kill_wanted p_config pid name (record [in_use_notice port pid name] w) = Returned false wk ->
  occupied port p_config pid name w
  = bind (rich.Confirm_ask "Skip port conflict?" ["y"; "n"] (rich.DefaultStr "n"))
         (fun skip =>
            if skip then
              console_print "[warning]Skipping. Streaming may fail.[/warning]" ;;;
              ret (false, Some pid)
            else exit_with_error ("Port " ++ PyStr.of_Z port ++ " conflict unresolved."))
         wk.
Proof.
  intros Hk. unfold occupied, bind at 1, console_print at 1, emit.
  unfold bind at 1. unfold in_use_notice in Hk. now rewrite Hk.
Qed.

Lemma declining_answer_is_no prompt answer rest w :
  PyStr.lower (PyStr.strip answer) = "n" ->
  keyboard w = Line answer :: rest ->
  rich.Confirm_ask prompt ["y"; "n"] (rich.DefaultStr "y") w
  = Returned false (set_keyboard rest (record [Ask prompt] w)).
Proof.
  intros Hn Hkeys. unfold rich.Confirm_ask. rewrite Hkeys. simpl.
  destruct answer as [|c s]; [discriminate Hn|].
  now rewrite Hn.
Qed.

(** Without the force-kill policy, an operator who answers no to the kill
    prompt is obeyed: however the resolver then ends (skipped, halted, or
    left at the next prompt), no kill call was made and the sockets and
    processes are as they were. *)
Theorem declined_kill_never_kills port_str p_config w answer rest :
  force_kill_port_process p_config = false ->
  keyboard w = Line answer :: rest ->
  PyStr.lower (PyStr.strip answer) = "n" ->
  nothing_killed w (outcome_world (handle_port_conflict port_str p_config w)).
Proof.
  intros Hforce Hkeys Hno. rewrite handle_port_conflict_eq, check_port_eq.
  set (port := port_checked port_str).
  set (w0 := if valid_port_string port_str then w else record [invalid_port_notice port_str] w).
  set (w1 := probed port (record [checking_notice port] w0)).
  assert (H01 : nothing_killed w w1 /\ keyboard w1 = keyboard w).
  { split.
    - eapply nothing_killed_trans with (w2 := w0).
      + unfold w0. destruct (valid_port_string port_str);
          [apply nothing_killed_refl
          | apply (nothing_killed_record [invalid_port_notice port_str]); reflexivity].
      + unfold w1, probed. destruct (in_range port).
        * rewrite record_record.
          apply (nothing_killed_record [checking_notice port; NetConnections]); reflexivity.
        * apply (nothing_killed_record [checking_notice port]); reflexivity.
    - unfold w1, probed, w0.
      destruct (in_range port), (valid_port_string port_str); reflexivity. }
  destruct H01 as [H01 Hk1].
  destruct (probe port w0) as [[pid name]|]; [|exact H01].
  assert (Hwanted : kill_wanted p_config pid name (record [in_use_notice port pid name] w1)
                    = Returned false
                        (set_keyboard rest
                           (record [Ask ("Kill " ++ who name pid ++ "?")]
                              (record [in_use_notice port pid name] w1)))).
  { unfold kill_wanted. rewrite Hforce.
    apply (declining_answer_is_no _ answer); [exact Hno|]. simpl. now rewrite Hk1. }
  rewrite (occupied_declined _ _ _ _ _ _ Hwanted).
  set (wk := set_keyboard rest _).
  assert (H1k : nothing_killed w wk).
  { eapply nothing_killed_trans; [exact H01|]. unfold wk.
    eapply nothing_killed_trans; [|apply nothing_killed_set_keyboard].
    rewrite record_record.
    apply (nothing_killed_record
             [in_use_notice port pid name; Ask ("Kill " ++ who name pid ++ "?")]);
      reflexivity. }
  unfold bind at 1, rich.Confirm_ask.
  pose proof (ask_loop_nothing_killed "Skip port conflict?"
                (fun line =>
                   match line, rich.DefaultStr "n" with
                   | EmptyString, rich.DefaultBool _ | EmptyString, rich.DefaultStr _ =>
                       Some (rich.default_truthy (rich.DefaultStr "n"))
                   | _, _ =>
                       let v := PyStr.lower (PyStr.strip line) in
                       if rich.string_in v ["y"; "n"]
                       then Some (v =? hd EmptyString ["y"; "n"])%string
                       else None
                   end)
                (keyboard wk) wk) as Hskip.
  destruct (rich.ask_loop _ _ (keyboard wk) wk) as [skip w2|e w2|s w2|w2]; simpl in Hskip.
  - destruct skip.
    + simpl. eapply nothing_killed_trans; [exact H1k|].
      eapply nothing_killed_trans; [exact Hskip|].
      apply (nothing_killed_record [Print "[warning]Skipping. Streaming may fail.[/warning]"]);
        reflexivity.
    + eapply nothing_killed_trans; [exact H1k|].
      eapply nothing_killed_trans; [exact Hskip|].
      apply exit_with_error_nothing_killed.
  - simpl. eapply nothing_killed_trans; eassumption.
  - simpl. eapply nothing_killed_trans; eassumption.
  - simpl. eapply nothing_killed_trans; eassumption.
Qed.

Lemma declined_kill_never_kills_witness :
  nothing_killed (occupied_world KillDies [Line " N "; Line "y"])
    (outcome_world
       (handle_port_conflict "1935" (sample_config false)
          (occupied_world KillDies [Line " N "; Line "y"]))).
Proof.
  apply (declined_kill_never_kills "1935" (sample_config false)
           (occupied_world KillDies [Line " N "; Line "y"]) " N " [Line "y"]);
    reflexivity.
Defined.

(** ** Device selection by number *)











Lemma lookup_in (l : list Device) k s d :
  lookup s (map (fun e => (PyStr.of_Z (Z.of_nat (fst e) + 1), snd e))
                (combine (seq k (length l)) l))
  = Some d ->
  In d l.
Proof.
  revert k. induction l as [|x l IH]; intros k; simpl; [discriminate|].
  destruct (_ =? s)%string.
  - intros H; inversion H; auto.
  - intros H. right. eapply IH. exact H.
Qed.

Lemma try_except_Returned {A} (body : Py A) catches handler w a w' :
  try_except body catches handler w = Returned a w' ->
  body w = Returned a w'
  \/ exists e w1, body w = Raised e w1 /\ catches e = true /\ handler e w1 = Returned a w'.
Proof.
  unfold try_except. destruct (body w) as [b w1|e w1|s w1|w1]; intros H.
  - now left.
  - destruct (catches e) eqn:Hc; [|discriminate]. right. eauto.
  - discriminate.
  - discriminate.
Qed.


(** Whenever [select_device_from_list] returns a record, the record is one
    of the list and its status is [device]; and it returns none only when
    no record of the list has that status. *)
Theorem selection_returns_a_connected_device current_config w r w' :
  select_device_from_list current_config w = Returned r w' ->
  match r with
  | Some d => In d (devices current_config) /\ dev_status d = "device"
  | None => filter is_selectable (devices current_config) = []
  end.
Proof.
  assert (Hsel : forall d, In d (filter is_selectable (devices current_config)) ->
                           In d (devices current_config) /\ dev_status d = "device").
  { intros d Hd. apply filter_In in Hd. destruct Hd as [Hin Hs]. split; [exact Hin|].
    now apply String.eqb_eq. }
  unfold select_device_from_list.
  destruct (devices current_config) as [|d0 ds] eqn:Hds.
  - intros H; inversion H; subst. reflexivity.
  - rewrite <- Hds in *. clear Hds.
    destruct (filter is_selectable (devices current_config)) as [|d others] eqn:Hf.
    + intros H; inversion H; subst. reflexivity.
    + destruct ((length (d :: others) =? 1)%nat && auto_select_single_device current_config).
      * intros H; inversion H; subst. apply Hsel. now left.
      * intros H. apply bind_Returned in H. destruct H as (u1 & w1 & _ & H).
        apply bind_Returned in H. destruct H as (u2 & w2 & _ & H).
        apply bind_Returned in H. destruct H as (u3 & w3 & _ & H).
        apply try_except_Returned in H.
        destruct H as [H|(e & w4 & _ & _ & H)]; [|discriminate H].
        apply bind_Returned in H. destruct H as (s & w4 & _ & H).
        destruct (lookup s _) as [chosen|] eqn:Hl; [|discriminate H].
        inversion H; subst. apply Hsel.
        unfold enumerate in Hl. apply lookup_in in Hl. exact Hl.
Qed.

Lemma selection_returns_a_connected_device_witness :
  In (usb_phone "DEF456") [locked_phone; usb_phone "ABC123"; usb_phone "DEF456"]
  /\ dev_status (usb_phone "DEF456") = "device".
Proof.
  apply (selection_returns_a_connected_device
           (set_devices [locked_phone; usb_phone "ABC123"; usb_phone "DEF456"]
              (sample_config true))
           (set_keyboard [Line "x"; Line " 2 "] bare_world)
           (Some (usb_phone "DEF456"))
           (set_keyboard []
              (record (selection_shown
                         (set_devices [locked_phone; usb_phone "ABC123"; usb_phone "DEF456"]
                            (sample_config true))
                       ++ refusals "Enter selection" ["x"]
                       ++ [Ask "Enter selection"; selected_notice (usb_phone "DEF456")])
                 (set_keyboard [Line "x"; Line " 2 "] bare_world)))).
  vm_compute; reflexivity.
Defined.



(** ** The model of a device *)

Lemma append_not_empty a b : b <> EmptyString -> (a ++ b)%string <> EmptyString.
Proof. destruct a; simpl; [auto | discriminate]. Qed.

Lemma truthy_not_empty s : PyStr.truthy s = true -> s <> EmptyString.
Proof. unfold PyStr.truthy. intros H ->. discriminate H. Qed.

Lemma get_device_model_named model_config device_id w :
  exists n, get_device_model model_config device_id w = Returned n w /\ n <> "".
Proof.
  unfold get_device_model.
  destruct (fetch_device_models model_config); simpl;
    [|exists "Unknown"; split; [reflexivity | discriminate]].
  destruct (adb_path model_config) as [adb|]; simpl;
    [|exists "Unknown"; split; [reflexivity | discriminate]].
  unfold try_except, bind, adb_getprop.
  destruct (getprop w device_id "ro.product.model") as [rc out| |];
    [|eexists; split; [reflexivity | discriminate]..].
  cbv zeta. set (model := if rc =? 0 then PyStr.strip out else "").
  destruct (PyStr.truthy model) eqn:Ht.
  - exists model. split; [reflexivity | now apply truthy_not_empty].
  - destruct (getprop w device_id "ro.product.manufacturer") as [rc2 out2| |];
      [|eexists; split; [reflexivity | discriminate]..].
    cbv zeta iota beta. set (mfg := if rc2 =? 0 then PyStr.strip out2 else "").
    eexists. split; [reflexivity|].
    destruct (PyStr.truthy mfg); [apply append_not_empty|]; discriminate.
Qed.

(** [get_device_model] never fails and never gives an empty name: it
    returns in every world, whatever the bridge does, and leaves the world
    as it is.  It answers [Unknown] without a query when the models are not
    to be fetched or the bridge path is unset, and [Unknown (Timeout)] when
    the first query runs out of time. *)
Theorem device_model_always_named model_config device_id w :
  exists n,
    get_device_model model_config device_id w = Returned n w
    /\ n <> ""
    /\ (fetch_device_models model_config = false \/ adb_path model_config = None ->
        n = "Unknown")
    /\ (fetch_device_models model_config = true ->
        adb_path model_config <> None ->
        getprop w device_id "ro.product.model" = RunTimeout ->
        n = "Unknown (Timeout)").
Proof.
  unfold get_device_model.
  destruct (fetch_device_models model_config) eqn:Hfetch; simpl.
  2:{ exists "Unknown". repeat split; try discriminate; auto. }
  destruct (adb_path model_config) as [adb|] eqn:Hadb; simpl.
  2:{ exists "Unknown". repeat split; try discriminate; auto. intros _ H. now elim H. }
  unfold try_except, bind, adb_getprop.
  destruct (getprop w device_id "ro.product.model") as [rc out| |] eqn:Hmodel.
  - cbv zeta. set (model := if rc =? 0 then PyStr.strip out else "").
    destruct (PyStr.truthy model) eqn:Ht.
    + exists model. split; [reflexivity|]. split; [now apply truthy_not_empty|].
      split; [intros [H|H]; discriminate H | discriminate].
    + destruct (getprop w device_id "ro.product.manufacturer") as [rc2 out2| |].
      * cbv zeta iota beta. set (mfg := if rc2 =? 0 then PyStr.strip out2 else "").
        eexists. split; [reflexivity|]. split.
        -- destruct (PyStr.truthy mfg); [apply append_not_empty|]; discriminate.
        -- split; [intros [H|H]; discriminate H | discriminate].
      * eexists. split; [reflexivity|]. split; [discriminate|].
        split; [intros [H|H]; discriminate H | discriminate].
      * eexists. split; [reflexivity|]. split; [discriminate|].
        split; [intros [H|H]; discriminate H | discriminate].
  - eexists. split; [reflexivity|]. split; [discriminate|].
    split; [intros [H|H]; discriminate H | reflexivity].
  - eexists. split; [reflexivity|]. split; [discriminate|].
    split; [intros [H|H]; discriminate H | discriminate].
Qed.

Lemma device_model_always_named_witness :
  get_device_model (sample_config true) "ABC123" bare_world = Returned "Unknown" bare_world
  /\ exists n, get_device_model
                 {| adb_path := Some "adb"; monaserver_path := None; obs_path := None;
                    package_name := "a/b"; rtmp_port := "1935";
                    auto_start_monaserver := true; auto_select_single_device := true;
                    fetch_device_models := true; force_kill_port_process := true;
                    devices := [] |}
                 "ABC123" (with_getprop slow_bridge bare_world)
               = Returned n (with_getprop slow_bridge bare_world)
               /\ n = "Unknown (Timeout)".
Proof.
  split.
  - destruct (device_model_always_named (sample_config true) "ABC123" bare_world)
      as (n & Hret & _ & Hoff & _).
    rewrite Hret. rewrite (Hoff (or_introl eq_refl)). reflexivity.
  - destruct (device_model_always_named
                {| adb_path := Some "adb"; monaserver_path := None; obs_path := None;
                   package_name := "a/b"; rtmp_port := "1935";
                   auto_start_monaserver := true; auto_select_single_device := true;
                   fetch_device_models := true; force_kill_port_process := true;
                   devices := [] |}
                "ABC123" (with_getprop slow_bridge bare_world))
      as (n & Hret & _ & _ & Hslow).
    exists n. split; [exact Hret|].
    apply Hslow; [reflexivity | discriminate | reflexivity].
Defined.

(** ** Server start: what it refuses, what it reports, what it lets out *)

Lemma try_except_Raised {A} (body : Py A) catches handler w e w' :
  try_except body catches handler w = Raised e w' ->
  (body w = Raised e w' /\ catches e = false)
  \/ exists e0 w1, body w = Raised e0 w1 /\ catches e0 = true /\ handler e0 w1 = Raised e w'.
Proof.
  unfold try_except. destruct (body w) as [b w1|e0 w1|s w1|w1]; intros H; try discriminate.
  destruct (catches e0) eqn:Hc.
  - right. eauto.
  - left. inversion H; subst. auto.
Qed.

(** [start_mona_server] spawns nothing and reports failure when the server
    path is unset or is no file, and when the resolver, run before the
    spawn, leaves the conflict unresolved: it goes on from the world the
    resolver left with the message only. *)
Theorem start_refused_without_spawn :
  (forall config w,
      mona_running w = false ->
      (monaserver_path config = None
       \/ exists path, monaserver_path config = Some path
                       /\ rich.string_in path (regular_files w) = false) ->
      start_mona_server config w
      = Returned (Some false) (record [path_invalid_notice config] w))
  /\ (forall config w path conflicting_pid w1,
        mona_running w = false ->
        monaserver_path config = Some path ->
        rich.string_in path (regular_files w) = true ->
        handle_port_conflict (rtmp_port config) config w
        = Returned (false, conflicting_pid) w1 ->
        start_mona_server config w
        = Returned (Some false) (record [cannot_start_notice config conflicting_pid] w1)).
Proof.
  split.
  - intros config w Hrun Hpath. unfold start_mona_server, bind at 1.
    rewrite check_monaserver_process_eq, Hrun. unfold path_invalid_notice.
    destruct Hpath as [Hnone|(path & Hsome & Hfile)].
    + rewrite Hnone. reflexivity.
    + rewrite Hsome. unfold bind at 1, is_file. rewrite Hfile. reflexivity.
  - intros config w path conflicting_pid w1 Hrun Hpath Hfile Hfirst.
    unfold start_mona_server, bind at 1.
    rewrite check_monaserver_process_eq, Hrun, Hpath.
    unfold bind at 1, is_file. rewrite Hfile.
    unfold bind at 1. rewrite Hfirst. reflexivity.
Qed.

Lemma start_refused_without_spawn_witness :
  start_mona_server (sample_config true)
    (set_os [] (Some []) world_without_rich)
  = Returned (Some false)
      (record [path_invalid_notice (sample_config true)]
         (set_os [] (Some []) world_without_rich))
  /\ start_mona_server (sample_config true) (occupied_world KillDenied [])
     = Returned (Some false)
         (record [cannot_start_notice (sample_config true) (Some 500)] denied_world_after).
Proof.
  destruct start_refused_without_spawn as (Hpath & Hconflict).
  split.
  - apply Hpath; [reflexivity|]. right. exists "C:\mona\MonaServer.exe".
    split; reflexivity.
  - apply (Hconflict (sample_config true) (occupied_world KillDenied [])
                     "C:\mona\MonaServer.exe" (Some 500) denied_world_after);
      vm_compute; reflexivity.
Defined.

(** Once the resolver has let the start go on: a spawn that raises is
    reported as a failed start, not raised; and a server that the health
    check finds after the settle delay is reported started, with no second
    run of the resolver. *)
Theorem start_after_spawn_failed_or_detected :
  (forall config w path first_pid w1,
      mona_running w = false ->
      monaserver_path config = Some path ->
      rich.string_in path (regular_files w) = true ->
      handle_port_conflict (rtmp_port config) config w = Returned (true, first_pid) w1 ->
      popen_effect w1 = None ->
      start_mona_server config w
      = Returned (Some false)
          (record [starting_notice path; Popen path; start_failed_notice OSError] w1))
  /\ (forall config w path first_pid w1 w2,
        mona_running w = false ->
        monaserver_path config = Some path ->
        rich.string_in path (regular_files w) = true ->
        handle_port_conflict (rtmp_port config) config w = Returned (true, first_pid) w1 ->
        subprocess.Popen path (record [starting_notice path] w1) = Returned tt w2 ->
        mona_running w2 = true ->
        start_mona_server config w
        = Returned (Some true) (record [issued_notice; Sleep 1500] w2)).
Proof.
  split.
  - intros config w path first_pid w1 Hrun Hpath Hfile Hfirst Hpopen.
    unfold start_mona_server, bind at 1.
    rewrite check_monaserver_process_eq, Hrun, Hpath.
    unfold bind at 1, is_file. rewrite Hfile.
    unfold bind at 1. rewrite Hfirst. cbn [negb].
    unfold bind at 1, console_print at 1, emit.
    unfold try_except, spawn_and_verify, bind at 1, subprocess.Popen.
    cbn [popen_effect record set_journal]. rewrite Hpopen.
    cbn [is_Exception]. unfold start_failed, bind, console_print, emit, ret.
    now rewrite !record_record.
  - intros config w path first_pid w1 w2 Hrun Hpath Hfile Hfirst Hpopen Hfound.
    unfold start_mona_server, bind at 1.
    rewrite check_monaserver_process_eq, Hrun, Hpath.
    unfold bind at 1, is_file. rewrite Hfile.
    unfold bind at 1. rewrite Hfirst. cbn [negb].
    unfold bind at 1, console_print at 1, emit.
    unfold spawn_and_verify.
    rewrite (try_except_step _ _ _ _ _ tt w2) by exact Hpopen.
    rewrite (try_except_step _ _ _ _ _ tt (record [issued_notice] w2)) by reflexivity.
    rewrite (try_except_step _ _ _ _ _ tt (record [issued_notice; Sleep 1500] w2))
      by (unfold time_sleep, emit; now rewrite record_record).
    rewrite (try_except_step _ _ _ _ _ true (record [issued_notice; Sleep 1500] w2)).
    + reflexivity.
    + rewrite check_monaserver_process_eq. unfold mona_running in *. simpl.
      now rewrite Hfound.
Qed.

Lemma start_after_spawn_failed_or_detected_witness :
  start_mona_server (sample_config true) bare_world
  = Returned (Some false)
      (record [starting_notice "C:\mona\MonaServer.exe"; Popen "C:\mona\MonaServer.exe";
               start_failed_notice OSError]
         (record [checking_notice 1935; NetConnections] bare_world))
  /\ start_mona_server (sample_config true)
       (with_popen (Some ([mona_server], [listener 1935 900])) bare_world)
     = Returned (Some true)
         (record [issued_notice; Sleep 1500]
            (set_os [mona_server] (Some [listener 1935 900])
               (record [checking_notice 1935; NetConnections;
                        starting_notice "C:\mona\MonaServer.exe";
                        Popen "C:\mona\MonaServer.exe"]
                  (with_popen (Some ([mona_server], [listener 1935 900])) bare_world)))).
Proof.
  destruct start_after_spawn_failed_or_detected as (Hfailed & Hdetected).
  split.
  - apply (Hfailed (sample_config true) bare_world "C:\mona\MonaServer.exe" None
                   (record [checking_notice 1935; NetConnections] bare_world));
      vm_compute; reflexivity.
  - apply (Hdetected (sample_config true)
             (with_popen (Some ([mona_server], [listener 1935 900])) bare_world)
             "C:\mona\MonaServer.exe" None
             (record [checking_notice 1935; NetConnections]
                (with_popen (Some ([mona_server], [listener 1935 900])) bare_world)));
      vm_compute; reflexivity.
Defined.

(** ** The summary row of the host port *)

Lemma append_empty s : (s ++ "")%string = s.
Proof. induction s as [|c s IH]; simpl; [reflexivity | now rewrite IH]. Qed.

(** ** One line of the device list *)

Lemma span_spec p s :
  s = (fst (PyText.span p s) ++ snd (PyText.span p s))%string
  /\ PyStr.all_chars p (fst (PyText.span p s)) = true.
Proof.
  induction s as [|c s [IHs IHp]]; simpl; [auto|].
  destruct (p c) eqn:Hc; [|auto].
  destruct (PyText.span p s) as [taken remaining]; simpl in *.
  split; [now rewrite <- IHs | rewrite ?Hc; exact IHp].
Qed.

Lemma span_append p a b :
  PyStr.all_chars p a = true ->
  match b with String c _ => p c = false | EmptyString => True end ->
  PyText.span p (a ++ b) = (a, b).
Proof.
  intros Ha Hb. induction a as [|c a IH]; simpl in *.
  - destruct b as [|c b]; simpl; [reflexivity | now rewrite Hb].
  - apply andb_true_iff in Ha. destruct Ha as [Hc Ha].
    rewrite Hc, (IH Ha). reflexivity.
Qed.

Lemma strip_prefix_spec p s r : PyText.strip_prefix p s = Some r -> s = (p ++ r)%string.
Proof.
  revert s. induction p as [|a p IH]; intros s; simpl.
  - intros H; now inversion H.
  - destruct s as [|b s]; [discriminate|].
    destruct (Ascii.eqb_spec a b); [|discriminate].
    intros H. subst. now rewrite (IH _ H).
Qed.

Lemma strip_prefix_append p s : PyText.strip_prefix p (p ++ s) = Some s.
Proof.
  induction p as [|a p IH]; simpl; [reflexivity|]. now rewrite Ascii.eqb_refl.
Qed.

Lemma space_is_no_id_char c : PyStr.is_space c = true -> is_id_char c = false.
Proof.
  destruct c as [[] [] [] [] [] [] [] []]; intros H; try discriminate H; reflexivity.
Qed.

Lemma match_detail_spec did token after groups :
  match_detail did token after = Some groups ->
  exists det,
    groups = (did, token, det)
    /\ match det with
       | None => after = ""
       | Some d => exists blank, is_blank blank = true /\ after = (blank ++ d)%string
       end.
Proof.
  unfold match_detail. destruct after as [|c after].
  - intros H; inversion H. exists None. auto.
  - pose proof (span_spec PyStr.is_space (String c after)) as [Hcat Hsp].
    destruct (PyText.span PyStr.is_space (String c after)) as [spaces detail].
    simpl fst in *. simpl snd in *.
    destruct (spaces =? "")%string eqn:He; [discriminate|].
    intros H; inversion H. exists (Some detail). split; [reflexivity|].
    exists spaces. split; [|exact Hcat].
    unfold is_blank. now rewrite He, Hsp.
Qed.

Lemma match_status_spec did tokens s groups :
  match_status did tokens s = Some groups ->
  exists token after,
    In token tokens /\ s = (token ++ after)%string
    /\ match_detail did token after = Some groups.
Proof.
  induction tokens as [|t tokens IH]; simpl; [discriminate|].
  destruct (PyText.strip_prefix t s) as [after|] eqn:Hp.
  - destruct (match_detail did t after) as [g|] eqn:Hd.
    + intros H; inversion H; subst. exists t, after.
      split; [now left|]. split; [now apply strip_prefix_spec | exact Hd].
    + intros H. destruct (IH H) as (token & after' & Hin & Hs & Hm).
      exists token, after'. auto.
  - intros H. destruct (IH H) as (token & after' & Hin & Hs & Hm).
    exists token, after'. auto.
Qed.

Lemma match_device_line_sound line did token det :
  match_device_line line = Some (did, token, det) ->
  is_identifier did = true
  /\ In token STATUS_TOKENS
  /\ exists blank tail,
       is_blank blank = true
       /\ line = (did ++ blank ++ token ++ tail)%string
       /\ match det with
          | None => tail = ""
          | Some d => exists blank', is_blank blank' = true
                                     /\ tail = (blank' ++ d)%string
          end.
Proof.
  intros Hm. unfold match_device_line in Hm.
  pose proof (span_spec is_id_char line) as [Hcat1 Hid].
  destruct (PyText.span is_id_char line) as [did' after_id]. simpl fst in *. simpl snd in *.
  destruct (did' =? "")%string eqn:Hne; [discriminate|].
  pose proof (span_spec PyStr.is_space after_id) as [Hcat2 Hsp].
  destruct (PyText.span PyStr.is_space after_id) as [spaces after_spaces].
  simpl fst in *. simpl snd in *.
  destruct (spaces =? "")%string eqn:Hsne; [discriminate|].
  apply match_status_spec in Hm. destruct Hm as (tok & after & Hin & Hs & Hd).
  apply match_detail_spec in Hd. destruct Hd as (det' & Hg & Hdet).
  inversion Hg; subst did' tok det'.
  split; [unfold is_identifier; now rewrite Hne, Hid|].
  split; [exact Hin|].
  exists spaces, after. split; [unfold is_blank; now rewrite Hsne, Hsp|].
  split; [now rewrite Hcat1, Hcat2, Hs | exact Hdet].
Qed.

(** A line and its groups.  A line that matches is its identifier, white
    space, its status token and, when there is a detail, white space and the
    detail, the identifier being made of identifier characters and the
    token being one of the three; and a line that is put together in this
    way, with a detail that does not begin with white space, matches and
    gives back the identifier, the token and the detail. *)
Theorem device_line_round_trip :
  (forall line did token det,
      plain_line line = true ->
      match_device_line line = Some (did, token, det) ->
      is_identifier did = true
      /\ In token STATUS_TOKENS
      /\ exists blank tail,
           is_blank blank = true
           /\ line = (did ++ blank ++ token ++ tail)%string
           /\ match det with
              | None => tail = ""
              | Some d => exists blank', is_blank blank' = true
                                         /\ tail = (blank' ++ d)%string
              end)
  /\ (forall did blank token,
        is_identifier did = true -> is_blank blank = true -> In token STATUS_TOKENS ->
        match_device_line (did ++ blank ++ token) = Some (did, token, None))
  /\ (forall did blank token blank' d,
        is_identifier did = true -> is_blank blank = true -> In token STATUS_TOKENS ->
        is_blank blank' = true -> begins_with_space d = false -> plain_line d = true ->
        match_device_line (did ++ blank ++ token ++ blank' ++ d)
        = Some (did, token, Some d)).
Proof.
  assert (Hhead : forall did blank rest,
             is_identifier did = true -> is_blank blank = true ->
             begins_with_space rest = false ->
             match_device_line (did ++ blank ++ rest)
             = match_status did STATUS_TOKENS rest).
  { intros did blank rest Hid Hbl Hrest.
    unfold is_identifier in Hid. apply andb_true_iff in Hid. destruct Hid as [Hne Hall].
    unfold is_blank in Hbl. apply andb_true_iff in Hbl. destruct Hbl as [Hbne Hball].
    unfold match_device_line.
    rewrite (span_append is_id_char did (blank ++ rest) Hall).
    - apply negb_true_iff in Hne. rewrite Hne.
      rewrite (span_append PyStr.is_space blank rest Hball).
      + apply negb_true_iff in Hbne. now rewrite Hbne.
      + destruct rest as [|c rest]; [exact I | exact Hrest].
    - destruct blank as [|c blank]; [discriminate Hbne|]. simpl in *.
      apply andb_true_iff in Hball. destruct Hball as [Hc _].
      now apply space_is_no_id_char. }
  split; [|split].
  - intros line did token det _ Hm. now apply match_device_line_sound.
  - intros did blank token Hid Hbl Hin.
    rewrite (Hhead did blank token Hid Hbl).
    + destruct Hin as [<-|[<-|[<-|[]]]]; reflexivity.
    + destruct Hin as [<-|[<-|[<-|[]]]]; reflexivity.
  - intros did blank token blank' d Hid Hbl Hin Hbl' Hd _.
    rewrite (Hhead did blank (token ++ blank' ++ d) Hid Hbl).
    + assert (Hdetail : match_detail did token (blank' ++ d) = Some (did, token, Some d)).
      { unfold is_blank in Hbl'. apply andb_true_iff in Hbl'. destruct Hbl' as [Hne Hall].
        unfold match_detail.
        rewrite (span_append PyStr.is_space blank' d Hall).
        - apply negb_true_iff in Hne. rewrite Hne.
          destruct blank' as [|c b]; [discriminate Hne | reflexivity].
        - destruct d as [|c d]; [exact I | exact Hd]. }
      destruct Hin as [<-|[<-|[<-|[]]]]; cbn [match_status STATUS_TOKENS];
        cbn [PyText.strip_prefix append Ascii.eqb Bool.eqb];
        rewrite ?strip_prefix_append; now rewrite Hdetail.
    + destruct Hin as [<-|[<-|[<-|[]]]]; reflexivity.
Qed.

Lemma device_line_round_trip_witness :
  match_device_line "emulator-5554   offline" = Some ("emulator-5554", "offline", None)
  /\ match_device_line "ABC123  device usb:1-4 product:panther"
     = Some ("ABC123", "device", Some "usb:1-4 product:panther")
  /\ is_identifier "ABC123" = true.
Proof.
  destruct device_line_round_trip as (Hparse & Hbare & Hdetail).
  split; [|split].
  - apply (Hbare "emulator-5554" "   " "offline"); try reflexivity.
    simpl; tauto.
  - apply (Hdetail "ABC123" "  " "device" " " "usb:1-4 product:panther"); try reflexivity.
    simpl; tauto.
  - apply (Hparse "ABC123  device usb:1-4 product:panther" "ABC123" "device"
                  (Some "usb:1-4 product:panther")); reflexivity.
Defined.

(** ** The device list *)

Lemma parse_device_line_well_formed p_config did stat det w :
  is_identifier did = true -> In stat STATUS_TOKENS ->
  exists d, parse_device_line p_config (did, stat, det) w = Returned d w
            /\ well_formed_record d.
Proof.
  intros Hid Hstat. unfold parse_device_line.
  destruct (connection_of did) as [conn icon] eqn:Hconn.
  assert (Hname : exists n,
             (if (stat =? "device")%string
              then if fetch_device_models p_config
                   then get_device_model p_config did
                   else ret "Unknown"
              else ret ("(" ++ PyStr.capitalize stat ++ ")")) w = Returned n w
             /\ n <> "").
  { destruct (stat =? "device")%string.
    - destruct (fetch_device_models p_config).
      + destruct (get_device_model_named p_config did w) as (n & Hn & Hne).
        exists n. auto.
      + exists "Unknown". split; [reflexivity | discriminate].
    - eexists. split; [reflexivity | discriminate]. }
  destruct Hname as (n & Hn & Hne).
  unfold bind. rewrite Hn. eexists. split; [reflexivity|].
  unfold well_formed_record. simpl. rewrite Hconn. auto.
Qed.

Lemma parse_device_line_without_model p_config groups w :
  fetch_device_models p_config = false ->
  parse_device_line p_config groups w = Returned (record_without_model groups) w.
Proof.
  intros Hfetch. destruct groups as [[did stat] det].
  unfold parse_device_line, record_without_model. rewrite Hfetch.
  destruct (connection_of did) as [conn icon].
  destruct (stat =? "device")%string; reflexivity.
Qed.

(** The groups of the lines that match, in order. *)
Lemma parse_lines_well_formed current_config lines w :
  exists found,
    parse_lines current_config lines w = Returned found w
    /\ Forall well_formed_record found
    /\ (length found <= length lines)%nat.
Proof.
  induction lines as [|line lines (found & Hrest & Hwf & Hlen)]; simpl.
  - exists []. repeat split; auto.
  - destruct (match_device_line (PyStr.strip line)) as [[[did stat] det]|] eqn:Hm.
    + apply match_device_line_sound in Hm. destruct Hm as (Hid & Hstat & _).
      destruct (parse_device_line_well_formed current_config did stat det w Hid Hstat)
        as (d & Hd & Hdwf).
      exists (d :: found). unfold bind. rewrite Hd, Hrest.
      repeat split; [constructor; assumption | simpl; lia].
    + exists found. repeat split; auto.
Qed.

Lemma parse_lines_without_model current_config lines w :
  fetch_device_models current_config = false ->
  parse_lines current_config lines w
  = Returned (map record_without_model
                (flat_map (fun line => match match_device_line (PyStr.strip line) with
                                       | Some groups => [groups]
                                       | None => []
                                       end) lines)) w.
Proof.
  intros Hfetch. induction lines as [|line lines IH]; simpl; [reflexivity|].
  destruct (match_device_line (PyStr.strip line)) as [groups|]; simpl; [|exact IH].
  unfold bind. now rewrite (parse_device_line_without_model _ _ _ Hfetch), IH.
Qed.

(** [find_connected_devices] never fails and asks nothing: it returns in
    every world, for every answer of the bridge, and only writes to the
    console.  Without a bridge path it returns no record and prints
    nothing; when the listing fails it reports the error and returns no
    record; and of a listing it returns at most one record for each line
    after the first, every record with an identifier made of identifier
    characters, one of the three status tokens, a name that is not empty
    and the connection its identifier gives. *)
Theorem device_list_never_fails_and_is_well_formed :
  (forall listing current_config w,
      adb_path current_config = None ->
      find_connected_devices listing current_config w = Returned [] w)
  /\ (forall error_text current_config w,
        adb_path current_config <> None ->
        find_connected_devices (CheckedFailure error_text) current_config w
        = Returned [] (record [scanning_notice; bridge_error_notice error_text] w))
  /\ (forall stdout current_config w,
        adb_path current_config <> None ->
        PyText.is_ascii stdout = true ->
        exists found,
          find_connected_devices (CheckedOutput stdout) current_config w
          = Returned found (record [scanning_notice] w)
          /\ Forall well_formed_record found
          /\ (length found <= length (PyText.splitlines (PyStr.strip stdout)) - 1)%nat).
Proof.
  split; [|split].
  - intros listing current_config w Hnone. unfold find_connected_devices.
    now rewrite Hnone.
  - intros error_text current_config w Hpath. unfold find_connected_devices.
    destruct (adb_path current_config); [|now elim Hpath].
    unfold is_none, bind, console_print, emit, ret. now rewrite record_record.
  - intros stdout current_config w Hpath _. unfold find_connected_devices.
    destruct (adb_path current_config); [|now elim Hpath].
    unfold is_none, bind at 1, console_print, emit.
    fold scanning_notice.
    destruct (PyText.splitlines (PyStr.strip stdout)) as [|header lines].
    + exists []. repeat split; auto.
    + destruct (parse_lines_well_formed current_config lines (record [scanning_notice] w))
        as (found & Hfound & Hwf & Hlen).
      destruct lines as [|line lines].
      * exists []. repeat split; auto.
      * exists found. cbn [Nat.leb length tl]. cbn [length] in Hlen.
        split; [exact Hfound | split; [exact Hwf | lia]].
Qed.

Lemma device_list_never_fails_and_is_well_formed_witness :
  find_connected_devices (CheckedFailure "timed out") (sample_config true) bare_world
  = Returned [] (record [scanning_notice; bridge_error_notice "timed out"] bare_world)
  /\ exists found,
       find_connected_devices (CheckedOutput one_phone_listing) (sample_config true) bare_world
       = Returned found (record [scanning_notice] bare_world)
       /\ Forall well_formed_record found
       /\ (length found
           <= length (PyText.splitlines (PyStr.strip one_phone_listing)) - 1)%nat.
Proof.
  destruct device_list_never_fails_and_is_well_formed as (_ & Hfailure & Hlisting).
  split.
  - apply Hfailure. discriminate.
  - apply Hlisting; [discriminate | reflexivity].
Defined.

Lemma filter_map_commute {A B} (f : A -> B) (p : B -> bool) (l : list A) :
  filter p (map f l) = map f (filter (fun a => p (f a)) l).
Proof.
  induction l as [|a l IH]; simpl; [reflexivity|].
  destruct (p (f a)); simpl; now rewrite IH.
Qed.

(** From the listing to the selection.  When the models are not fetched,
    the single device is to be taken automatically, and exactly one line of
    the listing after the first has the status [device], the records of
    [find_connected_devices] lead [select_device_from_list] to return the
    record of that line, named [Unknown], without a prompt: none of the
    operator's keys is read. *)
Theorem single_listed_device_is_selected stdout current_config w did det :
  adb_path current_config <> None ->
  fetch_device_models current_config = false ->
  auto_select_single_device current_config = true ->
  PyText.is_ascii stdout = true ->
  filter is_device_group (listed stdout) = [(did, "device", det)] ->
  exists found w1 w2,
    find_connected_devices (CheckedOutput stdout) current_config w = Returned found w1
    /\ select_device_from_list (set_devices found current_config) w1
       = Returned (Some (record_without_model (did, "device", det))) w2
    /\ dev_id (record_without_model (did, "device", det)) = did
    /\ dev_name (record_without_model (did, "device", det)) = "Unknown"
    /\ keyboard w2 = keyboard w.
Proof.
  intros Hpath Hfetch Hauto _ Hone.
  exists (map record_without_model (listed stdout)).
  exists (record [scanning_notice] w).
  exists (record [auto_select_notice (record_without_model (did, "device", det))]
            (record [devices_table (map record_without_model (listed stdout))]
               (record [scanning_notice] w))).
  assert (Hfind : find_connected_devices (CheckedOutput stdout) current_config w
                  = Returned (map record_without_model (listed stdout))
                      (record [scanning_notice] w)).
  { unfold find_connected_devices, listed.
    destruct (adb_path current_config); [|now elim Hpath].
    unfold is_none, bind at 1, console_print, emit. fold scanning_notice.
    destruct (PyText.splitlines (PyStr.strip stdout)) as [|header lines]; [reflexivity|].
    destruct lines as [|line lines]; [reflexivity|].
    cbn [length Nat.leb tl].
    apply (parse_lines_without_model current_config (line :: lines) _ Hfetch). }
  split; [exact Hfind|].
  assert (Hsel : filter is_selectable (map record_without_model (listed stdout))
                 = [record_without_model (did, "device", det)]).
  { rewrite filter_map_commute.
    replace (filter (fun a => is_selectable (record_without_model a)) (listed stdout))
      with (filter is_device_group (listed stdout)).
    - now rewrite Hone.
    - apply filter_ext. intros [[i s] x]. reflexivity. }
  split; [|split; [reflexivity | split; [reflexivity|]]].
  - unfold select_device_from_list. cbn [devices set_devices].
    rewrite Hsel. cbn [auto_select_single_device set_devices]. rewrite Hauto.
    destruct (map record_without_model (listed stdout)) as [|d0 ds] eqn:Hds;
      [discriminate Hsel|].
    unfold bind, emit, console_print, ret. cbn [length Nat.eqb andb].
    reflexivity.
  - reflexivity.
Qed.

Lemma single_listed_device_is_selected_witness :
  exists found w1 w2,
    find_connected_devices (CheckedOutput one_phone_listing) (sample_config true)
      (set_keyboard [Line "1"] bare_world)
    = Returned found w1
    /\ select_device_from_list (set_devices found (sample_config true)) w1
       = Returned (Some (record_without_model
                           ("ABC123", "device",
                            Some "product:panther model:Pixel_7 device:panther"))) w2
    /\ dev_id (record_without_model
                 ("ABC123", "device", Some "product:panther model:Pixel_7 device:panther"))
       = "ABC123"
    /\ dev_name (record_without_model
                   ("ABC123", "device", Some "product:panther model:Pixel_7 device:panther"))
       = "Unknown"
    /\ keyboard w2 = keyboard (set_keyboard [Line "1"] bare_world).
Proof.
  apply (single_listed_device_is_selected one_phone_listing (sample_config true)
           (set_keyboard [Line "1"] bare_world) "ABC123"
           (Some "product:panther model:Pixel_7 device:panther"));
    try reflexivity.
  discriminate.
Defined.

(** ** The main block *)

Lemma port_warning_printed config flag pid w :
  (match pid with
   | Some p =>
       if negb flag then
         console_print ("[warning]Port TCP:" ++ rtmp_port config ++ " conflict (PID "
                        ++ PyStr.of_Z p
                        ++ ") was not resolved. MonaServer might fail to start or bind.[/warning]")
       else ret tt
   | None => ret tt
   end) w
  = Returned tt (record (port_warning config (flag, pid)) w).
Proof.
  unfold port_warning, ret, console_print, emit, record, set_journal.
  destruct pid as [p|], flag; simpl; try reflexivity; rewrite app_nil_r; now destruct w.
Qed.

Ltac main_to_adb_check Hload Hport :=
  unfold main;
  unfold bind at 1, console_print at 1, emit;
  unfold bind at 1; unfold bind at 1; rewrite step_divider_returns;
  rewrite !record_record; cbn [app];
  match goal with |- context [record [Print ?logo; ?panel; ?divider] ?w] =>
    change (record [Print logo; panel; divider] w) with (record (banner logo) w)
  end;
  unfold bind at 1; rewrite Hload;
  unfold bind at 1; rewrite Hport;
  match goal with |- context [Returned (?flag, ?pid)] => idtac | _ => idtac end.

(** The main block halts on its fatal conditions by [exit_with_error],
    whatever its collaborators do otherwise: when the check of the bridge
    fails, before any device is looked for; when no device is selected,
    before any port is forwarded; and when the forwarding fails and the
    operator declines to continue, before the app is launched. *)
Theorem main_halts_on_fatal_conditions :
  forall LOGO load_config check_adb_version find_devices setup_port_forwarding
         launch_app copy_to_clipboard print_summary w config w1 flag pid w2,
    load_config (record (banner LOGO) w) = Returned config w1 ->
    handle_port_conflict (rtmp_port config) config w1 = Returned (flag, pid) w2 ->
    (forall message w3,
        check_adb_version config
          (record (port_warning config (flag, pid)
                   ++ [divider_notice "🔍" "ADB Verification" 16]) w2)
        = Returned (false, message) w3 ->
        main LOGO load_config check_adb_version find_devices setup_port_forwarding
             launch_app copy_to_clipboard print_summary w
        = exit_with_error ("ADB check failed: " ++ message) w3)
    /\ (forall version w3 found w4,
          check_adb_version config
            (record (port_warning config (flag, pid)
                     ++ [divider_notice "🔍" "ADB Verification" 16]) w2)
          = Returned (true, version) w3 ->
          find_devices config (record [divider_notice "📱" "Device Selection" 16] w3)
          = Returned found w4 ->
          (forall w5,
              select_device_from_list (set_devices found config) w4 = Returned None w5 ->
              main LOGO load_config check_adb_version find_devices setup_port_forwarding
                   launch_app copy_to_clipboard print_summary w
              = exit_with_error "No device selected." w5)
          /\ (forall d w5 w6 w7,
                select_device_from_list (set_devices found config) w4
                = Returned (Some d) w5 ->
                setup_port_forwarding (set_devices found config) d
                  (record [divider_notice "🚀" "Setup Execution" 15] w5)
                = Returned false w6 ->
                rich.Confirm_ask "Port forwarding failed. Continue anyway?" ["y"; "n"]
                  (rich.DefaultBool false) w6
                = Returned false w7 ->
                main LOGO load_config check_adb_version find_devices setup_port_forwarding
                     launch_app copy_to_clipboard print_summary w
                = exit_with_error "Aborted: port forwarding failure." w7)).
Proof.
  intros LOGO load_config check_adb_version find_devices setup_port_forwarding
         launch_app copy_to_clipboard print_summary w config w1 flag pid w2 Hload Hport.
  split.
  - intros message w3 Hadb. main_to_adb_check Hload Hport.
    unfold bind at 1. rewrite port_warning_printed.
    unfold bind at 1. rewrite step_divider_returns, record_record.
    unfold bind at 1. rewrite Hadb. cbn [negb].
    unfold bind at 1.
    rewrite (exit_with_error_outcome (A:=unit)).
    destruct (keyboard w3) as [|[l|] rest]; reflexivity.
  - intros version w3 found w4 Hadb Hfound. split.
    + intros w5 Hsel. main_to_adb_check Hload Hport.
      unfold bind at 1. rewrite port_warning_printed.
      unfold bind at 1. rewrite step_divider_returns, record_record.
      unfold bind at 1. rewrite Hadb. cbn [negb].
      unfold bind at 1, ret at 1.
      unfold bind at 1. rewrite step_divider_returns.
      unfold bind at 1. rewrite Hfound.
      unfold bind at 1. now rewrite Hsel.
    + intros d w5 w6 w7 Hsel Hforward Hdecline. main_to_adb_check Hload Hport.
      unfold bind at 1. rewrite port_warning_printed.
      unfold bind at 1. rewrite step_divider_returns, record_record.
      unfold bind at 1. rewrite Hadb. cbn [negb].
      unfold bind at 1, ret at 1.
      unfold bind at 1. rewrite step_divider_returns.
      unfold bind at 1. rewrite Hfound.
      unfold bind at 1. rewrite Hsel.
      unfold bind at 1. rewrite step_divider_returns.
      unfold bind at 1. rewrite Hforward. cbn [negb].
      unfold bind at 1. unfold bind at 1. rewrite Hdecline. cbn [negb].
      rewrite (exit_with_error_outcome (A:=unit)).
      destruct (keyboard w7) as [|[l|] rest]; reflexivity.
Qed.

Lemma main_halts_on_fatal_conditions_witness :
  (exists w3,
      main "RTMP" stored_config adb_missing two_phones forwarding_works app_starts
           clipboard_works plain_summary bare_world
      = exit_with_error "ADB check failed: ADB path not set" w3)
  /\ (exists w5,
         main "RTMP" stored_config adb_answers
              (find_connected_devices (CheckedOutput "List of devices attached"))
              forwarding_works app_starts clipboard_works plain_summary bare_world
         = exit_with_error "No device selected." w5)
  /\ (exists w7,
         main "RTMP" stored_config adb_answers two_phones forwarding_fails app_starts
              clipboard_works plain_summary (set_keyboard [Line "1"; Line "n"] bare_world)
         = exit_with_error "Aborted: port forwarding failure." w7).
Proof.
  assert (Hport : forall keys,
             handle_port_conflict "1935" (sample_config true)
               (record (banner "RTMP") (set_keyboard keys bare_world))
             = Returned (true, None)
                 (record [checking_notice 1935; NetConnections]
                    (record (banner "RTMP") (set_keyboard keys bare_world))))
    by (intros keys; vm_compute; reflexivity).
  split; [|split].
  - destruct (main_halts_on_fatal_conditions "RTMP" stored_config adb_missing two_phones
                forwarding_works app_starts clipboard_works plain_summary bare_world
                (sample_config true) _ true None _ eq_refl (Hport []))
      as (Hadb & _).
    eexists. apply Hadb. vm_compute; reflexivity.
  - destruct (main_halts_on_fatal_conditions "RTMP" stored_config adb_answers
                (find_connected_devices (CheckedOutput "List of devices attached"))
                forwarding_works app_starts clipboard_works plain_summary bare_world
                (sample_config true) _ true None _ eq_refl (Hport []))
      as (_ & Hselect).
    edestruct Hselect as (Hnone & _);
      [vm_compute; reflexivity | vm_compute; reflexivity |].
    eexists. apply Hnone. vm_compute; reflexivity.
  - destruct (main_halts_on_fatal_conditions "RTMP" stored_config adb_answers two_phones
                forwarding_fails app_starts clipboard_works plain_summary
                (set_keyboard [Line "1"; Line "n"] bare_world)
                (sample_config true) _ true None _ eq_refl (Hport [Line "1"; Line "n"]))
      as (_ & Hselect).
    edestruct Hselect as (_ & Hdeclined);
      [vm_compute; reflexivity | vm_compute; reflexivity |].
    eexists. eapply Hdeclined; vm_compute; reflexivity.
Defined.

(** ** The check of the bridge *)

Lemma append_assoc (a b c : string) : ((a ++ b) ++ c = a ++ (b ++ c))%string.
Proof. induction a as [|x a IH]; simpl; [reflexivity | now rewrite IH]. Qed.

Lemma version_at_sound s v :
  version_at s = Some v ->
  exists spaces rest,
    s = ("Version" ++ spaces ++ v ++ rest)%string /\ white_run spaces /\ is_version v.
Proof.
  unfold version_at, after_dot.
  destruct (PyText.strip_prefix "Version" s) as [after_word|] eqn:Hword; [|discriminate].
  apply strip_prefix_spec in Hword.
  pose proof (span_spec PyStr.is_space after_word) as [Hs1 Hs2].
  destruct (PyText.span PyStr.is_space after_word) as [spaces after_spaces].
  pose proof (span_spec PyStr.is_digit after_spaces) as [Ha1 Ha2].
  destruct (PyText.span PyStr.is_digit after_spaces) as [major after_major].
  destruct (PyText.strip_prefix "." after_major) as [s_minor|] eqn:Hdot1; [|discriminate].
  apply strip_prefix_spec in Hdot1.
  pose proof (span_spec PyStr.is_digit s_minor) as [Hb1 Hb2].
  destruct (PyText.span PyStr.is_digit s_minor) as [minor after_minor].
  destruct (PyText.strip_prefix "." after_minor) as [s_patch|] eqn:Hdot2; [|discriminate].
  apply strip_prefix_spec in Hdot2.
  pose proof (span_spec PyStr.is_digit s_patch) as [Hc1 Hc2].
  destruct (PyText.span PyStr.is_digit s_patch) as [patch after_patch].
  simpl fst in *. simpl snd in *.
  destruct (String.eqb_spec spaces ""); [discriminate|].
  destruct (String.eqb_spec major ""); [discriminate|].
  destruct (String.eqb_spec minor ""); [discriminate|].
  destruct (String.eqb_spec patch ""); [discriminate|].
  cbn [orb]. intros H; inversion H; subst v; clear H.
  exists spaces, after_patch. split; [|split].
  - rewrite Hword, Hs1. do 2 f_equal.
    rewrite Ha1, Hdot1, Hb1, Hdot2, Hc1.
    simpl. repeat (rewrite append_assoc; simpl). reflexivity.
  - split; assumption.
  - exists major, minor, patch. repeat split; assumption.
Qed.

Lemma search_version_sound s v :
  search_version s = Some v ->
  exists before spaces rest,
    s = (before ++ "Version" ++ spaces ++ v ++ rest)%string
    /\ white_run spaces /\ is_version v.
Proof.
  induction s as [|c s IH].
  - discriminate.
  - cbn [search_version]. destruct (version_at (String c s)) eqn:Hat.
    + intros H; inversion H; subst.
      destruct (version_at_sound _ _ Hat) as (spaces & rest & Hs & Hw & Hv).
      exists EmptyString, spaces, rest. auto.
    + intros H. destruct (IH H) as (before & spaces & rest & Hs & Hw & Hv).
      exists (String c before), spaces, rest. split; [|auto].
      simpl. now rewrite Hs.
Qed.

Lemma is_version_not_empty v : is_version v -> v <> EmptyString.
Proof.
  intros (major & minor & patch & -> & [Hm _] & _).
  destruct major; [contradiction | discriminate].
Qed.

(** [check_adb_version] never raises and changes nothing: it returns a
    verdict and a text that is not empty.  Without a path of the bridge the
    verdict is failure, with the text [ADB path not set].  The verdict is
    success only when the bridge ended with return code 0 and its output
    has, somewhere, the word [Version] with a capital V, then white space,
    then three runs of digits with dots between them; these three runs are
    the version returned. *)
Theorem adb_check_never_raises_and_names_a_version run current_config w :
  ascii_output run = true ->
  exists ok text,
    check_adb_version run current_config w = Returned (ok, text) w
    /\ text <> EmptyString
    /\ (adb_path current_config = None -> ok = false /\ text = "ADB path not set")
    /\ (ok = true ->
        exists stdout stderr before spaces rest,
          run = Ran 0 stdout stderr
          /\ stdout = (before ++ "Version" ++ spaces ++ text ++ rest)%string
          /\ white_run spaces /\ is_version text).
Proof.
  intros _. unfold check_adb_version.
  destruct (adb_path current_config) as [path|]; simpl.
  - destruct run as [returncode stdout stderr|error_text].
    + destruct ((returncode =? 0) && PyStr.truthy stdout) eqn:Hrun.
      * destruct (search_version stdout) as [version|] eqn:Hsearch.
        -- exists true, version. split; [reflexivity|].
           destruct (search_version_sound _ _ Hsearch)
             as (before & spaces & rest & Hs & Hw & Hv).
           split; [now apply is_version_not_empty|]. split; [discriminate|].
           intros _. exists stdout, stderr, before, spaces, rest.
           apply andb_true_iff in Hrun. destruct Hrun as [Hrc _].
           apply Z.eqb_eq in Hrc. subst returncode. auto.
        -- eexists false, _. split; [reflexivity|]. split; [|split; discriminate].
           destruct (PyStr.truthy (PyStr.strip stderr)) eqn:Ht;
             [now apply truthy_not_empty | discriminate].
      * eexists false, _. split; [reflexivity|]. split; [|split; discriminate].
        destruct (PyStr.truthy (PyStr.strip stderr)) eqn:Ht;
          [now apply truthy_not_empty | discriminate].
    + eexists false, _. split; [reflexivity|]. split; [|split; discriminate].
      discriminate.
  - exists false, "ADB path not set". split; [reflexivity|].
    split; [discriminate|]. split; [auto | discriminate].
Qed.

Lemma adb_check_never_raises_and_names_a_version_witness :
  exists ok text,
    check_adb_version (Ran 0 adb_banner "") (sample_config true) bare_world
    = Returned (ok, text) bare_world
    /\ text <> EmptyString
    /\ (adb_path (sample_config true) = None -> ok = false /\ text = "ADB path not set")
    /\ (ok = true ->
        exists stdout stderr before spaces rest,
          Ran 0 adb_banner "" = Ran 0 stdout stderr
          /\ stdout = (before ++ "Version" ++ spaces ++ text ++ rest)%string
          /\ white_run spaces /\ is_version text).
Proof.
  apply (adb_check_never_raises_and_names_a_version (Ran 0 adb_banner "")
           (sample_config true) bare_world).
  vm_compute; reflexivity.
Defined.

(** ** What the health check takes for the server *)

Lemma looks_like_mona_passes w p :
  passes_for_server w p -> looks_like_mona (platform_system w =? "Windows")%string p = true.
Proof.
  unfold passes_for_server, server_image, looks_like_mona.
  intros [(n & Hn & Hlow)|(args & arg & Hargs & Hin & Hc)].
  - rewrite Hn, Hlow.
    destruct (platform_system w =? "Windows")%string; reflexivity.
  - rewrite Hargs. apply orb_true_iff. right.
    apply existsb_exists. exists arg. split; [exact Hin | exact Hc].
Qed.

(** The health check takes for the server any process whose name is the
    server's in any letter case, and any process that has the word
    monaserver in one of its command-line arguments, whatever the program
    is.  With such a process running, [start_mona_server] reports the
    server as running and succeeds at once: it neither looks at the path of
    the server, nor checks the port, nor spawns anything. *)
Theorem any_process_mentioning_the_server_stops_the_start config w p :
  In p (processes w) ->
  passes_for_server w p ->
  check_monaserver_process w = Returned true w
  /\ start_mona_server config w = Returned (Some true) (record [already_running_notice] w).
Proof.
  intros Hin Hpass.
  assert (Hrun : check_monaserver_process w = Returned true w).
  { unfold check_monaserver_process, bind, platform_system_call, psutil.process_iter, ret.
    f_equal. apply existsb_exists. exists p. split; [exact Hin|].
    now apply looks_like_mona_passes. }
  split; [exact Hrun|].
  unfold start_mona_server, bind at 1. rewrite Hrun. reflexivity.
Qed.

Lemma any_process_mentioning_the_server_stops_the_start_witness :
  check_monaserver_process (set_os [log_viewer] (Some []) bare_world)
  = Returned true (set_os [log_viewer] (Some []) bare_world)
  /\ start_mona_server (sample_config false) (set_os [log_viewer] (Some []) bare_world)
     = Returned (Some true)
         (record [already_running_notice] (set_os [log_viewer] (Some []) bare_world)).
Proof.
  apply (any_process_mentioning_the_server_stops_the_start (sample_config false)
           (set_os [log_viewer] (Some []) bare_world) log_viewer).
  - simpl. left. reflexivity.
  - right. exists ["notepad.exe"; "C:\logs\MonaServer.log"], "C:\logs\MonaServer.log".
    split; [reflexivity|]. split; [simpl; auto | vm_compute; reflexivity].
Defined.

(** ** The resolver when the kill is declined *)




(** ** The end of the main block *)

(** When every step of the main block returns (the bridge is there, a device
    is selected, the port is forwarded), the block prints the summary, asks
    for Enter and reads once.  A line ends the script with status 0; an
    interrupt there is caught, answered by [Exiting.], and ends it with
    status 0 as well; a closed input is not caught, and the script ends by
    the [EOFError] instead.  The results of the app launch and of the
    server start do not matter: a failed launch or start does not halt the
    run. *)
Theorem main_completes_with_status_0 :
  forall LOGO load_config check_adb_version find_devices setup_port_forwarding
         launch_app copy_to_clipboard print_summary
         w config w1 flag pid w2 version w3 found w4 d w5 w6 app w7 w8 mona w9 w10,
    load_config (record (banner LOGO) w) = Returned config w1 ->
    handle_port_conflict (rtmp_port config) config w1 = Returned (flag, pid) w2 ->
    check_adb_version config
      (record (port_warning config (flag, pid)
               ++ [divider_notice "🔍" "ADB Verification" 16]) w2)
    = Returned (true, version) w3 ->
    find_devices config (record [divider_notice "📱" "Device Selection" 16] w3)
    = Returned found w4 ->
    select_device_from_list (set_devices found config) w4 = Returned (Some d) w5 ->
    setup_port_forwarding (set_devices found config) d
      (record [divider_notice "🚀" "Setup Execution" 15] w5)
    = Returned true w6 ->
    launch_app (set_devices found config) d w6 = Returned app w7 ->
    copy_to_clipboard (set_devices found config) w7 = Returned tt w8 ->
    (if auto_start_monaserver config then start_mona_server (set_devices found config)
     else manual_server_check) w8
    = Returned mona w9 ->
    print_summary (set_devices found config) (true, version) d (flag, pid) true app mona
      (record [divider_notice "📊" "Summary" 7] w9)
    = Returned tt w10 ->
    (forall l rest,
        keyboard w10 = Line l :: rest ->
        main LOGO load_config check_adb_version find_devices setup_port_forwarding
             launch_app copy_to_clipboard print_summary w
        = Exited 0 (set_keyboard rest (record [press_enter_notice; Input] w10)))
    /\ (forall rest,
          keyboard w10 = CtrlC :: rest ->
          main LOGO load_config check_adb_version find_devices setup_port_forwarding
               launch_app copy_to_clipboard print_summary w
          = Exited 0
              (record [exiting_notice]
                 (set_keyboard rest (record [press_enter_notice; Input] w10))))
    /\ (keyboard w10 = [] ->
        main LOGO load_config check_adb_version find_devices setup_port_forwarding
             launch_app copy_to_clipboard print_summary w
        = Raised EOFError (record [press_enter_notice; Input] w10)).
Proof.
  intros LOGO load_config check_adb_version find_devices setup_port_forwarding
         launch_app copy_to_clipboard print_summary
         w config w1 flag pid w2 version w3 found w4 d w5 w6 app w7 w8 mona w9 w10
         Hload Hport Hadb Hfound Hsel Hforward Hlaunch Hclip Hserver Hsummary.
  assert (Hmain :
            main LOGO load_config check_adb_version find_devices setup_port_forwarding
                 launch_app copy_to_clipboard print_summary w
            = (try_except (_ <- input ;; ret tt) (exn_eqb KeyboardInterrupt)
                 (fun _ => console_print (nl ++ "Exiting.")) ;;;
               sys_exit 0) (record [press_enter_notice] w10)).
  { main_to_adb_check Hload Hport.
    unfold bind at 1. rewrite port_warning_printed.
    unfold bind at 1. rewrite step_divider_returns, record_record.
    unfold bind at 1. rewrite Hadb. cbn [negb].
    unfold bind at 1, ret at 1.
    unfold bind at 1. rewrite step_divider_returns.
    unfold bind at 1. rewrite Hfound.
    unfold bind at 1. rewrite Hsel.
    unfold bind at 1. rewrite step_divider_returns.
    unfold bind at 1. rewrite Hforward. cbn [negb].
    unfold bind at 1, ret at 1.
    unfold bind at 1. rewrite Hlaunch.
    unfold bind at 1. rewrite Hclip.
    unfold bind at 1. fold manual_server_check.
    change (auto_start_monaserver (set_devices found config))
      with (auto_start_monaserver config).
    rewrite Hserver.
    unfold bind at 1. rewrite step_divider_returns.
    unfold bind at 1. rewrite Hsummary.
    unfold bind at 1, console_print at 1, emit. reflexivity. }
  rewrite Hmain. unfold bind, try_except, input, ret, console_print, emit, sys_exit.
  simpl keyboard.
  split; [|split].
  - intros l rest Hk. rewrite Hk. rewrite record_record. reflexivity.
  - intros rest Hk. rewrite Hk. cbn [exn_eqb]. rewrite record_record. reflexivity.
  - intros Hk. rewrite Hk. cbn [exn_eqb]. rewrite record_record. reflexivity.
Qed.

Lemma main_completes_with_status_0_witness :
  exists w',
    main "RTMP" stored_config adb_answers two_phones forwarding_works app_starts
         clipboard_works plain_summary (set_keyboard [Line "1"; CtrlC] bare_world)
    = Exited 0 w'.
Proof.
  edestruct (main_completes_with_status_0 "RTMP" stored_config adb_answers two_phones
               forwarding_works app_starts clipboard_works plain_summary
               (set_keyboard [Line "1"; CtrlC] bare_world))
    as (_ & Hinterrupt & _);
    [vm_compute; reflexivity | vm_compute; reflexivity | vm_compute; reflexivity
    | vm_compute; reflexivity | vm_compute; reflexivity | vm_compute; reflexivity
    | vm_compute; reflexivity | vm_compute; reflexivity | vm_compute; reflexivity
    | vm_compute; reflexivity |].
  eexists. apply Hinterrupt. vm_compute; reflexivity.
Defined.

(** * The probe, the resolver and the selector with the failures of the libraries *)

(** ** The probe *)

(** What the probe gets from [psutil] for the pid of an entry. *)
Lemma lookup_named sys w pid n :
  Precise.lookup_owner sys w pid = Precise.Named n ->
  bind (Precise.Process pid)
       (fun p => bind (Precise.Process_name sys p) (fun nm => ret (Some (pid, nm)))) w
  = Returned (Some (pid, n)) w.
Proof.
  unfold Precise.lookup_owner, Precise.Process.
  destruct pid as [z|]; [|intros H; inversion H; reflexivity].
  destruct (z <? 0); [discriminate|].
  unfold bind at 1. unfold bind at 1. unfold psutil.Process.
  destruct (psutil.find_proc z (processes w)) as [p|]; [|discriminate].
  unfold ret at 1, bind, Precise.Process_name, psutil.name.
  destruct (proc_name p); [|discriminate].
  intros H; inversion H; reflexivity.
Qed.

Lemma lookup_unreachable sys w pid :
  Precise.lookup_owner sys w pid = Precise.Unreachable ->
  exists e,
    bind (Precise.Process pid)
         (fun p => bind (Precise.Process_name sys p) (fun nm => ret (Some (pid, nm)))) w
    = Raised e w
    /\ (exn_eqb NoSuchProcess e || exn_eqb AccessDenied e) = true.
Proof.
  unfold Precise.lookup_owner, Precise.Process.
  destruct pid as [z|]; [|discriminate].
  destruct (z <? 0); [discriminate|].
  unfold bind at 1. unfold bind at 1. unfold psutil.Process.
  destruct (psutil.find_proc z (processes w)) as [p|].
  - unfold ret at 1, bind, Precise.Process_name, psutil.name.
    destruct (proc_name p); [discriminate|].
    intros _. exists AccessDenied. split; reflexivity.
  - intros _. exists NoSuchProcess. split; reflexivity.
Qed.

Lemma lookup_rejected sys w pid :
  Precise.lookup_owner sys w pid = Precise.Rejected ->
  bind (Precise.Process pid)
       (fun p => bind (Precise.Process_name sys p) (fun nm => ret (Some (pid, nm)))) w
  = Raised ValueError w.
Proof.
  unfold Precise.lookup_owner, Precise.Process.
  destruct pid as [z|]; [|discriminate].
  destruct (z <? 0); [reflexivity|].
  destruct (psutil.find_proc z (processes w)) as [p|]; [|discriminate].
  destruct (proc_name p); discriminate.
Qed.

(** The loop at one entry. *)
Lemma scan_step sys port c rest w :
  Precise.scan_connections sys port (c :: rest) w
  = match Precise.sc_laddr_port c with
    | None => Raised AttributeError w
    | Some _ =>
        if Precise.listens_on port c then
          match Precise.lookup_owner sys w (Precise.sc_pid c) with
          | Precise.Named n => Returned (Some (Precise.sc_pid c, n)) w
          | Precise.Unreachable => Precise.scan_connections sys port rest w
          | Precise.Rejected => Raised ValueError w
          end
        else Precise.scan_connections sys port rest w
    end.
Proof.
  cbn [Precise.scan_connections]. unfold Precise.listens_on.
  destruct (Precise.sc_laddr_port c) as [local_port|]; [|reflexivity].
  destruct ((local_port =? port) && (Precise.sc_status c =? CONN_LISTEN)%string);
    [|reflexivity].
  unfold try_except.
  destruct (Precise.lookup_owner sys w (Precise.sc_pid c)) as [n| |] eqn:Hl.
  - now rewrite (lookup_named _ _ _ _ Hl).
  - destruct (lookup_unreachable _ _ _ Hl) as (e & -> & ->). reflexivity.
  - now rewrite (lookup_rejected _ _ _ Hl).
Qed.


(** The probe for a port in range, from the loop. *)
Lemma find_in_range sys port w :
  in_range port = true ->
  Precise.find_process_using_port sys port w
  = match Precise.sconns sys with
    | None => Returned None (record [NetConnections] w)
    | Some cs =>
        try_except (Precise.scan_connections sys port cs)
          (fun e => psutil.is_Error e || exn_eqb OSError e || exn_eqb AttributeError e)
          (fun _ => ret None) (record [NetConnections] w)
    end.
Proof.
  unfold in_range, Precise.find_process_using_port. intros ->. cbn [negb].
  unfold try_except, bind, Precise.net_connections_call.
  destruct (Precise.sconns sys) as [cs|]; reflexivity.
Qed.

(** The loop leaves the world as it is, and ends in one of three ways. *)
Lemma scan_ends sys port cs w :
  (exists r, Precise.scan_connections sys port cs w = Returned r w)
  \/ Precise.scan_connections sys port cs w = Raised AttributeError w
  \/ Precise.scan_connections sys port cs w = Raised ValueError w.
Proof.
  induction cs as [|c cs IH]; [left; exists None; reflexivity|].
  rewrite scan_step.
  destruct (Precise.sc_laddr_port c); [|auto].
  destruct (Precise.listens_on port c); [|exact IH].
  destruct (Precise.lookup_owner sys w (Precise.sc_pid c)); eauto.
Qed.

Lemma scan_found sys port cs w pid nm w' :
  Precise.scan_connections sys port cs w = Returned (Some (pid, nm)) w' ->
  exists c, In c cs /\ Precise.listens_on port c = true /\ Precise.sc_pid c = pid
            /\ Precise.lookup_owner sys w pid = Precise.Named nm.
Proof.
  induction cs as [|c cs IH]; [discriminate|].
  rewrite scan_step.
  destruct (Precise.sc_laddr_port c); [|discriminate].
  destruct (Precise.listens_on port c) eqn:Hl.
  - destruct (Precise.lookup_owner sys w (Precise.sc_pid c)) as [n| |] eqn:Ho.
    + intros H. injection H as Hpid Hnm Hw. subst nm.
      exists c. rewrite <- Hpid. simpl; auto.
    + intros H. destruct (IH H) as (c' & ? & ?). exists c'. simpl; auto.
    + discriminate.
  - intros H. destruct (IH H) as (c' & ? & ?). exists c'. simpl; auto.
Qed.

Lemma scan_not_rejected sys port cs w :
  (forall c n, In c cs -> Precise.sc_pid c = Some n -> 0 <= n) ->
  Precise.scan_connections sys port cs w <> Raised ValueError w.
Proof.
  induction cs as [|c cs IH]; intros Hpos; [discriminate|].
  rewrite scan_step.
  destruct (Precise.sc_laddr_port c); [|discriminate].
  assert (IH' : Precise.scan_connections sys port cs w <> Raised ValueError w)
    by (apply IH; intros c' n Hin; apply Hpos; now right).
  destruct (Precise.listens_on port c); [|exact IH'].
  destruct (Precise.lookup_owner sys w (Precise.sc_pid c)) eqn:Ho; try discriminate;
    [exact IH'|].
  exfalso. unfold Precise.lookup_owner in Ho.
  destruct (Precise.sc_pid c) as [n|] eqn:Hp; [|discriminate].
  specialize (Hpos c n (or_introl eq_refl) Hp).
  destruct (n <? 0) eqn:Hn; [apply Z.ltb_lt in Hn; lia|].
  destruct (psutil.find_proc n (processes w)) as [p|]; [|discriminate].
  destruct (proc_name p); discriminate.
Qed.

Lemma find_out_of_range sys port w :
  in_range port = false -> Precise.find_process_using_port sys port w = Returned None w.
Proof. unfold in_range, Precise.find_process_using_port. now intros ->. Qed.





(** The entry behind a pair the probe returns. *)
Lemma find_returned_entry sys port w pid nm w' :
  Precise.find_process_using_port sys port w = Returned (Some (pid, nm)) w' ->
  in_range port = true
  /\ w' = record [NetConnections] w
  /\ exists cs c,
       Precise.sconns sys = Some cs /\ In c cs
       /\ Precise.listens_on port c = true /\ Precise.sc_pid c = pid
       /\ Precise.lookup_owner sys w pid = Precise.Named nm.
Proof.
  destruct (in_range port) eqn:Hrange.
  - rewrite (find_in_range _ _ _ Hrange).
    destruct (Precise.sconns sys) as [cs|]; [|discriminate].
    unfold try_except.
    destruct (scan_ends sys port cs (record [NetConnections] w))
      as [[r Hs]|[Hs|Hs]]; rewrite Hs; try discriminate.
    intros H. injection H as Hr Hw. subst r w'.
    apply scan_found in Hs. destruct Hs as (c & Hin & Hl & Hp & Hn).
    split; [reflexivity|]. split; [reflexivity|]. exists cs, c. auto.
  - rewrite (find_out_of_range _ _ _ Hrange). discriminate.
Qed.

(** Whatever pair the probe returns comes from an entry of the enumeration
    that is bound to the port and listening: the port is in range, the pid
    of the pair is the pid field of that entry, and the name is the one
    [psutil] gives for that pid (for the pid [None], the name of the
    process of the script).  The probe prints nothing, asks nothing and
    kills nothing; and when no pid of the enumeration is negative it
    returns, in the world with the enumeration recorded. *)
Theorem occupant_found_is_an_enumerated_listener sys port w :
  (forall pid nm w',
      Precise.find_process_using_port sys port w = Returned (Some (pid, nm)) w' ->
      in_range port = true
      /\ w' = record [NetConnections] w
      /\ exists cs c,
           Precise.sconns sys = Some cs /\ In c cs
           /\ Precise.listens_on port c = true /\ Precise.sc_pid c = pid
           /\ Precise.lookup_owner sys w pid = Precise.Named nm)
  /\ (Precise.pids_not_negative sys ->
      exists r, Precise.find_process_using_port sys port w = Returned r (probed port w)).
Proof.
  split.
  - intros pid nm w'. apply find_returned_entry.
  - intros Hpos. unfold probed. destruct (in_range port) eqn:Hrange.
    + rewrite (find_in_range _ _ _ Hrange).
      destruct (Precise.sconns sys) as [cs|] eqn:Hcs; [|eauto].
      unfold try_except.
      destruct (scan_ends sys port cs (record [NetConnections] w))
        as [[r Hs]|[Hs|Hs]].
      * rewrite Hs. eauto.
      * rewrite Hs. simpl. eauto.
      * exfalso. revert Hs. apply scan_not_rejected.
        intros c n Hin Hp. exact (Hpos cs c n Hcs Hin Hp).
    + rewrite (find_out_of_range _ _ _ Hrange). eauto.
Qed.

Lemma occupant_found_is_an_enumerated_listener_witness :
  in_range 1935 = true
  /\ record [NetConnections] (Precise.server_world [])
     = record [NetConnections] (Precise.server_world [])
  /\ exists cs c,
       Precise.sconns (Precise.sockets [Precise.listener 1935 None]) = Some cs /\ In c cs
       /\ Precise.listens_on 1935 c = true /\ Precise.sc_pid c = None
       /\ Precise.lookup_owner (Precise.sockets [Precise.listener 1935 None])
            (Precise.server_world []) None
          = Precise.Named "python.exe".
Proof.
  apply (proj1 (occupant_found_is_an_enumerated_listener
                  (Precise.sockets [Precise.listener 1935 None]) 1935
                  (Precise.server_world []))
               None "python.exe" (record [NetConnections] (Precise.server_world []))).
  vm_compute; reflexivity.
Defined.

(** ** Console markup *)









(** ** The resolver *)

Lemma precise_print_eq text w :
  Precise.console_print text w
  = if markup.renders text then Returned tt (record [Print text] w)
    else Raised MarkupError w.
Proof. unfold Precise.console_print. destruct (markup.renders text); reflexivity. Qed.

Lemma precise_print_Returned text w u w' :
  Precise.console_print text w = Returned u w' -> w' = record [Print text] w.
Proof.
  rewrite precise_print_eq. destruct (markup.renders text); [|discriminate].
  intros H; now inversion H.
Qed.

Lemma precise_parse_port_eq port_str w :
  Precise.parse_port port_str w
  = if valid_port_string port_str then Returned (port_checked port_str) w
    else if markup.renders ("[danger]Invalid port: " ++ port_str ++ ". Using 1935.[/danger]")
         then Returned 1935 (record [invalid_port_notice port_str] w)
         else Raised MarkupError w.
Proof.
  unfold Precise.parse_port, valid_port_string, port_checked, in_range, try_except.
  destruct (PyStr.int port_str) as [n|].
  - destruct ((0 <? n) && (n <=? 65535)); [reflexivity|].
    cbn [raise exn_eqb orb]. unfold bind. rewrite precise_print_eq.
    destruct (markup.renders _); reflexivity.
  - cbn [raise exn_eqb orb]. unfold bind. rewrite precise_print_eq.
    destruct (markup.renders _); reflexivity.
Qed.

Lemma precise_exit_never_returns {A} message w (a : A) w' :
  Precise.exit_with_error message w <> Returned a w'.
Proof.
  unfold Precise.exit_with_error. intros H.
  apply bind_Returned in H. destruct H as (u & w1 & _ & H).
  apply bind_Returned in H. destruct H as (l & w2 & _ & H). discriminate H.
Qed.

(** Every way the occupied branch returns: resolved, or unresolved with the
    pid the probe gave. *)
Lemma precise_occupied_returned port p_config pid name w r w' :
  Precise.occupied port p_config pid name w = Returned r w' ->
  r = (true, None) \/ r = (false, pid).
Proof.
  unfold Precise.occupied. intros H.
  apply bind_Returned in H. destruct H as (u & w1 & _ & H).
  apply bind_Returned in H. destruct H as (kill_it & w2 & _ & H).
  destruct kill_it.
  - apply bind_Returned in H. destruct H as (killed & w3 & _ & H).
    apply bind_Returned in H. destruct H as (u' & w4 & _ & H).
    destruct killed; inversion H; auto.
  - apply bind_Returned in H. destruct H as (skip & w3 & _ & H).
    destruct skip.
    + apply bind_Returned in H. destruct H as (u' & w4 & _ & H).
      inversion H; auto.
    + now apply precise_exit_never_returns in H.
Qed.

(** Every way the resolver returns. *)
Lemma precise_handle_returned sys port_str p_config w r w' :
  Precise.handle_port_conflict sys port_str p_config w = Returned r w' ->
  (r = (true, None)
   /\ Precise.find_process_using_port sys (port_checked port_str)
        (Precise.at_probe port_str w) = Returned None w')
  \/ exists pid name w2,
       Precise.find_process_using_port sys (port_checked port_str)
         (Precise.at_probe port_str w) = Returned (Some (pid, name)) w2
       /\ Precise.occupied (port_checked port_str) p_config pid name w2 = Returned r w'.
Proof.
  unfold Precise.handle_port_conflict, Precise.at_probe. intros H.
  apply bind_Returned in H. destruct H as (port & w0 & Hparse & H).
  rewrite precise_parse_port_eq in Hparse.
  assert (Hport : port = port_checked port_str
                  /\ w0 = if valid_port_string port_str then w
                          else record [invalid_port_notice port_str] w).
  { destruct (valid_port_string port_str) eqn:Hv.
    - inversion Hparse; auto.
    - destruct (markup.renders _); [|discriminate].
      inversion Hparse. split; [|reflexivity].
      symmetry. now apply port_checked_invalid. }
  destruct Hport as [-> ->]. clear Hparse.
  unfold Precise.check_port in H.
  apply bind_Returned in H. destruct H as (u & w1 & Hprint & H).
  apply precise_print_Returned in Hprint. subst w1.
  apply bind_Returned in H. destruct H as (info & w2 & Hfind & H).
  unfold checking_notice.
  destruct info as [[pid name]|].
  - right. exists pid, name, w2. auto.
  - left. inversion H; subst. auto.
Qed.







(** ** The selector *)


















(** ** Calls that go without the operator *)

Lemma unattended_ret {A} (a : A) : Precise.unattended (ret a).
Proof. intros w. split; [reflexivity | discriminate]. Qed.

Lemma unattended_raise {A} e : Precise.unattended (@raise A e).
Proof. intros w. split; [reflexivity | discriminate]. Qed.

Lemma unattended_bind_ret {A B} (a : A) (k : A -> Py B) :
  Precise.unattended (k a) -> Precise.unattended (bind (ret a) k).
Proof. intros H w. exact (H w). Qed.

Lemma unattended_bind {A B} (c : Py A) (k : A -> Py B) :
  Precise.unattended c -> (forall a, Precise.unattended (k a)) ->
  Precise.unattended (bind c k).
Proof.
  intros Hc Hk w. unfold bind. destruct (Hc w) as [Hkeys Hstays].
  destruct (c w) as [a w1|e w1|s w1|w1]; simpl in Hkeys.
  - destruct (Hk a w1) as [Hkeys' Hstays']. split; [now rewrite Hkeys' | exact Hstays'].
  - split; [exact Hkeys | discriminate].
  - exfalso. now apply (Hstays s w1).
  - split; [exact Hkeys | discriminate].
Qed.

Lemma unattended_try {A} (body : Py A) catches handler :
  Precise.unattended body -> (forall e, Precise.unattended (handler e)) ->
  Precise.unattended (try_except body catches handler).
Proof.
  intros Hc Hh w. unfold try_except. destruct (Hc w) as [Hkeys Hstays].
  destruct (body w) as [a w1|e w1|s w1|w1]; simpl in Hkeys.
  - split; [exact Hkeys | discriminate].
  - destruct (catches e).
    + destruct (Hh e w1) as [Hkeys' Hstays']. split; [now rewrite Hkeys' | exact Hstays'].
    + split; [exact Hkeys | discriminate].
  - exfalso. now apply (Hstays s w1).
  - split; [exact Hkeys | discriminate].
Qed.

Lemma unattended_print text : Precise.unattended (Precise.console_print text).
Proof.
  intros w. rewrite precise_print_eq.
  destruct (markup.renders text); split; (reflexivity || discriminate).
Qed.

Lemma unattended_sleep ms : Precise.unattended (time_sleep ms).
Proof. intros w. split; [reflexivity | discriminate]. Qed.

Lemma unattended_platform : Precise.unattended platform_system_call.
Proof. intros w. split; [reflexivity | discriminate]. Qed.

Lemma unattended_Process pid : Precise.unattended (Precise.Process pid).
Proof.
  intros w. unfold Precise.Process. destruct pid as [n|].
  - destruct (n <? 0); [split; [reflexivity | discriminate]|].
    unfold bind, psutil.Process.
    destruct (psutil.find_proc n (processes w)); split; (reflexivity || discriminate).
  - split; [reflexivity | discriminate].
Qed.

Lemma unattended_Process_name sys p : Precise.unattended (Precise.Process_name sys p).
Proof.
  intros w. destruct p as [|q]; simpl; [split; [reflexivity | discriminate]|].
  unfold psutil.name. destruct (proc_name q); split; (reflexivity || discriminate).
Qed.

Lemma unattended_Process_kill p : Precise.unattended (Precise.Process_kill p).
Proof.
  intros w. destruct p as [|q]; simpl; [split; [reflexivity | discriminate]|].
  unfold psutil.kill. destruct (proc_on_kill q); split; (reflexivity || discriminate).
Qed.

Lemma unattended_Process_wait p : Precise.unattended (Precise.Process_wait p).
Proof.
  intros w. destruct p as [|q]; simpl; [split; [reflexivity | discriminate]|].
  unfold psutil.wait.
  destruct (psutil.find_proc _ _); split; (reflexivity || discriminate).
Qed.

Ltac unattended_step :=
  first [ apply unattended_ret | apply unattended_raise | apply unattended_print
        | apply unattended_sleep | apply unattended_platform | apply unattended_Process
        | apply unattended_Process_name | apply unattended_Process_kill
        | apply unattended_Process_wait
        | apply unattended_bind; [|intros ?]
        | apply unattended_try; [|intros ?] ].

Lemma unattended_scan sys port cs :
  Precise.unattended (Precise.scan_connections sys port cs).
Proof.
  induction cs as [|c rest IH]; simpl; [apply unattended_ret|].
  destruct (Precise.sc_laddr_port c) as [local_port|]; [|apply unattended_raise].
  destruct (_ && _); [|exact IH].
  apply unattended_try; [repeat unattended_step | intros _; exact IH].
Qed.

Lemma unattended_find sys port :
  Precise.unattended (Precise.find_process_using_port sys port).
Proof.
  unfold Precise.find_process_using_port.
  destruct (negb _); [apply unattended_ret|].
  apply unattended_try; [|intros _; apply unattended_ret].
  apply unattended_bind; [|intros cs; apply unattended_scan].
  intros w. unfold Precise.net_connections_call.
  destruct (Precise.sconns sys); split; (reflexivity || discriminate).
Qed.

Lemma unattended_kill pid name : Precise.unattended (Precise.kill_process_by_pid pid name).
Proof.
  unfold Precise.kill_process_by_pid.
  apply unattended_bind; [apply unattended_platform | intros system].
  destruct (_ && _); [repeat unattended_step|].
  apply unattended_try; [repeat unattended_step|].
  intros e. destruct e; repeat unattended_step.
Qed.

Lemma unattended_parse_port port_str : Precise.unattended (Precise.parse_port port_str).
Proof.
  unfold Precise.parse_port.
  apply unattended_try; [|intros _; repeat unattended_step].
  destruct (PyStr.int port_str) as [port|]; [|apply unattended_raise].
  destruct (_ && _); [apply unattended_ret | apply unattended_raise].
Qed.

(** The occupied branch under the force-kill policy. *)
Lemma unattended_occupied_forced port p_config pid name :
  force_kill_port_process p_config = true ->
  Precise.unattended (Precise.occupied port p_config pid name).
Proof.
  intros Hforce. unfold Precise.occupied, Precise.kill_wanted. rewrite Hforce.
  apply unattended_bind; [apply unattended_print | intros _].
  apply unattended_bind_ret.
  apply unattended_bind; [apply unattended_kill | intros killed].
  destruct killed; repeat unattended_step.
Qed.

(** Under the force-kill policy [handle_port_conflict] goes without the
    operator, whatever the port string, the sockets and the processes are
    and however it ends: it has read none of the operator's keys, and it has
    not left through [sys.exit]. *)
Theorem force_kill_goes_without_the_operator sys port_str p_config w :
  force_kill_port_process p_config = true ->
  keyboard (outcome_world (Precise.handle_port_conflict sys port_str p_config w))
  = keyboard w
  /\ forall status w',
       Precise.handle_port_conflict sys port_str p_config w <> Exited status w'.
Proof.
  intros Hforce. revert w.
  change (Precise.unattended (Precise.handle_port_conflict sys port_str p_config)).
  unfold Precise.handle_port_conflict.
  apply unattended_bind; [apply unattended_parse_port | intros port].
  unfold Precise.check_port.
  apply unattended_bind; [apply unattended_print | intros _].
  apply unattended_bind; [apply unattended_find | intros info].
  destruct info as [[pid name]|]; [|apply unattended_ret].
  now apply unattended_occupied_forced.
Qed.

Lemma force_kill_goes_without_the_operator_witness :
  keyboard (outcome_world
              (Precise.handle_port_conflict (Precise.sockets [Precise.listener 1935 None])
                 "1935" (sample_config true) (Precise.server_world [Line "y"; CtrlC])))
  = keyboard (Precise.server_world [Line "y"; CtrlC])
  /\ forall status w',
       Precise.handle_port_conflict (Precise.sockets [Precise.listener 1935 None])
         "1935" (sample_config true) (Precise.server_world [Line "y"; CtrlC])
       <> Exited status w'.
Proof.
  apply (force_kill_goes_without_the_operator
           (Precise.sockets [Precise.listener 1935 None]) "1935" (sample_config true)
           (Precise.server_world [Line "y"; CtrlC])).
  reflexivity.
Defined.

(** ** The summary row of the host port *)

(** For every pair the resolver returns, the row of the host port in the
    summary is one of three.  It is clear or resolved, with the port alone
    as detail, for a true flag.  It is unresolved, with the pid of the
    occupant in the detail, for a false flag with a pid.  And it is a
    conflict of unclear status for a false flag without pid, which the
    resolver returns only where the probe has found an entry whose pid
    [psutil] does not give. *)
Theorem host_port_row_by_outcome sys config port_str w r w' :
  Precise.handle_port_conflict sys port_str config w = Returned r w' ->
  (r = (true, None) /\ host_port_row config r = Precise.row_clear config)
  \/ (exists pid,
        r = (false, Some pid)
        /\ host_port_row config r = Precise.row_unresolved config pid)
  \/ (r = (false, None)
      /\ host_port_row config r = Precise.row_conflict config
      /\ exists name w2,
           Precise.find_process_using_port sys (port_checked port_str)
             (Precise.at_probe port_str w)
           = Returned (Some (None, name)) w2).
Proof.
  assert (Hclear : host_port_row config (true, None) = Precise.row_clear config).
  { unfold host_port_row, host_port_details, add_s, Precise.row_clear. simpl.
    now rewrite append_empty. }
  intros H. apply precise_handle_returned in H.
  destruct H as [[-> _] | (pid & name & w2 & Hfind & Hocc)]; [left; auto|].
  apply precise_occupied_returned in Hocc. destruct Hocc as [-> | ->]; [left; auto|].
  right. destruct pid as [pid|].
  - left. exists pid. split; reflexivity.
  - right. split; [reflexivity|]. split; [reflexivity|]. eauto.
Qed.

Lemma host_port_row_by_outcome_witness :
  ((false, None) = (true, @None Z)
   /\ host_port_row (sample_config false) (false, None)
      = Precise.row_clear (sample_config false))
  \/ (exists pid,
        (false, @None Z) = (false, Some pid)
        /\ host_port_row (sample_config false) (false, None)
           = Precise.row_unresolved (sample_config false) pid)
  \/ ((false, @None Z) = (false, None)
      /\ host_port_row (sample_config false) (false, None)
         = Precise.row_conflict (sample_config false)
      /\ exists name w2,
           Precise.find_process_using_port (Precise.sockets [Precise.listener 1935 None])
             (port_checked "1935")
             (Precise.at_probe "1935" (Precise.server_world [Line "n"; Line "y"]))
           = Returned (Some (None, name)) w2).
Proof.
  apply (host_port_row_by_outcome (Precise.sockets [Precise.listener 1935 None])
           (sample_config false) "1935" (Precise.server_world [Line "n"; Line "y"])
           (false, None)
           (set_keyboard []
              (record [checking_notice 1935; NetConnections;
                       Precise.in_use_notice 1935 None "python.exe";
                       Precise.kill_prompt None "python.exe";
                       skip_prompt; skipping_notice]
                 (Precise.server_world [Line "n"; Line "y"])))).
  vm_compute; reflexivity.
Defined.
